(** * RuTaBERT: the trainer, its checkpoints and the batch utilities

    A shallow embedding of [src/utils/functions.py], [src/model/metric.py]
    and [src/trainer/trainer.py], and the properties of the training loop:
    device preparation, collation, token-logit extraction, the filtering of
    state dict keys, the loss and the metrics of an epoch, best-value
    tracking, periodic saving, the checkpoint round trip and resumption.

    - Python [int] is [Z]; Python [str] is [string].
    - A raised exception is the [Raise] case of [result]; computations are
      sequenced with stdpp's bind, in the order in which Python evaluates.
      A run that raises is over: the state it leaves is not modelled.
    - A torch tensor is its shape together with an indexing function
      ([Tensor2], [Tensor3]); a 1-d tensor is a list.
    - Floating point values (losses, F1 scores, logits) are elements of an
      abstract type [F]: the program only adds them, divides them by an
      integer, compares them and converts them to float32, and these
      operations are taken as they are from the runtime; nothing is assumed
      of the comparison, which fails on NaN.
    - The pretrained model, the loss, the optimizer, the learning rate
      scheduler and the torcheval F1 function are external collaborators,
      taken as section variables.  A model or optimizer is identified with
      its state dict; a data loader yields the same batches at every epoch.
    - [torch.save] and [torch.load] write and read a store of files; failures
      of the file system are not modelled.
    - The constructor of the trainer raises when it is given no logger; the
      lines a logger is sent are not recorded. *)

From Stdlib Require Import ZArith QArith Lia Bool DecimalString DecimalPos DecimalZ.
From Stdlib Require Import SpecFloat.
From stdpp Require Import gmap strings list fin_maps sorting.

Local Open Scope Z_scope.

(** ** Exceptions and results *)

Inductive exn : Type :=
| TypeError
| AttributeError
| KeyError
| IndexError
| ValueError
| RuntimeError
| ZeroDivisionError
| FileNotFoundError.

Inductive result (A : Type) : Type :=
| Ok (a : A)
| Raise (e : exn).

Arguments Ok {A} a.
Arguments Raise {A} e.

(** Sequencing: the first exception raised ends the computation. *)
#[global] Instance result_bind : MBind result := fun A B k r =>
  match r with
  | Ok a => k a
  | Raise e => Raise e
  end.

#[global] Instance result_ret : MRet result := fun A a => Ok a.

Definition of_option {A : Type} (e : exn) (o : option A) : result A :=
  match o with
  | Some a => Ok a
  | None => Raise e
  end.

Lemma bind_Ok_inv {A B : Type} (r : result A) (k : A -> result B) (b : B) :
  r ≫= k = Ok b -> exists a, r = Ok a /\ k a = Ok b.
Proof. destruct r as [a|e]; simpl; intros H; [eauto | discriminate]. Qed.

(** Python's [str(int)]: decimal digits, a leading minus sign for negatives. *)
Definition str_int (z : Z) : string := NilZero.string_of_int (Z.to_int z).

(** Python's [range(a, b)] over integers. *)
Definition range (a b : Z) : list Z :=
  map (fun i : nat => a + Z.of_nat i) (seq 0 (Z.to_nat (b - a))).

(** ** Tensors *)

(** A 2-d tensor: its shape and its elements by index. *)
Record Tensor2 (A : Type) : Type := mkT2 {
  dim0 : nat;
  dim1 : nat;
  at2 : nat -> nat -> A
}.
Arguments mkT2 {A} _ _ _.
Arguments dim0 {A} _.
Arguments dim1 {A} _.
Arguments at2 {A} _ _ _.

(** A 3-d tensor. *)
Record Tensor3 (A : Type) : Type := mkT3 {
  shape0 : nat;
  shape1 : nat;
  shape2 : nat;
  at3 : nat -> nat -> nat -> A
}.
Arguments mkT3 {A} _ _ _ _.
Arguments shape0 {A} _.
Arguments shape1 {A} _.
Arguments shape2 {A} _.
Arguments at3 {A} _ _ _ _.

(** [t.tolist()] of a 2-d tensor. *)
Definition tolist2 {A : Type} (t : Tensor2 A) : list (list A) :=
  map (fun i => map (fun j => at2 t i j) (seq 0 (dim1 t))) (seq 0 (dim0 t)).

(** [t.T] of a 2-d tensor. *)
Definition transpose {A : Type} (t : Tensor2 A) : Tensor2 A :=
  mkT2 (dim1 t) (dim0 t) (fun i j => at2 t j i).

(** ** [prepare_device] *)

Inductive device : Type :=
| cuda0
| cpu.

Definition warn_no_gpu : string :=
  "Warning: No GPU available on this machine, training will be performed on CPU."%string.

Definition warn_too_many (n_gpu_use num_gpu : Z) : string :=
  ("Warning: The number of GPU configured to use is " +:+ str_int n_gpu_use
   +:+ ", but only " +:+ str_int num_gpu +:+ " are available")%string.

(** [prepare_device(n_gpu_use)]; [num_gpu] is what [torch.cuda.device_count()]
    answers.  The result carries the lines printed, oldest first. *)
Definition prepare_device (num_gpu : Z) (n_gpu_use : Z)
  : (device * list Z) * list string :=
  let '(n_gpu_use, out) :=
    if (0 <? n_gpu_use) && (num_gpu =? 0)
    then (0, [warn_no_gpu])
    else (n_gpu_use, []) in
  let '(n_gpu_use, out) :=
    if num_gpu <? n_gpu_use
    then (num_gpu, out ++ [warn_too_many n_gpu_use num_gpu])
    else (n_gpu_use, out) in
  let dev := if 0 <? n_gpu_use then cuda0 else cpu in
  let list_ids := range 0 n_gpu_use in
  ((dev, list_ids), out).

(** The count [prepare_device] ends up using after both clamps. *)
Definition clamped_count (num_gpu n_gpu_use : Z) : Z :=
  let n1 := if (0 <? n_gpu_use) && (num_gpu =? 0) then 0 else n_gpu_use in
  if num_gpu <? n1 then num_gpu else n1.


(** ** [collate] *)

(** One item of the dataset: [sample["data"]] and [sample["labels"]], both
    1-d integer tensors. *)
Record sample : Type := mkSample {
  s_data : list Z;
  s_labels : list Z
}.

(** A collated batch: [batch["data"]] and [batch["labels"]]. *)
Record batch : Type := mkBatch {
  b_data : Tensor2 Z;
  b_labels : list Z
}.

(** Length of the longest sequence. *)
Definition max_len (seqs : list (list Z)) : nat :=
  foldr Nat.max 0%nat (map length seqs).

(** [torch.nn.utils.rnn.pad_sequence(seqs)] with its defaults
    ([batch_first=False], [padding_value=0]): a tensor of shape
    (longest length, number of sequences) holding sequence [b] in column
    [b], zeros below its end.  An empty list of sequences is refused. *)
Definition pad_sequence (seqs : list (list Z)) : result (Tensor2 Z) :=
  match seqs with
  | [] => Raise RuntimeError
  | _ :: _ =>
      Ok (mkT2 (max_len seqs) (length seqs)
               (fun t b => nth t (nth b seqs []) 0))
  end.

(** [torch.cat(ts)] of 1-d tensors; an empty list of tensors is refused. *)
Definition torch_cat (ts : list (list Z)) : result (list Z) :=
  match ts with
  | [] => Raise RuntimeError
  | _ :: _ => Ok (concat ts)
  end.

Definition collate (samples : list sample) : result batch :=
  data ← pad_sequence (map s_data samples);
  labels ← torch_cat (map s_labels samples);
  Ok (mkBatch (transpose data) labels).

(** Row [i] of a 2-d tensor as a list. *)
Definition row {A : Type} (t : Tensor2 A) (i : nat) : list A :=
  map (at2 t i) (seq 0 (dim1 t)).

(** ** [get_token_logits] *)

(** [torch.nonzero(data == token_id)] for a 2-d [data]: the index pairs of
    the matching entries, sorted lexicographically (last index fastest). *)
Definition nonzero_eq (data : Tensor2 Z) (token_id : Z) : list (nat * nat) :=
  flat_map
    (fun j => flat_map
                (fun k => if at2 data j k =? token_id then [(j, k)] else [])
                (seq 0 (dim1 data)))
    (seq 0 (dim0 data)).

(** [logits[j, k, :]]; an index beyond the first two dimensions raises. *)
Definition index_jk {A : Type} (logits : Tensor3 A) (j k : nat)
  : result (nat -> A) :=
  if (j <? shape0 logits)%nat && (k <? shape1 logits)%nat
  then Ok (at3 logits j k)
  else Raise IndexError.

(** [t[i] = r]: row [i] of [t] overwritten in place. *)
Definition set_row {A : Type} (t : Tensor2 A) (i : nat) (r : nat -> A)
  : Tensor2 A :=
  mkT2 (dim0 t) (dim1 t) (fun a c => if (a =? i)%nat then r c else at2 t a c).

(** The loop [for i in range(token_indexes.shape[0])], from index [i] on,
    over the remaining rows of [token_indexes].  [token_logits] is a float32
    tensor, so the assignment [token_logits[i] = logit_i] stores every
    element of [logit_i] converted to float32: [to_float32] is that
    conversion from the dtype of [logits]. *)
Fixpoint token_loop {A B : Type} (to_float32 : A -> B) (logits : Tensor3 A)
    (token_indexes : list (nat * nat)) (i : nat) (token_logits : Tensor2 B)
  : result (Tensor2 B) :=
  match token_indexes with
  | [] => Ok token_logits
  | (j, k) :: rest =>
      logit_i ← index_jk logits j k;
      token_loop to_float32 logits rest (S i)
                 (set_row token_logits i (fun c => to_float32 (logit_i c)))
  end.

(** [get_token_logits(device, data, logits, token_id)].  [torch.zeros] makes
    a tensor of the default dtype, float32, whatever the dtype [A] of
    [logits]: [B] is the type of float32 values, [zero] the float32 zero and
    [to_float32] the conversion applied by the assignments of the loop (the
    identity when [logits] is float32 already).  The device only says where
    the result lives. *)
Definition get_token_logits {A B : Type} (zero : B) (to_float32 : A -> B)
    (data : Tensor2 Z) (logits : Tensor3 A) (token_id : Z)
  : result (Tensor2 B) :=
  let token_indexes := nonzero_eq data token_id in
  let token_logits :=
    mkT2 (length token_indexes) (shape2 logits) (fun _ _ => zero) in
  token_loop to_float32 logits token_indexes 0 token_logits.

(** Number of entries of [data] equal to [token_id]. *)
Definition count_token (data : Tensor2 Z) (token_id : Z) : nat :=
  length (filter (fun x => x = token_id) (concat (tolist2 data))).

(** Row-major order on index pairs. *)
Definition row_major_lt (p q : nat * nat) : Prop :=
  (p.1 < q.1)%nat \/ (p.1 = q.1 /\ (p.2 < q.2)%nat).

(** ** [filter_model_state_dict] *)

(** [s.startswith(p)]. *)
Fixpoint startswith (s p : string) {struct p} : bool :=
  match p with
  | EmptyString => true
  | String a p' =>
      match s with
      | EmptyString => false
      | String b s' => Ascii.eqb a b && startswith s' p'
      end
  end.

(** [s[n:]]. *)
Fixpoint drop_chars (n : nat) (s : string) : string :=
  match n, s with
  | O, _ => s
  | S n', String _ s' => drop_chars n' s'
  | S _, EmptyString => EmptyString
  end.

(** [d[k] = v] on an [OrderedDict], as the list of its items: a key already
    there keeps its place and takes the new value, a new key goes last. *)
Fixpoint od_set {V : Type} (k : string) (v : V) (d : list (string * V))
  : list (string * V) :=
  match d with
  | [] => [(k, v)]
  | (k', v') :: rest =>
      if String.eqb k' k then (k, v) :: rest else (k', v') :: od_set k v rest
  end.

(** The key [filter_model_state_dict] stores an entry under. *)
Definition filtered_key (k : string) : string :=
  if startswith k "module." then drop_chars 7 k else k.

(** [filter_model_state_dict(model_state_dict)], on the items of the state
    dict in their order. *)
Definition filter_model_state_dict {V : Type} (model_state_dict : list (string * V))
  : list (string * V) :=
  fold_left (fun filtered_model_state_dict kv =>
               od_set (filtered_key kv.1) kv.2 filtered_model_state_dict)
            model_state_dict [].

(** The keys of the state dict of a model wrapped in [torch.nn.DataParallel]:
    every key of the wrapped model, after [module.]. *)
Definition data_parallel_state_dict {V : Type} (sd : list (string * V))
  : list (string * V) :=
  map (fun kv => ("module." +:+ kv.1, kv.2)%string) sd.

(** ** Checkpoint paths *)

(** What [datetime.now()] answers. *)
Record datetime : Type := mkDatetime {
  year : Z;
  month : Z;
  day : Z;
  hour : Z;
  minute : Z;
  second : Z
}.

(** A field of [strftime] padded with a zero to two digits. *)
Definition two_digits (n : Z) : string :=
  if n <? 10 then ("0" +:+ str_int n)%string else str_int n.

(** The format [%d-%m-%y_%H-%M-%S]. *)
Definition strftime (dt : datetime) : string :=
  (two_digits (day dt) +:+ "-" +:+ two_digits (month dt) +:+ "-"
   +:+ two_digits (year dt mod 100) +:+ "_" +:+ two_digits (hour dt)
   +:+ "-" +:+ two_digits (minute dt) +:+ "-" +:+ two_digits (second dt))%string.

(** What an f-string prints for an [Optional[str]]. *)
Definition format_suffix (suffix : option string) : string :=
  match suffix with
  | Some s => s
  | None => "None"%string
  end.

(** The path [_save_checkpoint] writes to. *)
Definition checkpoint_path (checkpoint_dir : string) (epoch : Z)
    (save_best : bool) (suffix : option string) (dt : datetime) : string :=
  if save_best
  then (checkpoint_dir +:+ "model_best_" +:+ format_suffix suffix +:+ ".pt")%string
  else (checkpoint_dir +:+ "model_epoch_" +:+ str_int epoch +:+ "_"
        +:+ "datetime-" +:+ strftime dt +:+ ".pt")%string.

(** The paths as the specification words them, with a separator after the
    directory. *)
Definition spec_best_path (checkpoint_dir metric : string) : string :=
  (checkpoint_dir +:+ "/model_best_" +:+ metric +:+ ".pt")%string.

Definition spec_periodic_path (checkpoint_dir : string) (epoch : Z)
    (timestamp : string) : string :=
  (checkpoint_dir +:+ "/model_epoch_" +:+ str_int epoch +:+ "_datetime-"
   +:+ timestamp +:+ ".pt")%string.

(** ** Values crossing the call of the metric function *)

(** The arguments the trainer passes: the per-batch lists of predicted or
    true labels, and the number of labels. *)
Inductive pyval : Type :=
| PyLists (l : list (list Z))
| PyInt (n : Z).

(** The averaging strategies of [multiclass_f1_score]. *)
Inductive average : Type :=
| micro
| macro
| weighted.

(** Iteration of a fallible loop body over a list, left to right. *)
Fixpoint for_each {S B : Type} (body : S -> B -> result S) (l : list B) (s : S)
  : result S :=
  match l with
  | [] => Ok s
  | b :: rest => s' ← body s b; for_each body rest s'
  end.

(** The configuration keys the trainer reads. *)
Record Config : Type := mkConfig {
  cfg_metrics : list string;
  cfg_checkpoint_dir : string;
  cfg_save_period_in_epochs : Z;
  cfg_start_from_checkpoint : bool;
  cfg_checkpoint_name : string
}.

(** The attribute name [f"best_{metric}"]. *)
Definition best_attr (metric : string) : string := ("best_" +:+ metric)%string.

Section Training.

#[local] Set Default Proof Using "Type".

(** Floating point values and the operations the program applies to them. *)
Context {F : Type}.
Variable fzero : F.
Variable fadd : F -> F -> F.
Variable fdiv : F -> Z -> F.
Variable fle : F -> F -> bool.

(** The external collaborators: the state dicts of the model and of the
    optimizer, the forward pass (in training or evaluation mode, with the
    attention mask [data != 0]), the loss, the backward pass followed by the
    optimizer step and the clearing of gradients, the learning rate
    scheduler, [argmax(1)], torcheval's F1 and the wall clock read by the
    periodic save of an epoch.  [to_float32] is the conversion of an output
    of the model to float32, the dtype of the tensor [get_token_logits]
    fills: the identity on a model that computes in float32. *)
Context {Params OptState Logger : Type}.
Variable to_float32 : F -> F.
Variable forward : Params -> bool -> Tensor2 Z -> result (Tensor3 F).
Variable loss_fn : Tensor2 F -> list Z -> result F.
Variable optimizer_step :
  Params -> OptState -> Tensor2 Z -> list Z -> Params * OptState.
Variable lr_scheduler : option (OptState -> OptState).
Variable argmax1 : Tensor2 F -> list Z.
Variable multiclass_f1_score : list Z -> list Z -> Z -> average -> result F.
Variable now : Z -> datetime.

(** *** [model/metric.py] *)

(** What a metric function may hand back: a dict from metric name to value
    (in insertion order) or a plain tuple. *)
Inductive metric_out : Type :=
| MDict (d : list (string * F))
| MTuple (t : list F).

(** An integer that fits [torch.int64], the dtype [torch.tensor] gives to
    Python integers. *)
Definition int64 (z : Z) : bool := (- 2 ^ 63 <=? z) && (z <? 2 ^ 63).

(** [torch.tensor] copying one row of a nested list into the tensor: a row
    that has not the expected length is a [ValueError], an integer that does
    not fit int64 a [RuntimeError]. *)
Definition store_row (width : nat) (stored : list Z) (r : list Z)
  : result (list Z) :=
  if negb (length r =? width)%nat then Raise ValueError
  else if forallb int64 r then Ok (stored ++ r)
  else Raise RuntimeError.

(** [torch.flatten(torch.tensor(v))].  The shape is read off the first row;
    when that row is empty the tensor has no element and nothing is copied
    nor checked, otherwise the rows are copied in order, each of them
    checked as it is reached. *)
Definition flatten_tensor (v : pyval) : result (list Z) :=
  match v with
  | PyInt n => if int64 n then Ok [n] else Raise RuntimeError
  | PyLists [] => Ok []
  | PyLists ([] :: _) => Ok []
  | PyLists ((x :: r) :: rs) =>
      for_each (store_row (length (x :: r))) ((x :: r) :: rs) []
  end.

(** [def multiple_f1_score(output, target)]: two positional parameters, a
    call with any other number of arguments is a [TypeError]. *)
Definition multiple_f1_score (args : list pyval) : result metric_out :=
  match args with
  | [output; target] =>
      logits_tensor ← flatten_tensor output;
      targets_tensor ← flatten_tensor target;
      f1_micro ← multiclass_f1_score logits_tensor targets_tensor 339 micro;
      f1_macro ← multiclass_f1_score logits_tensor targets_tensor 339 macro;
      f1_weighted ←
        multiclass_f1_score logits_tensor targets_tensor 339 weighted;
      Ok (MTuple [f1_micro; f1_macro; f1_weighted])
  | _ => Raise TypeError
  end.

(** *** [trainer/trainer.py]: the state *)

(** [self.metrics]: per subset, metric name to the values of the epochs. *)
Record Metrics : Type := mkMetrics {
  m_train : gmap string (list F);
  m_valid : gmap string (list F)
}.

(** [self.losses]. *)
Record Losses : Type := mkLosses {
  l_train : list F;
  l_valid : list F
}.

(** The arguments of the constructor that stay as given. *)
Record Setup : Type := mkSetup {
  metric_fn : list pyval -> result metric_out;
  num_labels : Z;
  num_epochs : Z;
  batch_size : Z;
  config : Config;
  cls_token_id : Z;
  train_dataloader : list batch;
  valid_dataloader : list batch
}.

(** The trainer object.  [best] holds the attributes [best_<metric>] under
    their attribute names. *)
Record Trainer : Type := mkTrainer {
  setup : Setup;
  model : Params;
  optimizer : OptState;
  start_epoch : Z;
  best : gmap string F;
  metrics : Metrics;
  losses : Losses
}.

Definition save_period_in_epochs (t : Trainer) : Z :=
  cfg_save_period_in_epochs (config (setup t)).

Definition checkpoint_dir (t : Trainer) : string :=
  cfg_checkpoint_dir (config (setup t)).

Definition set_model (t : Trainer) (m : Params) (o : OptState) : Trainer :=
  mkTrainer (setup t) m o (start_epoch t) (best t) (metrics t) (losses t).

Definition set_start_epoch (t : Trainer) (e : Z) : Trainer :=
  mkTrainer (setup t) (model t) (optimizer t) e (best t) (metrics t) (losses t).

Definition set_best (t : Trainer) (b : gmap string F) : Trainer :=
  mkTrainer (setup t) (model t) (optimizer t) (start_epoch t) b (metrics t)
            (losses t).

Definition set_metrics (t : Trainer) (m : Metrics) : Trainer :=
  mkTrainer (setup t) (model t) (optimizer t) (start_epoch t) (best t) m
            (losses t).

Definition set_losses (t : Trainer) (l : Losses) : Trainer :=
  mkTrainer (setup t) (model t) (optimizer t) (start_epoch t) (best t)
            (metrics t) l.

(** [getattr(self, name)] and [setattr(self, name, v)] on the best values. *)
Definition getattr (t : Trainer) (name : string) : result F :=
  of_option AttributeError (best t !! name).

Definition setattr (t : Trainer) (name : string) (v : F) : Trainer :=
  set_best t (<[name := v]> (best t)).

(** *** Checkpoints *)

Record Checkpoint : Type := mkCheckpoint {
  ck_epoch : Z;
  ck_model_state_dict : Params;
  ck_optimizer_state_dict : OptState;
  ck_losses : Losses;
  ck_metrics : Metrics;
  ck_best_metrics : gmap string F
}.

(** The files written so far, newest first: a later write to a path hides
    the earlier ones. *)
Definition Files : Type := list (string * Checkpoint).

Definition torch_save (ck : Checkpoint) (path : string) (fs : Files) : Files :=
  (path, ck) :: fs.

Fixpoint read_file (path : string) (fs : Files) : option Checkpoint :=
  match fs with
  | [] => None
  | (p, ck) :: rest => if String.eqb p path then Some ck else read_file path rest
  end.

Definition torch_load (path : string) (fs : Files) : result Checkpoint :=
  of_option FileNotFoundError (read_file path fs).

(** The dict comprehension [{f"best_{i}": getattr(self, f"best_{i}") for i in
    self.config["metrics"]}]. *)
Definition best_metrics_dict (t : Trainer) : result (gmap string F) :=
  for_each
    (fun d i => v ← getattr t (best_attr i); Ok (<[best_attr i := v]> d))
    (cfg_metrics (config (setup t))) ∅.

Definition _save_checkpoint (t : Trainer) (epoch : Z) (losses' : Losses)
    (metrics' : Metrics) (save_best : bool) (suffix : option string)
    (dt : datetime) (fs : Files) : result Files :=
  let path := checkpoint_path (checkpoint_dir t) epoch save_best suffix dt in
  best_metrics ← best_metrics_dict t;
  Ok (torch_save
        (mkCheckpoint epoch (model t) (optimizer t) losses' metrics'
                      best_metrics)
        path fs).

Definition _load_checkpoint (t : Trainer) (path : string) (fs : Files)
  : result Trainer :=
  checkpoint ← torch_load path fs;
  let t := set_start_epoch t (ck_epoch checkpoint + 1) in
  let t :=
    set_model t (ck_model_state_dict checkpoint)
              (ck_optimizer_state_dict checkpoint) in
  t ← for_each
        (fun t metric_name =>
           v ← of_option KeyError
                 (ck_best_metrics checkpoint !! best_attr metric_name);
           Ok (setattr t (best_attr metric_name) v))
        (cfg_metrics (config (setup t))) t;
  let t := set_metrics t (ck_metrics checkpoint) in
  Ok (set_losses t (ck_losses checkpoint)).

(** [Trainer.__init__].  The parameter [logger] defaults to [None], and the
    constructor calls [self.logger.info] before it sets the best values: on
    [None] that call is an [AttributeError].  A trainer object is one the
    constructor returned, so it has a logger; the lines it logs are not
    recorded. *)
Definition init (s : Setup) (m : Params) (o : OptState)
    (logger : option Logger) (fs : Files) : result Trainer :=
  match logger with
  | None => Raise AttributeError
  | Some _ =>
      let names := cfg_metrics (config s) in
      let empty_hist : gmap string (list F) :=
        foldl (fun d name => <[name := []]> d) ∅ names in
      let t :=
        mkTrainer s m o 0
                  (foldl (fun d name => <[best_attr name := fzero]> d) ∅ names)
                  (mkMetrics empty_hist empty_hist)
                  (mkLosses [] []) in
      if cfg_start_from_checkpoint (config s)
      then _load_checkpoint t
             (cfg_checkpoint_dir (config s) +:+ cfg_checkpoint_name (config s))%string
             fs
      else Ok t
  end.

(** *** The epochs *)

(** What [_train_epoch] and [_validate_epoch] return. *)
Record EpochOut : Type := mkEpochOut {
  eo_loss : F;
  eo_metrics : metric_out
}.

(** The variables of the batch loop: the model and optimizer being updated,
    [running_loss], [_logits] and [_targets]. *)
Record Loop : Type := mkLoop {
  lp_model : Params;
  lp_optimizer : OptState;
  running_loss : F;
  _logits : list (list Z);
  _targets : list (list Z)
}.

(** One training batch. *)
Definition train_batch (token_id : Z) (st : Loop) (b : batch) : result Loop :=
  let data := b_data b in
  let labels := b_labels b in
  logits ← forward (lp_model st) true data;
  cls_logits ← get_token_logits fzero to_float32 data logits token_id;
  loss ← loss_fn cls_logits labels;
  let '(m, o) := optimizer_step (lp_model st) (lp_optimizer st) data labels in
  Ok (mkLoop m o (fadd (running_loss st) loss)
             (_logits st ++ [argmax1 cls_logits])
             (_targets st ++ [labels])).

(** One validation batch: the model is left as it is. *)
Definition valid_batch (token_id : Z) (st : Loop) (b : batch) : result Loop :=
  let data := b_data b in
  let labels := b_labels b in
  probs ← forward (lp_model st) false data;
  cls_probs ← get_token_logits fzero to_float32 data probs token_id;
  loss ← loss_fn cls_probs labels;
  Ok (mkLoop (lp_model st) (lp_optimizer st) (fadd (running_loss st) loss)
             (_logits st ++ [argmax1 cls_probs])
             (_targets st ++ [labels])).

(** [running_loss / self.batch_size]. *)
Definition epoch_loss (running : F) (size : Z) : result F :=
  if size =? 0 then Raise ZeroDivisionError else Ok (fdiv running size).

(** The dict the epoch functions return; the loss is evaluated before the
    metric function is called. *)
Definition epoch_out (t : Trainer) (st : Loop) : result EpochOut :=
  loss ← epoch_loss (running_loss st) (batch_size (setup t));
  m ← metric_fn (setup t)
        [PyLists (_logits st); PyLists (_targets st);
         PyInt (num_labels (setup t))];
  Ok (mkEpochOut loss m).

Definition _train_epoch (t : Trainer) : result (Trainer * EpochOut) :=
  st ← for_each (train_batch (cls_token_id (setup t)))
                (train_dataloader (setup t))
                (mkLoop (model t) (optimizer t) fzero [] []);
  let o :=
    match lr_scheduler with
    | Some step => step (lp_optimizer st)
    | None => lp_optimizer st
    end in
  let t := set_model t (lp_model st) o in
  out ← epoch_out t st;
  Ok (t, out).

Definition _validate_epoch (t : Trainer) : result EpochOut :=
  st ← for_each (valid_batch (cls_token_id (setup t)))
                (valid_dataloader (setup t))
                (mkLoop (model t) (optimizer t) fzero [] []);
  epoch_out t st.

(** [d.keys()] together with the values the loops read back by key; a tuple
    has no [keys]. *)
Definition items (m : metric_out) : result (list (string * F)) :=
  match m with
  | MDict d => Ok d
  | MTuple _ => Raise AttributeError
  end.

(** [self.metrics["train"][metric].append(value)]. *)
Definition append_train_metric (t : Trainer) (mv : string * F)
  : result Trainer :=
  hist ← of_option KeyError (m_train (metrics t) !! mv.1);
  Ok (set_metrics t
        (mkMetrics (<[mv.1 := hist ++ [mv.2]]> (m_train (metrics t)))
                   (m_valid (metrics t)))).

(** [self.metrics["valid"][metric].append(value)]. *)
Definition append_valid_metric (t : Trainer) (mv : string * F)
  : result Trainer :=
  hist ← of_option KeyError (m_valid (metrics t) !! mv.1);
  Ok (set_metrics t
        (mkMetrics (m_train (metrics t))
                   (<[mv.1 := hist ++ [mv.2]]> (m_valid (metrics t))))).

(** The body of the loop over the validation metrics (lines 117 to 141):
    record the value, then compare it with the best one. *)
Definition track_best (epoch : Z) (s : Trainer * Files) (mv : string * F)
  : result (Trainer * Files) :=
  let '(t, fs) := s in
  t ← append_valid_metric t mv;
  b ← getattr t (best_attr mv.1);
  if fle b mv.2
  then
    let t := setattr t (best_attr mv.1) mv.2 in
    fs ← _save_checkpoint t epoch (losses t) (metrics t) true (Some mv.1)
                          (now epoch) fs;
    Ok (t, fs)
  else Ok (t, fs).

(** The periodic save (lines 143 to 155). *)
Definition periodic_save (epoch : Z) (s : Trainer * Files)
  : result (Trainer * Files) :=
  let '(t, fs) := s in
  if save_period_in_epochs t =? 0 then Raise ZeroDivisionError
  else if epoch mod save_period_in_epochs t =? 0
  then
    fs ← _save_checkpoint t epoch (losses t) (metrics t) false None
                          (now epoch) fs;
    Ok (t, fs)
  else Ok (t, fs).

(** The body of the loop over the epochs. *)
Definition epoch_body (s : Trainer * Files) (epoch : Z)
  : result (Trainer * Files) :=
  let '(t, fs) := s in
  '(t, train_loss_metric) ← _train_epoch t;
  let t :=
    set_losses t (mkLosses (l_train (losses t) ++ [eo_loss train_loss_metric])
                           (l_valid (losses t))) in
  train_items ← items (eo_metrics train_loss_metric);
  t ← for_each append_train_metric train_items t;
  valid_loss_metric ← _validate_epoch t;
  let t :=
    set_losses t (mkLosses (l_train (losses t))
                           (l_valid (losses t) ++ [eo_loss valid_loss_metric])) in
  valid_items ← items (eo_metrics valid_loss_metric);
  s ← for_each (track_best epoch) valid_items (t, fs);
  periodic_save epoch s.

(** [Trainer.train]: the state it leaves; the value returned is
    [(self.losses, self.metrics)] of that state. *)
Definition train (t : Trainer) (fs : Files) : result (Trainer * Files) :=
  for_each epoch_body (range (start_epoch t) (num_epochs (setup t))) (t, fs).

(** The states at the end of each completed epoch, in order; the run stops
    at the first epoch that raises. *)
Fixpoint epoch_states (epochs : list Z) (s : Trainer * Files)
  : list (Trainer * Files) :=
  match epochs with
  | [] => []
  | e :: rest =>
      match epoch_body s e with
      | Ok s' => s' :: epoch_states rest s'
      | Raise _ => []
      end
  end.

(** The trainer [train.py] builds: the metric function is
    [multiple_f1_score]. *)
Definition main_setup (num_labels num_epochs batch_size : Z) (cfg : Config)
    (cls : Z) (train_dl valid_dl : list batch) : Setup :=
  mkSetup multiple_f1_score num_labels num_epochs batch_size cfg cls
          train_dl valid_dl.


(** * Properties *)

(** ** [prepare_device] *)

Lemma length_range (a b : Z) : length (range a b) = Z.to_nat (b - a).
Proof. unfold range. now rewrite length_map, length_seq. Qed.

(** C8. For every requested count, the id list is no longer than the number
    of available GPUs; a positive request on a machine without GPU yields the
    CPU device, no id and the printed warning; and the device is the GPU
    exactly when the clamped count is positive. *)
Theorem prepare_device_clamps (num_gpu n : Z) :
  0 <= num_gpu ->
  let '((dev, ids), out) := prepare_device num_gpu n in
  Z.of_nat (length ids) <= num_gpu
  /\ ids = range 0 (clamped_count num_gpu n)
  /\ (0 < n -> num_gpu = 0 -> dev = cpu /\ ids = [] /\ out = [warn_no_gpu])
  /\ (dev = cuda0 <-> 0 < clamped_count num_gpu n).
Proof.
  intros Hg. unfold prepare_device, clamped_count.
  destruct (0 <? n) eqn:Hn; destruct (num_gpu =? 0) eqn:H0; simpl;
    repeat match goal with
           | |- context [?a <? ?b] => destruct (Z.ltb_spec a b); simpl
           end;
    rewrite ?length_range;
    repeat split; intros; try lia; try congruence; try discriminate;
    try (apply Z.eqb_eq in H0; subst; reflexivity).
Qed.

(** ** [collate] *)

Lemma max_len_ge (seqs : list (list Z)) (s : list Z) :
  In s seqs -> (length s <= max_len seqs)%nat.
Proof.
  unfold max_len. induction seqs as [|x xs IH]; simpl; [intros []|].
  intros [->|H]; [lia | specialize (IH H); lia].
Qed.

Lemma max_len_attained (seqs : list (list Z)) :
  seqs <> [] -> exists s, In s seqs /\ length s = max_len seqs.
Proof.
  unfold max_len. induction seqs as [|x xs IH]; [congruence|]. intros _.
  destruct xs as [|y ys].
  - exists x. simpl. split; [auto | lia].
  - destruct IH as (s & Hin & Hs); [discriminate|].
    destruct (Nat.max_spec (length x) (foldr Nat.max 0%nat (map length (y :: ys))))
      as [[_ E]|[_ E]].
    + exists s. split; [now right|]. cbn [map foldr] in *. lia.
    + exists x. split; [now left|]. cbn [map foldr] in *. lia.
Qed.

(** Reading [n] positions of a list with a default pads it with the default. *)
Lemma nth_seq_pad {A : Type} (d : A) (l : list A) (n : nat) :
  (length l <= n)%nat ->
  map (fun t => nth t l d) (seq 0 n) = l ++ replicate (n - length l) d.
Proof.
  revert n. induction l as [|x xs IH]; intros n Hn; simpl in *.
  - rewrite Nat.sub_0_r. clear Hn. generalize 0%nat.
    induction n as [|n IHn]; intros k; simpl; [reflexivity|].
    f_equal; [now destruct k | apply IHn].
  - destruct n as [|n]; [lia|]. simpl. f_equal.
    rewrite <- seq_shift, map_map. apply IH. lia.
Qed.

Lemma length_concat_sum (ls : list (list Z)) :
  length (concat ls) = sum_list (map length ls).
Proof.
  induction ls as [|l ls IH]; simpl; [reflexivity|].
  now rewrite length_app, IH.
Qed.

(** C7, as amended. For a non-empty list of samples [collate] returns a batch
    whose data has one row per sample, every row being the sample's sequence
    followed by zeros up to the length of the longest sequence of the batch,
    and whose labels are the samples' label sequences concatenated in order:
    their number is the sum of the samples' label counts, which is the number
    of samples when every sample has exactly one label. *)
Theorem collate_pads_and_concatenates (samples : list sample) :
  samples <> [] ->
  exists b,
    collate samples = Ok b
    /\ dim0 (b_data b) = length samples
    /\ dim1 (b_data b) = max_len (map s_data samples)
    /\ (exists s, In s samples /\ length (s_data s) = dim1 (b_data b))
    /\ (forall i s, nth_error samples i = Some s ->
          row (b_data b) i
          = s_data s ++ replicate (dim1 (b_data b) - length (s_data s)) 0)
    /\ b_labels b = concat (map s_labels samples)
    /\ length (b_labels b) = sum_list (map (fun s => length (s_labels s)) samples)
    /\ ((forall s, In s samples -> length (s_labels s) = 1%nat) ->
        length (b_labels b) = length samples).
Proof.
  intros Hne. destruct samples as [|s0 rest] eqn:E; [congruence|].
  rewrite <- E in *. clear Hne.
  assert (Hc : collate samples
               = Ok (mkBatch
                       (transpose
                          (mkT2 (max_len (map s_data samples)) (length (map s_data samples))
                                (fun t b => nth t (nth b (map s_data samples) []) 0)))
                       (concat (map s_labels samples)))).
  { rewrite E. reflexivity. }
  eexists. split; [exact Hc|]. cbn [b_data b_labels transpose dim0 dim1].
  split; [apply length_map|]. split; [reflexivity|].
  split.
  { destruct (max_len_attained (map s_data samples)) as (l & Hin & Hl).
    - rewrite E. discriminate.
    - apply in_map_iff in Hin. destruct Hin as (s & <- & Hs). eauto. }
  split.
  { intros i s Hi. unfold row.
    assert (Hnth : nth i (map s_data samples) [] = s_data s).
    { apply nth_error_nth. now rewrite nth_error_map, Hi. }
    change (map (fun t => nth t (nth i (map s_data samples) []) 0)
                (seq 0 (max_len (map s_data samples)))
            = s_data s
              ++ replicate (max_len (map s_data samples) - length (s_data s)) 0).
    rewrite Hnth. apply nth_seq_pad. apply max_len_ge.
    apply in_map. eapply nth_error_In; eauto. }
  split; [reflexivity|].
  split.
  { rewrite length_concat_sum, map_map. reflexivity. }
  intros H1. rewrite length_concat_sum, map_map. clear E Hc.
  induction samples as [|s ss IH]; simpl; [reflexivity|].
  rewrite (H1 s) by now left. rewrite IH; [lia|]. intros; apply H1; now right.
Qed.

(** ** [get_token_logits] *)

(** The matches of one row [j], scanning the columns from [a] on. *)
Definition row_matches (data : Tensor2 Z) (token_id : Z) (j : nat)
    (ks : list nat) : list (nat * nat) :=
  flat_map (fun k => if at2 data j k =? token_id then [(j, k)] else []) ks.

Lemma in_row_matches data token_id j ks p :
  In p (row_matches data token_id j ks)
  <-> p.1 = j /\ In p.2 ks /\ at2 data j p.2 = token_id.
Proof.
  unfold row_matches. rewrite in_flat_map. split.
  - intros (k & Hk & Hp). destruct (Z.eqb_spec (at2 data j k) token_id) as [E|E].
    + destruct Hp as [<-|[]]. simpl. auto.
    + destruct Hp.
  - intros (H1 & H2 & H3). exists p.2. split; [exact H2|].
    rewrite H3, Z.eqb_refl. left. destruct p; simpl in *; congruence.
Qed.

Lemma in_nonzero_eq data token_id j k :
  In (j, k) (nonzero_eq data token_id)
  <-> (j < dim0 data)%nat /\ (k < dim1 data)%nat /\ at2 data j k = token_id.
Proof.
  unfold nonzero_eq. rewrite in_flat_map. split.
  - intros (j' & Hj' & Hin).
    apply (in_row_matches data token_id j' (seq 0 (dim1 data)) (j, k)) in Hin.
    simpl in Hin. destruct Hin as (-> & Hk & Hv).
    apply in_seq in Hj'. apply in_seq in Hk. repeat split; [lia | lia | exact Hv].
  - intros (Hj & Hk & Hv). exists j. split; [apply in_seq; lia|].
    apply (in_row_matches data token_id j (seq 0 (dim1 data)) (j, k)).
    simpl. repeat split; [apply in_seq; lia | exact Hv].
Qed.

Lemma row_matches_sorted data token_id j (n a : nat) :
  StronglySorted row_major_lt (row_matches data token_id j (seq a n)).
Proof.
  revert a. induction n as [|n IH]; intros a; [constructor|].
  change (StronglySorted row_major_lt
            ((if at2 data j a =? token_id then [(j, a)] else [])
             ++ row_matches data token_id j (seq (S a) n))).
  destruct (at2 data j a =? token_id); [|apply IH].
  simpl. constructor; [apply IH|]. apply Forall_forall. intros p Hp.
  apply list_elem_of_In, in_row_matches in Hp. destruct Hp as (H1 & H2 & _).
  apply in_seq in H2. right. simpl. split; [congruence | lia].
Qed.

Lemma rows_matches_sorted data token_id (ks : list nat) (n a : nat) :
  (forall j, StronglySorted row_major_lt (row_matches data token_id j ks)) ->
  StronglySorted row_major_lt
    (flat_map (fun j => row_matches data token_id j ks) (seq a n)).
Proof.
  intros Hrow. revert a. induction n as [|n IH]; intros a; [constructor|].
  simpl. apply StronglySorted_app_2.
  - intros p q Hp Hq. apply list_elem_of_In in Hp, Hq.
    apply in_row_matches in Hp.
    apply in_flat_map in Hq. destruct Hq as (j' & Hj' & Hq).
    apply in_row_matches in Hq.
    apply in_seq in Hj'. left. destruct Hp as (-> & _), Hq as (-> & _). lia.
  - apply Hrow.
  - apply IH.
Qed.

Lemma nonzero_eq_sorted data token_id :
  StronglySorted row_major_lt (nonzero_eq data token_id).
Proof.
  apply (rows_matches_sorted data token_id (seq 0 (dim1 data))).
  intros j. apply row_matches_sorted.
Qed.

Lemma length_row_matches data token_id j ks :
  length (row_matches data token_id j ks)
  = length (filter (fun x => x = token_id) (map (at2 data j) ks)).
Proof.
  unfold row_matches. induction ks as [|k ks IH]; simpl; [reflexivity|].
  rewrite length_app, IH, filter_cons.
  destruct (Z.eqb_spec (at2 data j k) token_id) as [E|E];
    destruct (decide (at2 data j k = token_id)); try contradiction; reflexivity.
Qed.

Lemma length_nonzero_eq data token_id :
  length (nonzero_eq data token_id) = count_token data token_id.
Proof.
  unfold nonzero_eq, count_token, tolist2.
  generalize (seq 0 (dim0 data)) as js.
  induction js as [|j js IH]; simpl; [reflexivity|].
  rewrite length_app, filter_app, length_app, IH. f_equal.
  apply length_row_matches.
Qed.

Lemma token_loop_rows {A B : Type} (conv : A -> B)
    (logits : Tensor3 A) (idx : list (nat * nat)) :
  (forall j k, In (j, k) idx ->
               (j < shape0 logits)%nat /\ (k < shape1 logits)%nat) ->
  forall (i : nat) (acc : Tensor2 B),
  exists r,
    token_loop conv logits idx i acc = Ok r
    /\ dim0 r = dim0 acc /\ dim1 r = dim1 acc
    /\ (forall n j k, nth_error idx n = Some (j, k) ->
                      forall c, at2 r (i + n) c = conv (at3 logits j k c))
    /\ (forall a, (a < i)%nat -> forall c, at2 r a c = at2 acc a c).
Proof.
  induction idx as [|[j k] rest IH]; intros Hb i acc.
  - exists acc. simpl. repeat split; try reflexivity.
    intros [|n] j k H; discriminate H.
  - destruct (Hb j k (or_introl eq_refl)) as [Hj Hk].
    assert (Hidx : index_jk logits j k = Ok (at3 logits j k)).
    { unfold index_jk. apply Nat.ltb_lt in Hj, Hk. now rewrite Hj, Hk. }
    destruct (IH (fun j' k' H => Hb j' k' (or_intror H)) (S i)
                 (set_row acc i (fun c => conv (at3 logits j k c))))
      as (r & Hr & Hd0 & Hd1 & Hrows & Hkeep).
    exists r. cbn [token_loop]. rewrite Hidx. cbn [mbind result_bind].
    split; [exact Hr|]. split; [exact Hd0|]. split; [exact Hd1|]. split.
    + intros [|n] j' k' Hn c.
      * injection Hn as <- <-. rewrite Nat.add_0_r, Hkeep by lia.
        simpl. now rewrite Nat.eqb_refl.
      * rewrite <- Nat.add_succ_comm. now apply Hrows.
    + intros a Ha c. rewrite Hkeep by lia. simpl.
      destruct (Nat.eqb_spec a i); [lia | reflexivity].
Qed.

(** C6, as amended. When the logits cover the batch (one vector per token of
    every example), [get_token_logits] returns a tensor with one row per
    occurrence of the token id in the batch and the width of the logits; the
    matches are exactly the positions holding the token id, listed in
    row-major order (examples first, positions within an example second),
    and row [i] of the result is the logits vector at the [i]-th match
    converted to float32, element by element. *)
Theorem get_token_logits_rows {A B : Type} (zero : B) (conv : A -> B)
    (data : Tensor2 Z) (logits : Tensor3 A) (token_id : Z) :
  (dim0 data <= shape0 logits)%nat ->
  (dim1 data <= shape1 logits)%nat ->
  exists r,
    get_token_logits zero conv data logits token_id = Ok r
    /\ dim0 r = count_token data token_id
    /\ dim1 r = shape2 logits
    /\ length (nonzero_eq data token_id) = count_token data token_id
    /\ StronglySorted row_major_lt (nonzero_eq data token_id)
    /\ (forall j k,
          In (j, k) (nonzero_eq data token_id)
          <-> (j < dim0 data)%nat /\ (k < dim1 data)%nat
              /\ at2 data j k = token_id)
    /\ (forall i j k,
          nth_error (nonzero_eq data token_id) i = Some (j, k) ->
          forall c, at2 r i c = conv (at3 logits j k c)).
Proof.
  intros H0 H1. unfold get_token_logits.
  destruct (token_loop_rows conv logits (nonzero_eq data token_id)) with
    (i := 0%nat)
    (acc := mkT2 (length (nonzero_eq data token_id)) (shape2 logits)
                 (fun _ _ : nat => zero))
    as (r & Hr & Hd0 & Hd1 & Hrows & _).
  { intros j k Hin. apply in_nonzero_eq in Hin. lia. }
  exists r. split; [exact Hr|].
  split; [rewrite Hd0; apply length_nonzero_eq|].
  split; [exact Hd1|].
  split; [apply length_nonzero_eq|].
  split; [apply nonzero_eq_sorted|].
  split; [apply in_nonzero_eq|].
  intros i j k Hi c. apply (Hrows i j k Hi c).
Qed.

(** On float32 logits the conversion changes nothing: the rows of the result
    are the logits vectors themselves, as they are for the outputs of a model
    that computes in float32. *)
Lemma get_token_logits_float32 {A : Type} (zero : A) (conv : A -> A)
    (data : Tensor2 Z) (logits : Tensor3 A) (token_id : Z) :
  (forall j k c, conv (at3 logits j k c) = at3 logits j k c) ->
  (dim0 data <= shape0 logits)%nat ->
  (dim1 data <= shape1 logits)%nat ->
  exists r,
    get_token_logits zero conv data logits token_id = Ok r
    /\ forall i j k,
         nth_error (nonzero_eq data token_id) i = Some (j, k) ->
         forall c, at2 r i c = at3 logits j k c.
Proof.
  intros Hid H0 H1. unfold get_token_logits.
  destruct (token_loop_rows conv logits (nonzero_eq data token_id)) with
    (i := 0%nat)
    (acc := mkT2 (length (nonzero_eq data token_id)) (shape2 logits)
                 (fun _ _ : nat => zero))
    as (r & Hr & _ & _ & Hrows & _).
  { intros j k Hin. apply in_nonzero_eq in Hin. lia. }
  exists r. split; [exact Hr|].
  intros i j k Hi c. rewrite <- Hid. apply (Hrows i j k Hi c).
Qed.

(** ** More of [get_token_logits], [collate] and [prepare_device] *)

Lemma token_loop_index_error {A B : Type} (conv : A -> B)
    (logits : Tensor3 A) (idx : list (nat * nat)) :
  (exists j k, In (j, k) idx
               /\ ((shape0 logits <= j)%nat \/ (shape1 logits <= k)%nat)) ->
  forall (i : nat) (acc : Tensor2 B),
    token_loop conv logits idx i acc = Raise IndexError.
Proof.
  induction idx as [|[j k] rest IH]; intros (j0 & k0 & Hin & Hout) i acc.
  - destruct Hin.
  - cbn [token_loop]. unfold index_jk.
    destruct (Nat.ltb_spec j (shape0 logits)) as [Hj|Hj];
      [|reflexivity].
    destruct (Nat.ltb_spec k (shape1 logits)) as [Hk|Hk];
      [|reflexivity].
    cbn [andb mbind result_bind]. apply IH.
    destruct Hin as [[= <- <-]|Hin]; [lia|]. eauto.
Qed.

(** The outcome of [get_token_logits], whatever the shapes: it returns
    exactly when every occurrence of the token id lies within the first two
    dimensions of the logits, and then with one row per occurrence (none
    gives a tensor without rows); otherwise it raises [IndexError]. *)
Theorem get_token_logits_outcome {A B : Type} (zero : B)
    (conv : A -> B) (data : Tensor2 Z) (logits : Tensor3 A)
    (token_id : Z) :
  match get_token_logits zero conv data logits token_id with
  | Ok r =>
      dim0 r = count_token data token_id
      /\ dim1 r = shape2 logits
      /\ forall j k, (j < dim0 data)%nat -> (k < dim1 data)%nat ->
                     at2 data j k = token_id ->
                     (j < shape0 logits)%nat /\ (k < shape1 logits)%nat
  | Raise e =>
      e = IndexError
      /\ exists j k, (j < dim0 data)%nat /\ (k < dim1 data)%nat
                     /\ at2 data j k = token_id
                     /\ ((shape0 logits <= j)%nat \/ (shape1 logits <= k)%nat)
  end.
Proof.
  unfold get_token_logits.
  destruct (decide (Forall
                      (fun p : nat * nat =>
                         (p.1 < shape0 logits)%nat /\ (p.2 < shape1 logits)%nat)
                      (nonzero_eq data token_id))) as [Hall|Hex].
  - rewrite Forall_forall in Hall.
    destruct (token_loop_rows conv logits (nonzero_eq data token_id)) with
      (i := 0%nat)
      (acc := mkT2 (length (nonzero_eq data token_id)) (shape2 logits)
                   (fun _ _ : nat => zero))
      as (r & Hr & Hd0 & Hd1 & _).
    { intros j k Hin. apply list_elem_of_In in Hin. exact (Hall (j, k) Hin). }
    rewrite Hr. split; [rewrite Hd0; apply length_nonzero_eq|].
    split; [exact Hd1|]. intros j k Hj Hk Hv.
    apply (Hall (j, k)). apply list_elem_of_In, in_nonzero_eq. auto.
  - apply not_Forall_Exists in Hex; [|intros p; apply _].
    apply Exists_exists in Hex. destruct Hex as ([j k] & Hin & Hout).
    apply list_elem_of_In in Hin. cbn [fst snd compose] in Hout.
    rewrite token_loop_index_error.
    + split; [reflexivity|]. apply in_nonzero_eq in Hin.
      exists j, k. repeat split; try apply Hin. lia.
    + exists j, k. split; [exact Hin | lia].
Qed.

(** What [collate] returns, in full. *)
Lemma collate_eq (samples : list sample) :
  samples <> [] ->
  collate samples
  = Ok (mkBatch
          (mkT2 (length samples) (max_len (map s_data samples))
                (fun b t => nth t (nth b (map s_data samples) []) 0))
          (concat (map s_labels samples))).
Proof.
  destruct samples as [|s0 rest]; [congruence|]. intros _.
  unfold collate, pad_sequence, torch_cat, transpose. cbn [map mbind result_bind].
  cbn [dim0 dim1 at2 length]. now rewrite length_map.
Qed.

Lemma map_nth_seq {A B : Type} (g : A -> B) (d : A) (l : list A) :
  map (fun i => g (nth i l d)) (seq 0 (length l)) = map g l.
Proof.
  induction l as [|x xs IH]; [reflexivity|].
  cbn [length seq map nth]. f_equal. rewrite <- seq_shift, map_map. exact IH.
Qed.

Lemma collate_tolist2 (samples : list sample) (b : batch) :
  collate samples = Ok b ->
  tolist2 (b_data b)
  = map (fun s => s_data s
                  ++ replicate (max_len (map s_data samples) - length (s_data s)) 0)
        samples.
Proof.
  destruct samples as [|s0 rest] eqn:E; [discriminate|]. rewrite <- E.
  rewrite collate_eq by (rewrite E; discriminate). intros [= <-].
  unfold tolist2. cbn [b_data dim0 dim1 at2].
  rewrite <- (map_nth_seq
                (fun s => s_data s
                          ++ replicate (max_len (map s_data samples)
                                        - length (s_data s)) 0)
                (mkSample [] []) samples).
  apply map_ext_in. intros i Hi. apply in_seq in Hi.
  assert (Hnth : nth i (map s_data samples) [] = s_data (nth i samples (mkSample [] []))).
  { change [] with (s_data (mkSample [] [])) at 1. apply map_nth. }
  rewrite Hnth. apply nth_seq_pad. apply max_len_ge. apply in_map.
  apply nth_In. lia.
Qed.

Lemma filter_replicate_zero (token_id : Z) (n : nat) :
  token_id <> 0 -> filter (fun x => x = token_id) (replicate n 0) = [].
Proof.
  intros Hne. induction n as [|n IH]; [reflexivity|].
  cbn [replicate]. rewrite filter_cons.
  destruct (decide (0 = token_id)); [congruence | exact IH].
Qed.

(** Padding adds no occurrence of a token id other than 0: in the collated
    batch the token id occurs as often as in the samples' sequences together,
    so [get_token_logits] on the batch yields that many rows. *)
Theorem collate_keeps_token_count (samples : list sample) (token_id : Z) :
  samples <> [] ->
  token_id <> 0 ->
  exists b,
    collate samples = Ok b
    /\ count_token (b_data b) token_id
       = sum_list (map (fun s => length (filter (fun x => x = token_id) (s_data s)))
                       samples).
Proof.
  intros Hne Htok. rewrite (collate_eq samples Hne). eexists. split; [reflexivity|].
  unfold count_token.
  rewrite (collate_tolist2 samples _ (collate_eq samples Hne)).
  generalize (max_len (map s_data samples)) as T. intros T.
  induction samples as [|s ss IH]; [congruence|].
  cbn [map concat sum_list sum_list_with].
  rewrite !filter_app, !length_app, (filter_replicate_zero token_id _ Htok).
  cbn [length]. rewrite Nat.add_0_r. f_equal.
  destruct ss as [|s' ss']; [reflexivity|]. apply IH. discriminate.
Qed.

(** The warnings of [prepare_device]: at most one line is printed, and none
    exactly when the request does not exceed the available GPUs; such a
    request is granted as it is, a larger one on a machine with GPUs gets
    them all, with the line naming both numbers. *)
Theorem prepare_device_warnings (num_gpu n : Z) :
  0 <= num_gpu ->
  let '((dev, ids), out) := prepare_device num_gpu n in
  (length out <= 1)%nat
  /\ (out = [] <-> n <= num_gpu)
  /\ (n <= num_gpu ->
      ids = range 0 n /\ dev = (if 0 <? n then cuda0 else cpu))
  /\ (0 < num_gpu < n ->
      ids = range 0 num_gpu /\ dev = cuda0
      /\ out = [warn_too_many n num_gpu]).
Proof.
  intros Hg. unfold prepare_device.
  destruct (Z.ltb_spec 0 n) as [Hn|Hn];
    destruct (Z.eqb_spec num_gpu 0) as [H0|H0]; cbn [andb].
  - subst num_gpu. cbn. repeat split; intros; try lia; try discriminate.
  - destruct (Z.ltb_spec num_gpu n) as [Hlt|Hle]; cbn.
    + destruct (Z.ltb_spec 0 num_gpu); [|lia].
      repeat split; intros; try lia; try discriminate; reflexivity.
    + destruct (Z.ltb_spec 0 n); [|lia].
      repeat split; intros; try lia; reflexivity.
  - subst num_gpu. destruct (Z.ltb_spec 0 n) as [Hlt|Hle]; [lia|]. cbn.
    destruct (Z.ltb_spec 0 n); [lia|].
    repeat split; intros; try lia; reflexivity.
  - destruct (Z.ltb_spec num_gpu n) as [Hlt|Hle]; [lia|]. cbn.
    destruct (Z.ltb_spec 0 n); [lia|].
    repeat split; intros; try lia; reflexivity.
Qed.

(** ** Checkpoints *)

Lemma append_cons (a : Ascii.ascii) (s t : string) :
  (String a s +:+ t = String a (s +:+ t))%string.
Proof. reflexivity. Qed.

Lemma append_assoc (s t u : string) :
  ((s +:+ t) +:+ u = s +:+ (t +:+ u))%string.
Proof.
  induction s as [|a s IH]; [reflexivity|].
  rewrite !append_cons. now rewrite IH.
Qed.

Lemma best_attr_inj (m1 m2 : string) : best_attr m1 = best_attr m2 -> m1 = m2.
Proof. unfold best_attr. apply (inj (String.app "best_")). Qed.

(** The trainer has the attribute [best_<metric>] for every configured
    metric: the constructor sets them, nothing removes them. *)
Definition has_best_attrs (t : Trainer) : Prop :=
  forall i, In i (cfg_metrics (config (setup t))) ->
            is_Some (best t !! best_attr i).

Lemma best_metrics_loop (t : Trainer) (names : list string) :
  (forall i, In i names -> is_Some (best t !! best_attr i)) ->
  forall d0 : gmap string F, exists d : gmap string F,
    for_each
      (fun d i => v ← getattr t (best_attr i); Ok (<[best_attr i := v]> d))
      names d0 = Ok d
    /\ (forall i, In i names -> d !! best_attr i = best t !! best_attr i)
    /\ (forall k, d0 !! k = best t !! k -> d !! k = best t !! k).
Proof.
  induction names as [|n ns IH]; intros Hall d0.
  - exists d0. simpl. split; [reflexivity|]. split; [intros i [] | auto].
  - destruct (Hall n (or_introl eq_refl)) as [v Hv].
    destruct (IH (fun i H => Hall i (or_intror H)) (<[best_attr n := v]> d0))
      as (d & Hd & Hin & Hkeep).
    assert (Hg : getattr t (best_attr n) = Ok v)
      by (unfold getattr; now rewrite Hv).
    exists d. cbn [for_each]. rewrite Hg.
    cbn [mbind result_bind]. split; [exact Hd|]. split.
    + intros i [->|Hi]; [|now apply Hin].
      apply Hkeep. now rewrite lookup_insert_eq.
    + intros k Hk. apply Hkeep.
      destruct (decide (best_attr n = k)) as [<-|Hne].
      * now rewrite lookup_insert_eq.
      * now rewrite lookup_insert_ne.
Qed.

Lemma best_metrics_dict_ok (t : Trainer) :
  has_best_attrs t ->
  exists d, best_metrics_dict t = Ok d
            /\ forall i, In i (cfg_metrics (config (setup t))) ->
                         d !! best_attr i = best t !! best_attr i.
Proof.
  intros Hwf. destruct (best_metrics_loop t _ Hwf ∅) as (d & Hd & Hin & _).
  exists d. split; [exact Hd | exact Hin].
Qed.

Lemma save_checkpoint_ok (t : Trainer) epoch l m save_best suffix dt fs :
  has_best_attrs t ->
  exists d,
    best_metrics_dict t = Ok d
    /\ _save_checkpoint t epoch l m save_best suffix dt fs
       = Ok ((checkpoint_path (checkpoint_dir t) epoch save_best suffix dt,
              mkCheckpoint epoch (model t) (optimizer t) l m d) :: fs).
Proof.
  intros Hwf. destruct (best_metrics_dict_ok t Hwf) as (d & Hd & _).
  exists d. split; [exact Hd|]. unfold _save_checkpoint. now rewrite Hd.
Qed.

Lemma read_file_head (path : string) (ck : Checkpoint) (fs : Files) :
  read_file path ((path, ck) :: fs) = Some ck.
Proof. simpl. now rewrite String.eqb_refl. Qed.

Lemma load_best_loop (ck : Checkpoint) (names : list string) :
  (forall i, In i names -> is_Some (ck_best_metrics ck !! best_attr i)) ->
  forall t0, exists t1,
    for_each
      (fun t metric_name =>
         v ← of_option KeyError (ck_best_metrics ck !! best_attr metric_name);
         Ok (setattr t (best_attr metric_name) v))
      names t0 = Ok t1
    /\ setup t1 = setup t0 /\ model t1 = model t0
    /\ optimizer t1 = optimizer t0 /\ start_epoch t1 = start_epoch t0
    /\ metrics t1 = metrics t0 /\ losses t1 = losses t0
    /\ (forall i, In i names ->
                  best t1 !! best_attr i = ck_best_metrics ck !! best_attr i)
    /\ (forall k, best t0 !! k = ck_best_metrics ck !! k ->
                  best t1 !! k = ck_best_metrics ck !! k).
Proof.
  induction names as [|n ns IH]; intros Hall t0.
  - exists t0. simpl. repeat split; auto. intros i [].
  - destruct (Hall n (or_introl eq_refl)) as [v Hv].
    destruct (IH (fun i H => Hall i (or_intror H)) (setattr t0 (best_attr n) v))
      as (t1 & Ht1 & Hs & Hm & Ho & He & Hms & Hl & Hin & Hkeep).
    exists t1. cbn [for_each]. rewrite Hv. cbn [of_option mbind result_bind].
    split; [exact Ht1|]. repeat (split; [assumption|]). split.
    + intros i [->|Hi]; [|now apply Hin].
      apply Hkeep. simpl. now rewrite lookup_insert_eq.
    + intros k Hk. apply Hkeep. simpl.
      destruct (decide (best_attr n = k)) as [<-|Hne].
      * now rewrite lookup_insert_eq.
      * now rewrite lookup_insert_ne.
Qed.

(** C2. A trainer that has its best attributes saves a checkpoint at epoch
    [e], of either kind; loading the file just written into a trainer with
    the same configured metrics succeeds and yields the saved model and
    optimizer state dicts, loss history, metric history and best value of
    every configured metric, with [start_epoch] set to [e + 1]. *)
Theorem checkpoint_round_trip (t t0 : Trainer) (e : Z) (save_best : bool)
    (suffix : option string) (dt : datetime) (fs : Files) :
  has_best_attrs t ->
  cfg_metrics (config (setup t0)) = cfg_metrics (config (setup t)) ->
  exists fs' t',
    _save_checkpoint t e (losses t) (metrics t) save_best suffix dt fs = Ok fs'
    /\ _load_checkpoint
         t0 (checkpoint_path (checkpoint_dir t) e save_best suffix dt) fs'
       = Ok t'
    /\ model t' = model t
    /\ optimizer t' = optimizer t
    /\ losses t' = losses t
    /\ metrics t' = metrics t
    /\ (forall i, In i (cfg_metrics (config (setup t))) ->
                  best t' !! best_attr i = best t !! best_attr i)
    /\ start_epoch t' = e + 1
    /\ setup t' = setup t0.
Proof.
  intros Hwf Hcfg.
  destruct (best_metrics_dict_ok t Hwf) as (d & Hd & Hdin).
  destruct (save_checkpoint_ok t e (losses t) (metrics t) save_best suffix dt
                               fs Hwf) as (d' & Hd' & Hsave).
  rewrite Hd in Hd'. injection Hd' as <-.
  set (path := checkpoint_path (checkpoint_dir t) e save_best suffix dt) in *.
  set (ck := mkCheckpoint e (model t) (optimizer t) (losses t) (metrics t) d) in *.
  destruct (load_best_loop ck (cfg_metrics (config (setup t0))))
    with (t0 := set_model (set_start_epoch t0 (ck_epoch ck + 1))
                          (ck_model_state_dict ck) (ck_optimizer_state_dict ck))
    as (t1 & Ht1 & Hs & Hm & Ho & He & _ & _ & Hin & _).
  { intros i Hi. rewrite Hcfg in Hi. cbn [ck ck_best_metrics].
    rewrite (Hdin i Hi). now apply Hwf. }
  exists ((path, ck) :: fs), (set_losses (set_metrics t1 (ck_metrics ck)) (ck_losses ck)).
  split; [exact Hsave|]. split.
  { unfold _load_checkpoint, torch_load. rewrite read_file_head.
    cbn [of_option mbind result_bind]. cbn [set_model set_start_epoch setup].
    cbn [set_model set_start_epoch setup] in Ht1. now rewrite Ht1. }
  cbn [set_losses set_metrics model optimizer losses metrics best start_epoch setup].
  split; [now rewrite Hm|]. split; [now rewrite Ho|].
  split; [reflexivity|]. split; [reflexivity|]. split.
  { intros i Hi. rewrite <- Hcfg in Hi. rewrite (Hin i Hi). cbn [ck ck_best_metrics].
    apply Hdin. now rewrite <- Hcfg. }
  split; [now rewrite He | now rewrite Hs].
Qed.

(** C9, as amended. Every save writes one file: a best checkpoint at the
    configured directory string immediately followed by
    [model_best_<metric>.pt], a periodic checkpoint at that string
    immediately followed by [model_epoch_<epoch>_datetime-<timestamp>.pt],
    the timestamp being day-month-year_hour-minute-second in two digits
    each.  No separator is inserted: the files are the ones the
    specification names, in directory [d], when the configured string is
    [d] followed by a slash. *)
Theorem checkpoint_files_paths (t : Trainer) (epoch : Z) (l : Losses)
    (m : Metrics) (dt : datetime) (fs : Files) (metric : string) :
  has_best_attrs t ->
  (exists ck,
      _save_checkpoint t epoch l m true (Some metric) dt fs
      = Ok ((checkpoint_dir t +:+ "model_best_" +:+ metric +:+ ".pt", ck)%string
              :: fs))
  /\ (exists ck,
         _save_checkpoint t epoch l m false None dt fs
         = Ok ((checkpoint_dir t +:+ "model_epoch_" +:+ str_int epoch
                +:+ "_datetime-" +:+ strftime dt +:+ ".pt", ck)%string :: fs))
  /\ (forall d : string,
         checkpoint_dir t = (d +:+ "/")%string ->
         checkpoint_path (checkpoint_dir t) epoch true (Some metric) dt
         = spec_best_path d metric
         /\ checkpoint_path (checkpoint_dir t) epoch false None dt
            = spec_periodic_path d epoch (strftime dt)).
Proof.
  intros Hwf. split; [|split].
  - destruct (save_checkpoint_ok t epoch l m true (Some metric) dt fs Hwf)
      as (d & _ & H). eexists. exact H.
  - destruct (save_checkpoint_ok t epoch l m false None dt fs Hwf)
      as (d & _ & H). eexists. exact H.
  - intros d ->. unfold checkpoint_path, spec_best_path, spec_periodic_path.
    rewrite !append_assoc. split; reflexivity.
Qed.

(** ** [filter_model_state_dict] *)

(** [d.get(k)] on the items of an ordered dict. *)
Fixpoint od_get {V : Type} (k : string) (d : list (string * V)) : option V :=
  match d with
  | [] => None
  | (k', v) :: rest => if String.eqb k' k then Some v else od_get k rest
  end.

Lemma startswith_append (p s : string) : startswith (p +:+ s) p = true.
Proof.
  induction p as [|a p IH]; [reflexivity|].
  rewrite append_cons. cbn [startswith]. now rewrite Ascii.eqb_refl, IH.
Qed.

Lemma drop_chars_append (p s : string) :
  drop_chars (String.length p) (p +:+ s) = s.
Proof.
  induction p as [|a p IH]; [now destruct s|].
  rewrite append_cons. cbn [String.length drop_chars]. exact IH.
Qed.

Lemma filtered_key_module (k : string) :
  filtered_key ("module." +:+ k) = k.
Proof.
  unfold filtered_key. rewrite (startswith_append "module." k).
  apply (drop_chars_append "module." k).
Qed.

Lemma od_set_fresh {V : Type} (k : string) (v : V) (d : list (string * V)) :
  ~ In k (map fst d) -> od_set k v d = d ++ [(k, v)].
Proof.
  induction d as [|[k' v'] rest IH]; intros Hk; [reflexivity|].
  cbn [od_set]. destruct (String.eqb_spec k' k) as [->|Hne].
  - exfalso. apply Hk. now left.
  - cbn [app]. f_equal. apply IH. intros H. apply Hk. now right.
Qed.

Lemma od_set_keys {V : Type} (k : string) (v : V) (d : list (string * V))
    (k0 : string) :
  In k0 (map fst (od_set k v d)) <-> k0 = k \/ In k0 (map fst d).
Proof.
  induction d as [|[k' v'] rest IH]; cbn [od_set map fst In].
  - split; [intros [<-|[]]; auto | intros [->|[]]; auto].
  - destruct (String.eqb_spec k' k) as [->|Hne]; cbn [map fst In].
    + split; [intros [<-|H]; auto | intros [->|[<-|H]]; auto].
    + rewrite IH. split.
      * intros [<-|[->|H]]; auto.
      * intros [->|[<-|H]]; auto.
Qed.

Lemma od_set_NoDup {V : Type} (k : string) (v : V) (d : list (string * V)) :
  NoDup (map fst d) -> NoDup (map fst (od_set k v d)).
Proof.
  induction d as [|[k' v'] rest IH]; intros Hnd; cbn [od_set map fst].
  - apply NoDup_cons. split; [apply not_elem_of_nil | constructor].
  - apply NoDup_cons in Hnd. destruct Hnd as [Hk' Hnd].
    destruct (String.eqb_spec k' k) as [->|Hne]; cbn [map fst].
    + apply NoDup_cons. split; assumption.
    + apply NoDup_cons. split; [|now apply IH].
      rewrite list_elem_of_In, od_set_keys. rewrite list_elem_of_In in Hk'.
      intros [E|H]; [congruence | contradiction].
Qed.

Lemma od_get_set {V : Type} (k : string) (v : V) (d : list (string * V))
    (k0 : string) :
  od_get k0 (od_set k v d) = if String.eqb k k0 then Some v else od_get k0 d.
Proof.
  induction d as [|[k' v'] rest IH]; cbn [od_set od_get].
  - reflexivity.
  - destruct (String.eqb_spec k' k) as [->|Hne]; cbn [od_get].
    + destruct (String.eqb_spec k k0); reflexivity.
    + rewrite IH. destruct (String.eqb_spec k' k0) as [->|Hne0]; [|reflexivity].
      destruct (String.eqb_spec k k0); [congruence | reflexivity].
Qed.

Lemma od_get_app {V : Type} (k0 : string) (d1 d2 : list (string * V)) :
  od_get k0 (d1 ++ d2)
  = match od_get k0 d1 with Some v => Some v | None => od_get k0 d2 end.
Proof.
  induction d1 as [|[k v] rest IH]; [reflexivity|].
  cbn [app od_get]. destruct (String.eqb k k0); [reflexivity | exact IH].
Qed.

(** The entries of a state dict under the keys they are stored under. *)
Definition filtered_items {V : Type} (sd : list (string * V))
  : list (string * V) :=
  map (fun kv => (filtered_key kv.1, kv.2)) sd.

Lemma filter_fold_spec {V : Type} (sd acc : list (string * V)) :
  NoDup (map fst acc) ->
  let r := fold_left (fun d kv => od_set (filtered_key kv.1) kv.2 d) sd acc in
  NoDup (map fst r)
  /\ (forall k, In k (map fst r)
                <-> In k (map fst acc) \/ In k (map fst (filtered_items sd)))
  /\ (forall k, od_get k r
                = match od_get k (rev (filtered_items sd)) with
                  | Some v => Some v
                  | None => od_get k acc
                  end).
Proof.
  revert acc. induction sd as [|[k v] rest IH]; intros acc Hnd; cbn zeta.
  - cbn. split; [exact Hnd|]. split; [intros k; split; [auto | intros [H|[]]; auto]|].
    reflexivity.
  - cbn [fold_left fst snd].
    destruct (IH (od_set (filtered_key k) v acc) (od_set_NoDup _ _ _ Hnd))
      as (Hnd' & Hkeys & Hget).
    split; [exact Hnd'|]. split.
    + intros k0. rewrite Hkeys, od_set_keys. cbn [filtered_items map fst In].
      split.
      * intros [[->|H]|H]; auto.
      * intros [H|[<-|H]]; auto.
    + intros k0. rewrite Hget, od_get_set. cbn [filtered_items map rev fst snd].
      rewrite od_get_app. fold (filtered_items rest).
      destruct (od_get k0 (rev (filtered_items rest))); [reflexivity|].
      cbn [od_get]. destruct (String.eqb (filtered_key k) k0); reflexivity.
Qed.

Lemma filter_fold_distinct {V : Type} (sd acc : list (string * V)) :
  NoDup (map fst (acc ++ filtered_items sd)) ->
  fold_left (fun d kv => od_set (filtered_key kv.1) kv.2 d) sd acc
  = acc ++ filtered_items sd.
Proof.
  revert acc. induction sd as [|[k v] rest IH]; intros acc Hnd.
  - cbn. now rewrite app_nil_r.
  - cbn [fold_left filtered_items map fst snd] in *.
    assert (Hfresh : ~ In (filtered_key k) (map fst acc)).
    { rewrite map_app in Hnd. apply NoDup_app in Hnd.
      destruct Hnd as (_ & Hdisj & _). intros Hin.
      apply (Hdisj (filtered_key k)); [now apply list_elem_of_In|].
      apply list_elem_of_In. now left. }
    rewrite (od_set_fresh _ _ _ Hfresh), IH.
    + now rewrite <- app_assoc.
    + now rewrite <- app_assoc.
Qed.

(** The distinct elements of a list, each at its first occurrence. *)
Fixpoint first_occurrences (l : list string) : list string :=
  match l with
  | [] => []
  | k :: rest => k :: filter (fun x => x <> k) (first_occurrences rest)
  end.

Lemma od_set_keys_there {V : Type} (k : string) (v : V) (d : list (string * V)) :
  In k (map fst d) -> map fst (od_set k v d) = map fst d.
Proof.
  induction d as [|[k' v'] rest IH]; intros Hk; [destruct Hk|].
  cbn [od_set]. destruct (String.eqb_spec k' k) as [->|Hne]; [reflexivity|].
  cbn [map fst]. f_equal. apply IH. destruct Hk as [Hk|Hk]; [|exact Hk].
  cbn [fst] in Hk. contradiction.
Qed.

(** The keys of the filtered dict in their order: the keys already there,
    then the new ones in the order in which they first come. *)
Lemma filter_fold_keys {V : Type} (sd acc : list (string * V)) :
  map fst (fold_left (fun d kv => od_set (filtered_key kv.1) kv.2 d) sd acc)
  = map fst acc
    ++ filter (fun k => k ∉ map fst acc)
              (first_occurrences (map filtered_key (map fst sd))).
Proof.
  revert acc. induction sd as [|[k v] rest IH]; intros acc.
  - cbn. now rewrite app_nil_r.
  - cbn [fold_left map fst snd first_occurrences]. rewrite IH.
    set (L := first_occurrences (map filtered_key (map fst rest))).
    destruct (decide (filtered_key k ∈ map fst acc)) as [Hin|Hnin].
    + rewrite od_set_keys_there by now apply list_elem_of_In.
      rewrite filter_cons_False by (intros H; now apply H).
      f_equal. rewrite list_filter_filter. apply list_filter_iff.
      intros x. split; [|intros [H _]; exact H].
      intros H. split; [exact H|]. intros ->. contradiction.
    + rewrite od_set_fresh by (intros H; now apply Hnin, list_elem_of_In).
      rewrite map_app. cbn [map fst]. rewrite <- app_assoc. f_equal.
      rewrite filter_cons_True by exact Hnin. cbn [app]. f_equal.
      rewrite list_filter_filter. apply list_filter_iff.
      intros x. rewrite elem_of_app, elem_of_cons, elem_of_nil.
      split.
      * intros H. split; [intros H'; apply H; now left
                         | intros H'; apply H; right; now left].
      * intros [H1 H2] [H'|[H'|[]]]; contradiction.
Qed.

(** For any state dict, the filtered dict has distinct keys, which are the
    keys the entries are stored under ([module.] taken off the front once),
    in the order in which these keys first come in the state dict (a key
    stored again keeps its first position), and holds under each key the
    value of the last entry stored under it. *)
Theorem filter_model_state_dict_last_wins {V : Type} (sd : list (string * V)) :
  NoDup (map fst (filter_model_state_dict sd))
  /\ (forall k, In k (map fst (filter_model_state_dict sd))
                <-> In k (map filtered_key (map fst sd)))
  /\ map fst (filter_model_state_dict sd)
     = first_occurrences (map filtered_key (map fst sd))
  /\ (forall k, od_get k (filter_model_state_dict sd)
                = od_get k (rev (filtered_items sd))).
Proof.
  destruct (filter_fold_spec sd [] (NoDup_nil_2 (A := string)))
    as (Hnd & Hkeys & Hget).
  split; [exact Hnd|]. split; [|split].
  - intros k. unfold filter_model_state_dict. rewrite Hkeys.
    unfold filtered_items. rewrite !map_map. cbn [fst].
    split; [intros [[]|H]; exact H | auto].
  - unfold filter_model_state_dict. rewrite filter_fold_keys. cbn [map app].
    induction (first_occurrences (map filtered_key (map fst sd))) as [|x l IH];
      [reflexivity|].
    rewrite filter_cons_True by apply not_elem_of_nil. now rewrite IH.
  - intros k. unfold filter_model_state_dict. rewrite Hget.
    now destruct (od_get k (rev (filtered_items sd))).
Qed.

(** For a state dict with distinct keys: the state dict of the model
    wrapped in [DataParallel] is filtered back to it, entry by entry in the
    same order; and the state dict itself is left as it is when none of its
    keys starts with [module.]. *)
Theorem filter_model_state_dict_unwraps {V : Type} (sd : list (string * V)) :
  NoDup (map fst sd) ->
  filter_model_state_dict (data_parallel_state_dict sd) = sd
  /\ ((forall k, In k (map fst sd) -> startswith k "module." = false) ->
      filter_model_state_dict sd = sd).
Proof.
  intros Hnd. split.
  - unfold filter_model_state_dict. rewrite filter_fold_distinct.
    + cbn [app]. unfold filtered_items, data_parallel_state_dict.
      rewrite map_map. cbn [fst snd].
      rewrite <- (map_id sd) at 2. apply map_ext. intros [k v].
      cbn [fst snd]. now rewrite filtered_key_module.
    + cbn [app]. unfold filtered_items, data_parallel_state_dict.
      rewrite !map_map. cbn [fst snd].
      erewrite map_ext; [exact Hnd|]. intros [k v]. cbn [fst].
      apply filtered_key_module.
  - intros Hno.
    assert (E : filtered_items sd = sd).
    { unfold filtered_items. rewrite <- (map_id sd) at 2.
      apply map_ext_in. intros [k v] Hin. cbn [fst snd]. f_equal.
      unfold filtered_key. rewrite Hno; [reflexivity|].
      apply in_map_iff. exists (k, v). auto. }
    unfold filter_model_state_dict. rewrite filter_fold_distinct; cbn [app].
    + exact E.
    + now rewrite E.
Qed.

(** ** Tracking the best validation values *)

Lemma append_valid_metric_ok (t : Trainer) (metric : string) (v : F)
    (hist : list F) :
  m_valid (metrics t) !! metric = Some hist ->
  append_valid_metric t (metric, v)
  = Ok (set_metrics t
          (mkMetrics (m_train (metrics t))
                     (<[metric := hist ++ [v]]> (m_valid (metrics t))))).
Proof. intros H. unfold append_valid_metric. cbn [fst snd]. now rewrite H. Qed.

(** One pass of the loop over the validation metrics, for a metric with
    value [v] and stored best [b]: the value is appended to the history;
    when [b <= v] holds the stored best becomes [v] and the best checkpoint
    of that metric is written (the newest file at its path, holding the
    epoch, the current model and the new best value), so a value equal to
    the stored best, for which [<=] holds, updates and writes again; when
    [b <= v] fails the best values and the files are left as they were. *)
Lemma track_best_step (epoch : Z) (t : Trainer) (fs : Files)
    (metric : string) (v b : F) (hist : list F) :
  has_best_attrs t ->
  m_valid (metrics t) !! metric = Some hist ->
  best t !! best_attr metric = Some b ->
  exists t' fs',
    track_best epoch (t, fs) (metric, v) = Ok (t', fs')
    /\ m_valid (metrics t') !! metric = Some (hist ++ [v])
    /\ (fle b v = true ->
        best t' = <[best_attr metric := v]> (best t)
        /\ best t' !! best_attr metric = Some v
        /\ exists ck,
            fs' = ((checkpoint_dir t +:+ "model_best_" +:+ metric +:+ ".pt")%string,
                   ck) :: fs
            /\ torch_load
                 (checkpoint_dir t +:+ "model_best_" +:+ metric +:+ ".pt")%string
                 fs' = Ok ck
            /\ ck_epoch ck = epoch
            /\ ck_model_state_dict ck = model t
            /\ (In metric (cfg_metrics (config (setup t))) ->
                ck_best_metrics ck !! best_attr metric = Some v))
    /\ (v = b -> fle b b = true ->
        best t' !! best_attr metric = Some b /\ length fs' = S (length fs))
    /\ (fle b v = false -> best t' = best t /\ fs' = fs).
Proof.
  intros Hwf Hhist Hb.
  set (t1 := set_metrics t
               (mkMetrics (m_train (metrics t))
                          (<[metric := hist ++ [v]]> (m_valid (metrics t))))).
  assert (Hrun : track_best epoch (t, fs) (metric, v)
                 = if fle b v
                   then
                     fs ← _save_checkpoint (setattr t1 (best_attr metric) v)
                            epoch (losses t1) (metrics t1) true (Some metric)
                            (now epoch) fs;
                     Ok (setattr t1 (best_attr metric) v, fs)
                   else Ok (t1, fs)).
  { unfold track_best. rewrite (append_valid_metric_ok t metric v hist Hhist).
    cbn [mbind result_bind fst snd]. fold t1.
    assert (Hg : getattr t1 (best_attr metric) = Ok b)
      by (unfold getattr; cbn [t1 set_metrics best]; now rewrite Hb).
    rewrite Hg. reflexivity. }
  assert (Hwf2 : has_best_attrs (setattr t1 (best_attr metric) v)).
  { intros i Hi. cbn [setattr set_best t1 set_metrics best setup] in *.
    destruct (decide (best_attr metric = best_attr i)) as [->|Hne].
    - rewrite lookup_insert_eq; eauto.
    - rewrite lookup_insert_ne by exact Hne. now apply Hwf. }
  destruct (best_metrics_dict_ok _ Hwf2) as (d & Hd & Hdin).
  destruct (save_checkpoint_ok (setattr t1 (best_attr metric) v) epoch
              (losses t1) (metrics t1) true (Some metric) (now epoch) fs Hwf2)
    as (d' & Hd' & Hsave).
  rewrite Hd in Hd'. injection Hd' as <-.
  destruct (fle b v) eqn:Hle.
  - rewrite Hsave in Hrun. cbn [mbind result_bind] in Hrun.
    eexists _, _. split; [exact Hrun|].
    split; [cbn; now rewrite lookup_insert_eq|].
    split.
    { intros _. split; [reflexivity|]. split; [cbn; now rewrite lookup_insert_eq|].
      eexists. split; [reflexivity|]. split.
      { unfold torch_load. cbn [checkpoint_path format_suffix].
        now rewrite read_file_head. }
      split; [reflexivity|]. split; [reflexivity|].
      intros Hin. cbn [ck_best_metrics]. rewrite (Hdin metric Hin).
      cbn. now rewrite lookup_insert_eq. }
    split.
    { intros -> _. split; [cbn; now rewrite lookup_insert_eq | reflexivity]. }
    discriminate.
  - eexists _, _. split; [exact Hrun|].
    split; [cbn; now rewrite lookup_insert_eq|].
    split; [discriminate|]. split.
    { intros -> Hbb. congruence. }
    intros _. split; reflexivity.
Qed.

(** *** The whole loop over the validation metrics *)

Lemma length_append (s t : string) :
  String.length (s +:+ t) = (String.length s + String.length t)%nat.
Proof.
  induction s as [|a s IH]; [reflexivity|].
  rewrite append_cons. simpl. now rewrite IH.
Qed.

Lemma append_inj_r (s t u : string) : (s +:+ u = t +:+ u)%string -> s = t.
Proof.
  revert t. induction s as [|a s IH]; intros [|b t] H.
  - reflexivity.
  - apply (f_equal String.length) in H. rewrite !length_append in H.
    simpl in H. lia.
  - apply (f_equal String.length) in H. rewrite !length_append in H.
    simpl in H. lia.
  - rewrite !append_cons in H. injection H as -> H. f_equal. now apply IH.
Qed.

(** The file of the best checkpoint of a metric. *)
Definition best_file (dir metric : string) : string :=
  (dir +:+ "model_best_" +:+ metric +:+ ".pt")%string.

Lemma best_file_inj (dir m1 m2 : string) :
  best_file dir m1 = best_file dir m2 -> m1 = m2.
Proof.
  unfold best_file. intros H.
  apply (inj (String.app dir)) in H.
  apply (inj (String.app "model_best_")) in H.
  now apply append_inj_r in H.
Qed.

(** What one pass of the loop computes, in full. *)
Lemma track_best_eq (epoch : Z) (t : Trainer) (fs : Files) (metric : string)
    (v b : F) (hist : list F) :
  has_best_attrs t ->
  m_valid (metrics t) !! metric = Some hist ->
  best t !! best_attr metric = Some b ->
  let t1 :=
    set_metrics t
      (mkMetrics (m_train (metrics t))
                 (<[metric := hist ++ [v]]> (m_valid (metrics t)))) in
  exists d,
    (forall i, In i (cfg_metrics (config (setup t))) ->
               d !! best_attr i = <[best_attr metric := v]> (best t) !! best_attr i)
    /\ track_best epoch (t, fs) (metric, v)
       = Ok (if fle b v
             then (setattr t1 (best_attr metric) v,
                   (best_file (checkpoint_dir t) metric,
                    mkCheckpoint epoch (model t) (optimizer t) (losses t)
                                 (metrics t1) d) :: fs)
             else (t1, fs)).
Proof.
  intros Hwf Hhist Hb t1.
  assert (Hwf2 : has_best_attrs (setattr t1 (best_attr metric) v)).
  { intros i Hi. cbn [setattr set_best t1 set_metrics best setup] in *.
    destruct (decide (best_attr metric = best_attr i)) as [->|Hne].
    - rewrite lookup_insert_eq; eauto.
    - rewrite lookup_insert_ne by exact Hne. now apply Hwf. }
  destruct (best_metrics_dict_ok _ Hwf2) as (d & Hd & Hdin).
  assert (Hsave : _save_checkpoint (setattr t1 (best_attr metric) v) epoch
                    (losses (setattr t1 (best_attr metric) v))
                    (metrics (setattr t1 (best_attr metric) v))
                    true (Some metric) (now epoch) fs
                  = Ok ((best_file (checkpoint_dir t) metric,
                         mkCheckpoint epoch (model t) (optimizer t) (losses t)
                                      (metrics t1) d) :: fs)).
  { unfold _save_checkpoint. rewrite Hd. reflexivity. }
  exists d. split; [exact Hdin|]. unfold track_best.
  rewrite (append_valid_metric_ok t metric v hist Hhist).
  cbn [mbind result_bind fst snd]. fold t1.
  assert (Hg : getattr t1 (best_attr metric) = Ok b)
    by (unfold getattr; cbn [t1 set_metrics best]; now rewrite Hb).
  rewrite Hg. cbn [mbind result_bind].
  destruct (fle b v); [|reflexivity]. rewrite Hsave. reflexivity.
Qed.

(** ** The periodic save *)

(** With a non-zero period, the periodic step of epoch [e] succeeds; it
    writes exactly one file, the timestamped checkpoint of that epoch, when
    [e] is a multiple of the period, whatever the metrics are, and writes
    nothing otherwise; with a positive period epoch 0 is always saved, and
    a run starting at epoch 0 processes epoch 0 first. *)
Lemma periodic_save_step (e : Z) (t : Trainer) (fs : Files) :
  has_best_attrs t ->
  save_period_in_epochs t <> 0 ->
  exists fs',
    periodic_save e (t, fs) = Ok (t, fs')
    /\ ((save_period_in_epochs t | e) ->
        exists ck,
          fs' = ((checkpoint_dir t +:+ "model_epoch_" +:+ str_int e
                  +:+ "_datetime-" +:+ strftime (now e) +:+ ".pt")%string, ck)
                  :: fs
          /\ ck_epoch ck = e
          /\ ck_model_state_dict ck = model t
          /\ ck_losses ck = losses t /\ ck_metrics ck = metrics t)
    /\ (~ (save_period_in_epochs t | e) -> fs' = fs)
    /\ (0 < save_period_in_epochs t -> e = 0 -> length fs' = S (length fs))
    /\ (start_epoch t = 0 -> 0 < num_epochs (setup t) ->
        exists rest,
          range (start_epoch t) (num_epochs (setup t)) = 0 :: rest).
Proof.
  intros Hwf Hp.
  destruct (save_checkpoint_ok t e (losses t) (metrics t) false None (now e)
                               fs Hwf) as (d & _ & Hsave).
  assert (Hrun : periodic_save e (t, fs)
                 = if e mod save_period_in_epochs t =? 0
                   then Ok (t, (checkpoint_path (checkpoint_dir t) e false None
                                                (now e),
                                mkCheckpoint e (model t) (optimizer t)
                                             (losses t) (metrics t) d) :: fs)
                   else Ok (t, fs)).
  { unfold periodic_save. destruct (Z.eqb_spec (save_period_in_epochs t) 0);
      [contradiction|].
    destruct (e mod save_period_in_epochs t =? 0); [|reflexivity].
    now rewrite Hsave. }
  assert (Hdiv : (save_period_in_epochs t | e)
                 <-> e mod save_period_in_epochs t = 0).
  { symmetry. now apply Z.mod_divide. }
  assert (Hlast : start_epoch t = 0 -> 0 < num_epochs (setup t) ->
                  exists rest,
                    range (start_epoch t) (num_epochs (setup t)) = 0 :: rest).
  { intros -> Hn. unfold range.
    destruct (Z.to_nat (num_epochs (setup t) - 0)) as [|k] eqn:E; [lia|].
    simpl. eauto. }
  destruct (Z.eqb_spec (e mod save_period_in_epochs t) 0) as [Hm|Hm].
  - eexists. split; [exact Hrun|]. split.
    { intros _. eexists. split; [reflexivity|]. repeat split. }
    split; [intros Hn; apply Hdiv in Hm; contradiction|].
    split; [reflexivity | exact Hlast].
  - exists fs. split; [exact Hrun|]. split.
    { intros Hd. apply Hdiv in Hd. contradiction. }
    split; [reflexivity|]. split; [|exact Hlast].
    intros Hpos ->. rewrite Z.mod_0_l in Hm by lia. contradiction.
Qed.

(** ** The best values along a run *)

Lemma for_each_preserves {S B : Type} (R : S -> S -> Prop)
    (body : S -> B -> result S) :
  (forall s, R s s) ->
  (forall a b c, R a b -> R b c -> R a c) ->
  (forall s b s', body s b = Ok s' -> R s s') ->
  forall l s s', for_each body l s = Ok s' -> R s s'.
Proof.
  intros Hrefl Htrans Hbody. induction l as [|b l IH]; intros s s' H.
  - injection H as <-. apply Hrefl.
  - cbn [for_each] in H. apply bind_Ok_inv in H. destruct H as (s1 & H1 & H2).
    eapply Htrans; [eapply Hbody; exact H1 | apply IH; exact H2].
Qed.

(** [raised b1 b2]: [b2] is [b1], or was reached from it by updates, each of
    them replacing a stored value [x] by a value [y] with [x <= y]. *)
Definition raised (b1 b2 : F) : Prop := rtc (fun x y => fle x y = true) b1 b2.

(** Every best value of [t1] is still there in [t2], kept or raised. *)
Definition best_grows (t1 t2 : Trainer) : Prop :=
  forall name b1, best t1 !! name = Some b1 ->
                  exists b2, best t2 !! name = Some b2 /\ raised b1 b2.

(** Every stored best value compares with itself, as every floating point
    number other than NaN does. *)
Definition comparable (t : Trainer) : Prop :=
  forall name b, best t !! name = Some b -> fle b b = true.

Lemma raised_cases (b1 b2 : F) :
  (forall x y z, fle x y = true -> fle y z = true -> fle x z = true) ->
  raised b1 b2 -> b2 = b1 \/ fle b1 b2 = true.
Proof.
  intros Htrans H. induction H as [x|x y z Hxy _ IH]; [now left|].
  right. destruct IH as [->|Hyz]; [exact Hxy|]. exact (Htrans x y z Hxy Hyz).
Qed.

Lemma best_grows_refl (t : Trainer) : best_grows t t.
Proof. intros name b H. exists b. split; [exact H | apply rtc_refl]. Qed.

Lemma best_grows_eq (t1 t2 : Trainer) : best t1 = best t2 -> best_grows t1 t2.
Proof. intros E name b H. rewrite <- E. exists b. split; [exact H | apply rtc_refl]. Qed.

Lemma best_grows_trans (t1 t2 t3 : Trainer) :
  best_grows t1 t2 -> best_grows t2 t3 -> best_grows t1 t3.
Proof.
  intros H12 H23 name b1 H1. destruct (H12 name b1 H1) as (b2 & H2 & L12).
  destruct (H23 name b2 H2) as (b3 & H3 & L23).
  exists b3. split; [exact H3|]. unfold raised in *.
  eapply rtc_trans; eassumption.
Qed.

Lemma track_best_best (epoch : Z) (t : Trainer) (fs : Files) (s' : Trainer * Files)
    (mv : string * F) :
  track_best epoch (t, fs) mv = Ok s' ->
  exists b, best t !! best_attr mv.1 = Some b
            /\ best s'.1 = if fle b mv.2
                           then <[best_attr mv.1 := mv.2]> (best t)
                           else best t.
Proof.
  unfold track_best. intros H.
  apply bind_Ok_inv in H. destruct H as (t1 & Ht1 & H).
  assert (Hb1 : best t1 = best t).
  { unfold append_valid_metric in Ht1. apply bind_Ok_inv in Ht1.
    destruct Ht1 as (h & _ & [= <-]). reflexivity. }
  apply bind_Ok_inv in H. destruct H as (b & Hb & H).
  unfold getattr in Hb. destruct (best t1 !! best_attr mv.1) as [b0|] eqn:Eb;
    [injection Hb as ->|discriminate].
  exists b. split; [now rewrite <- Hb1|].
  destruct (fle b mv.2) eqn:Hle.
  - apply bind_Ok_inv in H. destruct H as (fs1 & _ & [= <-]).
    cbn [fst setattr set_best best]. now rewrite Hb1.
  - injection H as <-. exact Hb1.
Qed.

Lemma track_best_grows (epoch : Z) (s s' : Trainer * Files) (mv : string * F) :
  track_best epoch s mv = Ok s' -> best_grows s.1 s'.1.
Proof.
  destruct s as [t fs]. intros H.
  apply track_best_best in H. destruct H as (b & Hb & Hbest).
  cbn [fst]. intros name b1 Hn. rewrite Hbest.
  destruct (fle b mv.2) eqn:Hle.
  - destruct (decide (best_attr mv.1 = name)) as [<-|Hne].
    + rewrite lookup_insert_eq. exists mv.2. split; [reflexivity|].
      rewrite Hb in Hn. injection Hn as <-. apply rtc_once. exact Hle.
    + rewrite lookup_insert_ne by exact Hne.
      exists b1. split; [exact Hn | apply rtc_refl].
  - exists b1. split; [exact Hn | apply rtc_refl].
Qed.

Lemma track_best_comparable (epoch : Z) (s s' : Trainer * Files)
    (mv : string * F) :
  (forall x y, fle x y = true -> fle y y = true) ->
  track_best epoch s mv = Ok s' -> comparable s.1 -> comparable s'.1.
Proof.
  destruct s as [t fs]. intros Hright H Hc.
  apply track_best_best in H. destruct H as (b & Hb & Hbest).
  cbn [fst] in Hc. intros name b1. rewrite Hbest.
  destruct (fle b mv.2) eqn:Hle; [|apply Hc].
  destruct (decide (best_attr mv.1 = name)) as [<-|Hne].
  - rewrite lookup_insert_eq. intros [= <-]. exact (Hright b mv.2 Hle).
  - rewrite lookup_insert_ne by exact Hne. apply Hc.
Qed.

Lemma append_train_metric_best (t t' : Trainer) (mv : string * F) :
  append_train_metric t mv = Ok t' -> best t = best t'.
Proof.
  unfold append_train_metric. intros H. apply bind_Ok_inv in H.
  destruct H as (h & _ & [= <-]). reflexivity.
Qed.

Lemma train_epoch_best (t t' : Trainer) (out : EpochOut) :
  _train_epoch t = Ok (t', out) -> best t' = best t /\ setup t' = setup t.
Proof.
  unfold _train_epoch. intros H. apply bind_Ok_inv in H.
  destruct H as (st & _ & H). apply bind_Ok_inv in H.
  destruct H as (o & _ & [= <- _]). split; reflexivity.
Qed.

Lemma periodic_save_trainer (e : Z) (s s' : Trainer * Files) :
  periodic_save e s = Ok s' -> s'.1 = s.1.
Proof.
  destruct s as [t fs]. unfold periodic_save. intros H.
  destruct (save_period_in_epochs t =? 0); [discriminate|].
  destruct (e mod save_period_in_epochs t =? 0).
  - apply bind_Ok_inv in H. destruct H as (fs1 & _ & [= <-]). reflexivity.
  - now injection H as <-.
Qed.

(** The best values at the end of an epoch are those of the loop over the
    validation metrics, started from the best values at its beginning. *)
Lemma epoch_body_best_loop (s s' : Trainer * Files) (e : Z) :
  epoch_body s e = Ok s' ->
  exists valid_items s2 s3,
    best s2.1 = best s.1
    /\ for_each (track_best e) valid_items s2 = Ok s3
    /\ s'.1 = s3.1.
Proof.
  destruct s as [t fs]. unfold epoch_body. intros H.
  apply bind_Ok_inv in H. destruct H as ([t1 out_t] & Htr & H).
  apply train_epoch_best in Htr. destruct Htr as [Hb1 _].
  apply bind_Ok_inv in H. destruct H as (train_items & _ & H).
  apply bind_Ok_inv in H. destruct H as (t2 & Ht2 & H).
  apply (for_each_preserves (fun a b => best a = best b)) in Ht2;
    [| congruence | congruence | intros a b c; apply append_train_metric_best].
  apply bind_Ok_inv in H. destruct H as (out_v & _ & H).
  apply bind_Ok_inv in H. destruct H as (valid_items & _ & H).
  apply bind_Ok_inv in H. destruct H as (s3 & Hs3 & H).
  apply periodic_save_trainer in H.
  eexists valid_items, _, s3. split; [|split; [exact Hs3 | exact H]].
  cbn [fst set_losses best] in *. congruence.
Qed.

Lemma epoch_body_grows (s s' : Trainer * Files) (e : Z) :
  epoch_body s e = Ok s' -> best_grows s.1 s'.1.
Proof.
  intros H. apply epoch_body_best_loop in H.
  destruct H as (valid_items & s2 & s3 & Hb & Hloop & ->).
  apply (for_each_preserves (fun a b => best_grows a.1 b.1)) in Hloop;
    [| intros; apply best_grows_refl
     | intros a b c; apply best_grows_trans
     | intros a b c; apply track_best_grows ].
  eapply best_grows_trans; [|exact Hloop].
  apply best_grows_eq. now symmetry.
Qed.

Lemma epoch_body_comparable (s s' : Trainer * Files) (e : Z) :
  (forall x y, fle x y = true -> fle y y = true) ->
  epoch_body s e = Ok s' -> comparable s.1 -> comparable s'.1.
Proof.
  intros Hright H Hc. apply epoch_body_best_loop in H.
  destruct H as (valid_items & s2 & s3 & Hb & Hloop & ->).
  assert (Hc2 : comparable s2.1).
  { intros name b. rewrite Hb. apply Hc. }
  clear Hc Hb. revert s2 Hloop Hc2.
  induction valid_items as [|mv rest IH]; intros s2 Hloop Hc2.
  - injection Hloop as <-. exact Hc2.
  - cbn [for_each] in Hloop. apply bind_Ok_inv in Hloop.
    destruct Hloop as (s2' & Hstep & Hloop).
    apply (IH s2' Hloop). exact (track_best_comparable e s2 s2' mv Hright Hstep Hc2).
Qed.

Lemma epoch_states_step (epochs : list Z) (s : Trainer * Files) (i : nat)
    (s1 s2 : Trainer * Files) :
  (s :: epoch_states epochs s) !! i = Some s1 ->
  (s :: epoch_states epochs s) !! S i = Some s2 ->
  exists e, epoch_body s1 e = Ok s2.
Proof.
  revert s i. induction epochs as [|e rest IH]; intros s i H1 H2.
  - destruct i; discriminate H2.
  - cbn [epoch_states] in *. destruct (epoch_body s e) as [s'|x] eqn:E.
    + destruct i as [|i].
      * injection H1 as <-. injection H2 as <-. eauto.
      * apply (IH s' i); assumption.
    + destruct i; discriminate H2.
Qed.

Lemma epoch_states_comparable (epochs : list Z) (s : Trainer * Files) (i : nat)
    (s1 : Trainer * Files) :
  (forall x y, fle x y = true -> fle y y = true) ->
  comparable s.1 ->
  (s :: epoch_states epochs s) !! i = Some s1 -> comparable s1.1.
Proof.
  intros Hright. revert s i. induction epochs as [|e rest IH]; intros s i Hc H1.
  - destruct i as [|i]; [|discriminate H1]. now injection H1 as <-.
  - destruct i as [|i]; [now injection H1 as <-|].
    cbn [epoch_states] in H1. destruct (epoch_body s e) as [s'|x] eqn:E;
      [|discriminate H1].
    apply (IH s' i); [|exact H1].
    exact (epoch_body_comparable s s' e Hright E Hc).
Qed.

(** The best values of a trainer the constructor built afresh compare with
    themselves when [0.0 <= 0.0]. *)
Lemma init_comparable (s : Setup) (m : Params) (o : OptState)
    (logger : option Logger) (fs : Files) (t : Trainer) :
  fle fzero fzero = true ->
  cfg_start_from_checkpoint (config s) = false ->
  init s m o logger fs = Ok t -> comparable t.
Proof.
  intros H0 Hstart. unfold init. destruct logger as [lg|]; [|discriminate].
  rewrite Hstart. intros [= <-] name b. cbn [best].
  assert (H : forall (l : list string) (d : gmap string F),
             (forall b', d !! name = Some b' -> fle b' b' = true) ->
             foldl (fun d name => <[best_attr name := fzero]> d) d l !! name
             = Some b -> fle b b = true).
  { induction l as [|n l IH]; intros d Hd; cbn [foldl]; [apply Hd|].
    apply IH. intros b'. destruct (decide (best_attr n = name)) as [<-|Hne].
    - rewrite lookup_insert_eq. now intros [= <-].
    - rewrite lookup_insert_ne by exact Hne. apply Hd. }
  apply H. intros b'. rewrite lookup_empty. discriminate.
Qed.

(** C4. Along the states at the end of the epochs of a run (the state the
    run starts from first), every stored best value is still stored in the
    next state, and there it is the same value or one it was raised to by
    updates, each from a stored value [x] to a value [y] with [x <= y]: no
    property of [<=] is assumed for this.  As [<=] is transitive, the next
    value is the previous one or a value the previous one is [<=] to.  As,
    moreover, [y <= y] whenever [x <= y] (so it is on the floating point
    numbers, NaN included), a run that starts with best values that compare
    with themselves (the 0.0 of a fresh trainer) keeps such values, and
    each stored best is [<=] its next value. *)
Theorem best_values_monotone (epochs : list Z) (s : Trainer * Files)
    (name : string) (i : nat) (s1 s2 : Trainer * Files) (b1 : F) :
  (s :: epoch_states epochs s) !! i = Some s1 ->
  (s :: epoch_states epochs s) !! S i = Some s2 ->
  best s1.1 !! name = Some b1 ->
  exists b2,
    best s2.1 !! name = Some b2
    /\ raised b1 b2
    /\ ((forall x y z, fle x y = true -> fle y z = true -> fle x z = true) ->
        (b2 = b1 \/ fle b1 b2 = true)
        /\ ((forall x y, fle x y = true -> fle y y = true) ->
            comparable s.1 ->
            fle b1 b2 = true /\ fle b2 b2 = true)).
Proof.
  intros H1 H2 Hb. destruct (epoch_states_step epochs s i s1 s2 H1 H2) as [e He].
  destruct (epoch_body_grows s1 s2 e He name b1 Hb) as (b2 & Hb2 & Hr).
  exists b2. split; [exact Hb2|]. split; [exact Hr|].
  intros Htrans. pose proof (raised_cases b1 b2 Htrans Hr) as Hcases.
  split; [exact Hcases|]. intros Hright Hc.
  pose proof (epoch_states_comparable epochs s i s1 Hright Hc H1 name b1 Hb) as H11.
  pose proof (epoch_states_comparable epochs s (S i) s2 Hright Hc H2 name b2 Hb2)
    as H22.
  split; [|exact H22]. destruct Hcases as [->|Hle]; [exact H11 | exact Hle].
Qed.

(** A run that returns has completed every epoch of its range, and returns
    the last of the states at the end of its epochs. *)
Lemma train_epoch_states (t : Trainer) (fs : Files) (s' : Trainer * Files) :
  train t fs = Ok s' ->
  let epochs := range (start_epoch t) (num_epochs (setup t)) in
  length (epoch_states epochs (t, fs)) = length epochs
  /\ last ((t, fs) :: epoch_states epochs (t, fs)) = Some s'.
Proof.
  unfold train. generalize (range (start_epoch t) (num_epochs (setup t))).
  intros epochs. generalize (t, fs). clear t fs.
  induction epochs as [|e rest IH]; intros s H.
  - injection H as <-. split; reflexivity.
  - cbn [for_each] in H. apply bind_Ok_inv in H. destruct H as (s1 & H1 & H2).
    cbn [epoch_states]. rewrite H1. destruct (IH s1 H2) as [Hlen Hlast].
    split; [simpl; now rewrite Hlen|].
    rewrite last_cons. cbn zeta in Hlast. now rewrite Hlast.
Qed.

(** *** The periodic save within a run *)

Lemma track_best_setup (epoch : Z) (s s' : Trainer * Files) (mv : string * F) :
  track_best epoch s mv = Ok s' -> setup s'.1 = setup s.1.
Proof.
  destruct s as [t fs]. unfold track_best. intros H.
  apply bind_Ok_inv in H. destruct H as (t1 & Ht1 & H).
  assert (Hs1 : setup t1 = setup t).
  { unfold append_valid_metric in Ht1. apply bind_Ok_inv in Ht1.
    destruct Ht1 as (h & _ & [= <-]). reflexivity. }
  apply bind_Ok_inv in H. destruct H as (b & _ & H).
  destruct (fle b mv.2).
  - apply bind_Ok_inv in H. destruct H as (fs1 & _ & [= <-]). exact Hs1.
  - injection H as <-. exact Hs1.
Qed.

Lemma append_train_metric_setup (t : Trainer) (mv : string * F) (t' : Trainer) :
  append_train_metric t mv = Ok t' -> setup t' = setup t.
Proof.
  unfold append_train_metric. intros H. apply bind_Ok_inv in H.
  destruct H as (h & _ & [= <-]). reflexivity.
Qed.

(** An epoch that completes ends with the periodic step, run on a trainer
    with the setup the epoch started with. *)
Lemma epoch_body_ends_with_periodic_save (s s' : Trainer * Files) (e : Z) :
  epoch_body s e = Ok s' ->
  exists s3, periodic_save e s3 = Ok s' /\ setup s3.1 = setup s.1.
Proof.
  destruct s as [t fs]. unfold epoch_body. intros H.
  apply bind_Ok_inv in H. destruct H as ([t1 out_t] & Htr & H).
  apply train_epoch_best in Htr. destruct Htr as [_ Hs1].
  apply bind_Ok_inv in H. destruct H as (train_items & _ & H).
  apply bind_Ok_inv in H. destruct H as (t2 & Ht2 & H).
  apply (for_each_preserves (fun a b => setup b = setup a)) in Ht2;
    [| congruence | congruence | apply append_train_metric_setup].
  apply bind_Ok_inv in H. destruct H as (out_v & _ & H).
  apply bind_Ok_inv in H. destruct H as (valid_items & _ & H).
  apply bind_Ok_inv in H. destruct H as (s3 & Hs3 & H).
  apply (for_each_preserves (fun a b => setup b.1 = setup a.1)) in Hs3;
    [| congruence | congruence | intros a b c; apply track_best_setup].
  exists s3. split; [exact H|]. cbn [fst set_losses setup] in *. congruence.
Qed.

(** A run that starts at epoch 0 with a positive period and completes its
    first epoch has then written the periodic checkpoint of epoch 0 last. *)
Lemma run_saves_epoch_zero (t : Trainer) (fs : Files) (s1 : Trainer * Files)
    (rest : list (Trainer * Files)) :
  start_epoch t = 0 ->
  0 < save_period_in_epochs t ->
  epoch_states (range (start_epoch t) (num_epochs (setup t))) (t, fs)
  = s1 :: rest ->
  exists ck fs1,
    s1.2 = ((checkpoint_dir t +:+ "model_epoch_" +:+ str_int 0
             +:+ "_datetime-" +:+ strftime (now 0) +:+ ".pt")%string, ck)
             :: fs1
    /\ ck_epoch ck = 0.
Proof.
  intros H0 Hp. rewrite H0. unfold range.
  destruct (Z.to_nat (num_epochs (setup t) - 0)) as [|k]; [discriminate|].
  cbn [seq map epoch_states]. change (0 + Z.of_nat 0) with 0.
  destruct (epoch_body (t, fs) 0) as [s|x] eqn:E; [|discriminate].
  intros [= -> _].
  apply epoch_body_ends_with_periodic_save in E.
  destruct E as ([t3 fs3] & Hper & Hs). cbn [fst] in Hs.
  unfold periodic_save in Hper.
  assert (Hper3 : save_period_in_epochs t3 = save_period_in_epochs t)
    by (unfold save_period_in_epochs; now rewrite Hs).
  rewrite Hper3 in Hper.
  destruct (Z.eqb_spec (save_period_in_epochs t) 0) as [E0|_]; [lia|].
  rewrite Z.mod_0_l in Hper by lia. cbn [Z.eqb] in Hper.
  unfold _save_checkpoint in Hper.
  apply bind_Ok_inv in Hper. destruct Hper as (fs4 & Hsave & [= <-]).
  apply bind_Ok_inv in Hsave. destruct Hsave as (d & _ & [= <-]).
  eexists _, fs3. cbn [snd torch_save checkpoint_path].
  unfold checkpoint_dir. rewrite Hs. split; reflexivity.
Qed.

(** *** The best attributes are an invariant of the trainer *)

Lemma load_loop_sets_attrs (ck : Checkpoint) (names : list string) :
  forall t0 t1 : Trainer,
    for_each
      (fun t metric_name =>
         v ← of_option KeyError (ck_best_metrics ck !! best_attr metric_name);
         Ok (setattr t (best_attr metric_name) v))
      names t0 = Ok t1 ->
    setup t1 = setup t0
    /\ (forall name, is_Some (best t0 !! name) -> is_Some (best t1 !! name))
    /\ (forall i, In i names -> is_Some (best t1 !! best_attr i)).
Proof.
  induction names as [|n ns IH]; intros t0 t1 H.
  - injection H as <-. split; [reflexivity|]. split; [auto | intros i []].
  - cbn [for_each] in H. apply bind_Ok_inv in H. destruct H as (t' & Ht' & H).
    apply bind_Ok_inv in Ht'. destruct Ht' as (v & _ & [= <-]).
    destruct (IH _ _ H) as (Hs & Hkeep & Hset).
    split; [exact Hs|]. split.
    + intros name Hn. apply Hkeep. cbn.
      destruct (decide (best_attr n = name)) as [<-|Hne].
      * rewrite lookup_insert_eq; eauto.
      * now rewrite lookup_insert_ne.
    + intros i [<-|Hi]; [|now apply Hset].
      apply Hkeep. cbn. rewrite lookup_insert_eq; eauto.
Qed.

Lemma load_checkpoint_has_best_attrs (t : Trainer) (path : string) (fs : Files)
    (t' : Trainer) :
  _load_checkpoint t path fs = Ok t' ->
  has_best_attrs t' /\ setup t' = setup t.
Proof.
  unfold _load_checkpoint. intros H.
  apply bind_Ok_inv in H. destruct H as (ck & _ & H).
  apply bind_Ok_inv in H. destruct H as (t1 & Ht1 & [= <-]).
  apply load_loop_sets_attrs in Ht1. destruct Ht1 as (Hs & _ & Hset).
  split; [|exact Hs]. intros i Hi. cbn [set_losses set_metrics best setup] in *.
  apply Hset. now rewrite Hs in Hi.
Qed.

(** The trainer the constructor returns has its best attributes, fresh or
    restored from a checkpoint. *)
Lemma init_has_best_attrs (s : Setup) (m : Params) (o : OptState)
    (logger : option Logger) (fs : Files) (t : Trainer) :
  init s m o logger fs = Ok t -> has_best_attrs t /\ setup t = s.
Proof.
  unfold init. destruct logger as [lg|]; [|discriminate].
  destruct (cfg_start_from_checkpoint (config s)).
  { intros H. apply load_checkpoint_has_best_attrs in H. exact H. }
  intros [= <-]. split; [|reflexivity].
  unfold has_best_attrs. cbn [setup best].
  generalize (∅ : gmap string F).
  induction (cfg_metrics (config s)) as [|n ns IH]; intros d i Hi; [destruct Hi|].
  cbn [foldl]. destruct Hi as [->|Hi]; [|now apply IH].
  clear IH. assert (H : is_Some (<[best_attr i := fzero]> d !! best_attr i))
    by (rewrite lookup_insert_eq; eauto).
  revert H. generalize (<[best_attr i := fzero]> d). clear d.
  induction ns as [|n' ns IH]; intros d Hd; [exact Hd|].
  cbn [foldl]. apply IH.
  destruct (decide (best_attr n' = best_attr i)) as [->|Hne].
  - rewrite lookup_insert_eq; eauto.
  - now rewrite lookup_insert_ne.
Qed.

Lemma track_best_keeps_attrs (epoch : Z) (s s' : Trainer * Files)
    (mv : string * F) (name : string) :
  track_best epoch s mv = Ok s' ->
  is_Some (best s.1 !! name) -> is_Some (best s'.1 !! name).
Proof.
  destruct s as [t fs]. unfold track_best. intros H.
  apply bind_Ok_inv in H. destruct H as (t1 & Ht1 & H).
  assert (Hb1 : best t1 = best t).
  { unfold append_valid_metric in Ht1. apply bind_Ok_inv in Ht1.
    destruct Ht1 as (h & _ & [= <-]). reflexivity. }
  apply bind_Ok_inv in H. destruct H as (b & _ & H). cbn [fst].
  destruct (fle b mv.2).
  - apply bind_Ok_inv in H. destruct H as (fs1 & _ & [= <-]).
    cbn. rewrite Hb1. intros Hn.
    destruct (decide (best_attr mv.1 = name)) as [<-|Hne].
    + rewrite lookup_insert_eq; eauto.
    + now rewrite lookup_insert_ne.
  - injection H as <-. cbn [fst]. now rewrite Hb1.
Qed.

(** An epoch that completes leaves a trainer that has its best attributes. *)
Lemma epoch_body_has_best_attrs (s s' : Trainer * Files) (e : Z) :
  has_best_attrs s.1 -> epoch_body s e = Ok s' -> has_best_attrs s'.1.
Proof.
  intros Hwf H. pose proof (epoch_body_ends_with_periodic_save s s' e H) as Hend.
  destruct Hend as (s3 & Hper & Hs3). apply periodic_save_trainer in Hper.
  assert (Hkeep : forall name, is_Some (best s.1 !! name) ->
                               is_Some (best s'.1 !! name)).
  { clear Hwf Hs3 Hper s3. destruct s as [t fs]. unfold epoch_body in H.
    apply bind_Ok_inv in H. destruct H as ([t1 out_t] & Htr & H).
    apply train_epoch_best in Htr. destruct Htr as [Hb1 _].
    apply bind_Ok_inv in H. destruct H as (train_items & _ & H).
    apply bind_Ok_inv in H. destruct H as (t2 & Ht2 & H).
    apply (for_each_preserves (fun a b => best a = best b)) in Ht2;
      [| congruence | congruence | intros a b c; apply append_train_metric_best].
    apply bind_Ok_inv in H. destruct H as (out_v & _ & H).
    apply bind_Ok_inv in H. destruct H as (valid_items & _ & H).
    apply bind_Ok_inv in H. destruct H as (s3 & Hs3 & H).
    apply periodic_save_trainer in H. intros name Hn.
    assert (Hk : is_Some (best (fst (set_losses t2
                   (mkLosses (l_train (losses t2))
                             (l_valid (losses t2) ++ [eo_loss out_v])), fs))
                          !! name)
                 -> is_Some (best s3.1 !! name)).
    { apply (for_each_preserves
               (fun a b => is_Some (best a.1 !! name)
                           -> is_Some (best b.1 !! name))
               (track_best e)) with (l := valid_items);
        [ auto | auto
        | intros a b c Hc; now apply (track_best_keeps_attrs e a c b)
        | exact Hs3 ]. }
    rewrite H. apply Hk. cbn [fst set_losses best] in *.
    rewrite <- Ht2. cbn. now rewrite Hb1. }
  intros i Hi. apply Hkeep. apply Hwf.
  rewrite Hper, Hs3 in Hi. exact Hi.
Qed.

(** ** The loss of an epoch *)

(** [l] is the loss of batch [b]: what the loss function answers on the
    token logits of the batch, under some state of the model. *)
Definition is_batch_loss (mode : bool) (token_id : Z) (b : batch) (l : F)
  : Prop :=
  exists m logits cls,
    forward m mode (b_data b) = Ok logits
    /\ get_token_logits fzero to_float32 (b_data b) logits token_id = Ok cls
    /\ loss_fn cls (b_labels b) = Ok l.

Lemma train_loop_running (token_id : Z) (bs : list batch) :
  forall st st',
    for_each (train_batch token_id) bs st = Ok st' ->
    exists ls,
      Forall2 (is_batch_loss true token_id) bs ls
      /\ running_loss st' = foldl fadd (running_loss st) ls.
Proof.
  induction bs as [|b bs IH]; intros st st' H.
  - injection H as <-. exists []. split; [constructor | reflexivity].
  - cbn [for_each] in H. apply bind_Ok_inv in H. destruct H as (st1 & H1 & H2).
    unfold train_batch in H1.
    apply bind_Ok_inv in H1. destruct H1 as (logits & Hf & H1).
    apply bind_Ok_inv in H1. destruct H1 as (cls & Hg & H1).
    apply bind_Ok_inv in H1. destruct H1 as (l & Hl & H1).
    destruct (optimizer_step _ _ _ _) as [m o]. injection H1 as <-.
    destruct (IH _ _ H2) as (ls & Hls & Hrun). exists (l :: ls). split.
    + constructor; [|exact Hls]. exists (lp_model st), logits, cls. auto.
    + exact Hrun.
Qed.

Lemma valid_loop_running (token_id : Z) (bs : list batch) :
  forall st st',
    for_each (valid_batch token_id) bs st = Ok st' ->
    exists ls,
      Forall2 (is_batch_loss false token_id) bs ls
      /\ running_loss st' = foldl fadd (running_loss st) ls.
Proof.
  induction bs as [|b bs IH]; intros st st' H.
  - injection H as <-. exists []. split; [constructor | reflexivity].
  - cbn [for_each] in H. apply bind_Ok_inv in H. destruct H as (st1 & H1 & H2).
    unfold valid_batch in H1.
    apply bind_Ok_inv in H1. destruct H1 as (logits & Hf & H1).
    apply bind_Ok_inv in H1. destruct H1 as (cls & Hg & H1).
    apply bind_Ok_inv in H1. destruct H1 as (l & Hl & [= <-]).
    destruct (IH _ _ H2) as (ls & Hls & Hrun). exists (l :: ls). split.
    + constructor; [|exact Hls]. exists (lp_model st), logits, cls. auto.
    + exact Hrun.
Qed.

Lemma epoch_out_loss (t : Trainer) (st : Loop) (out : EpochOut) :
  epoch_out t st = Ok out ->
  batch_size (setup t) <> 0
  /\ eo_loss out = fdiv (running_loss st) (batch_size (setup t))
  /\ metric_fn (setup t)
       [PyLists (_logits st); PyLists (_targets st);
        PyInt (num_labels (setup t))] = Ok (eo_metrics out).
Proof.
  unfold epoch_out, epoch_loss. intros H.
  destruct (Z.eqb_spec (batch_size (setup t)) 0) as [E|E]; [discriminate H|].
  cbn [mbind result_bind] in H. apply bind_Ok_inv in H.
  destruct H as (m & Hm & [= <-]). auto.
Qed.

(** C10. When the training pass and the validation pass of a trainer
    return, the loss each of them reports is the running sum of the losses
    of its batches, added from 0.0 in the order of the batches, divided by
    the configured batch size, which is then not zero; the number of
    batches does not enter. *)
Theorem epoch_loss_over_batch_size (t t' tv : Trainer) (out_t out_v : EpochOut) :
  _train_epoch t = Ok (t', out_t) ->
  _validate_epoch tv = Ok out_v ->
  (exists ls,
      Forall2 (is_batch_loss true (cls_token_id (setup t)))
              (train_dataloader (setup t)) ls
      /\ eo_loss out_t = fdiv (foldl fadd fzero ls) (batch_size (setup t))
      /\ batch_size (setup t) <> 0)
  /\ (exists ls,
         Forall2 (is_batch_loss false (cls_token_id (setup tv)))
                 (valid_dataloader (setup tv)) ls
         /\ eo_loss out_v = fdiv (foldl fadd fzero ls) (batch_size (setup tv))
         /\ batch_size (setup tv) <> 0).
Proof.
  intros Ht Hv. split.
  - unfold _train_epoch in Ht. apply bind_Ok_inv in Ht.
    destruct Ht as (st & Hst & Ht). apply bind_Ok_inv in Ht.
    destruct Ht as (out & Hout & [= _ <-]).
    apply train_loop_running in Hst. destruct Hst as (ls & Hls & Hrun).
    apply epoch_out_loss in Hout. destruct Hout as (Hne & Hloss & _).
    exists ls. cbn [set_model setup] in *. rewrite Hloss, Hrun. auto.
  - unfold _validate_epoch in Hv. apply bind_Ok_inv in Hv.
    destruct Hv as (st & Hst & Hout).
    apply valid_loop_running in Hst. destruct Hst as (ls & Hls & Hrun).
    apply epoch_out_loss in Hout. destruct Hout as (Hne & Hloss & _).
    exists ls. rewrite Hloss, Hrun. auto.
Qed.

(** ** The call of the metric function *)

(** What the trainer does with a metric function that accepts the three
    arguments and answers a dict: the epoch reports what the function
    answers on the collected predictions, targets and number of labels. *)
Lemma train_epoch_reports_metric_fn (t t' : Trainer) (out : EpochOut) :
  _train_epoch t = Ok (t', out) ->
  exists st,
    for_each (train_batch (cls_token_id (setup t))) (train_dataloader (setup t))
             (mkLoop (model t) (optimizer t) fzero [] []) = Ok st
    /\ metric_fn (setup t)
         [PyLists (_logits st); PyLists (_targets st);
          PyInt (num_labels (setup t))] = Ok (eo_metrics out).
Proof.
  unfold _train_epoch. intros H. apply bind_Ok_inv in H.
  destruct H as (st & Hst & H). apply bind_Ok_inv in H.
  destruct H as (o & Ho & [= _ <-]). apply epoch_out_loss in Ho.
  exists st. split; [exact Hst | apply Ho].
Qed.

Lemma for_each_result {S B : Type} (body : S -> B -> result S) (l : list B)
    (s : S) :
  (exists s', for_each body l s = Ok s') \/ (exists e, for_each body l s = Raise e).
Proof. destruct (for_each body l s); eauto. Qed.

(** C1, as the code has it. With the repository's [multiple_f1_score] as
    metric function, the trainer's call with three arguments (predictions,
    targets, number of labels) raises [TypeError]: the function takes two,
    fixes the number of classes at 339 and would answer an unnamed triple.
    Hence neither the training nor the validation pass returns, and no
    epoch records any metric. *)
Theorem metric_call_raises (nl ne bs : Z) (cfg : Config) (cls : Z)
    (trd vld : list batch) (m : Params) (o : OptState) (se : Z)
    (b : gmap string F) (ms : Metrics) (ls : Losses)
    (output target : list (list Z)) :
  let t := mkTrainer (main_setup nl ne bs cfg cls trd vld) m o se b ms ls in
  multiple_f1_score [PyLists output; PyLists target; PyInt nl] = Raise TypeError
  /\ (forall st,
         epoch_out t st
         = if bs =? 0 then Raise ZeroDivisionError else Raise TypeError)
  /\ (exists e, _train_epoch t = Raise e)
  /\ (exists e, _validate_epoch t = Raise e)
  /\ (forall fs epoch, exists e, epoch_body (t, fs) epoch = Raise e).
Proof.
  intros t.
  assert (Hout : forall (t0 : Trainer) st,
             setup t0 = setup t ->
             epoch_out t0 st
             = if bs =? 0 then Raise ZeroDivisionError else Raise TypeError).
  { intros t0 st E. unfold epoch_out, epoch_loss. rewrite E. cbn.
    destruct (bs =? 0); reflexivity. }
  assert (Htr : exists e, _train_epoch t = Raise e).
  { unfold _train_epoch.
    destruct (for_each_result (train_batch (cls_token_id (setup t)))
                (train_dataloader (setup t))
                (mkLoop (model t) (optimizer t) fzero [] []))
      as [[st ->]|[e ->]]; [|eauto].
    cbn [mbind result_bind]. rewrite Hout by reflexivity.
    destruct (bs =? 0); eauto. }
  split; [reflexivity|]. split; [intros st; now apply Hout|].
  split; [exact Htr|]. split.
  - unfold _validate_epoch.
    destruct (for_each_result (valid_batch (cls_token_id (setup t)))
                (valid_dataloader (setup t))
                (mkLoop (model t) (optimizer t) fzero [] []))
      as [[st ->]|[e ->]]; [|eauto].
    cbn [mbind result_bind]. rewrite Hout by reflexivity.
    destruct (bs =? 0); eauto.
  - intros fs epoch. destruct Htr as [e He]. exists e.
    unfold epoch_body. now rewrite He.
Qed.

(** ** Errors of loading and of the epoch *)

Lemma best_metrics_loop_other (t : Trainer) (names : list string) (k : string) :
  (forall i, In i names -> k <> best_attr i) ->
  forall d0 d : gmap string F,
    for_each
      (fun d i => v ← getattr t (best_attr i); Ok (<[best_attr i := v]> d))
      names d0 = Ok d ->
    d !! k = d0 !! k.
Proof.
  induction names as [|n ns IH]; intros Hk d0 d H.
  - now injection H as <-.
  - cbn [for_each] in H. apply bind_Ok_inv in H. destruct H as (d1 & H1 & H2).
    apply bind_Ok_inv in H1. destruct H1 as (v & _ & [= <-]).
    rewrite (IH (fun i Hi => Hk i (or_intror Hi)) _ _ H2).
    apply lookup_insert_ne. intros E. apply (Hk n); [now left | now symmetry].
Qed.

Lemma load_loop_key_error (ck : Checkpoint) (names : list string) :
  (exists i, In i names /\ ck_best_metrics ck !! best_attr i = None) ->
  forall t0 : Trainer,
    for_each
      (fun t metric_name =>
         v ← of_option KeyError (ck_best_metrics ck !! best_attr metric_name);
         Ok (setattr t (best_attr metric_name) v))
      names t0 = Raise KeyError.
Proof.
  induction names as [|n ns IH]; intros (i & Hin & Hi) t0; [destruct Hin|].
  cbn [for_each].
  destruct (ck_best_metrics ck !! best_attr n) as [v|] eqn:E;
    cbn [of_option mbind result_bind]; [|reflexivity].
  apply IH. destruct Hin as [->|Hin]; [congruence | eauto].
Qed.

(** A checkpoint holds the best values of the metrics configured when it
    was saved, and only those: loading it into a trainer configured with a
    metric the saving trainer did not have raises [KeyError]. *)
Theorem load_unknown_metric_raises (t t0 : Trainer) (e : Z) (save_best : bool)
    (suffix : option string) (dt : datetime) (fs : Files) (i : string) :
  has_best_attrs t ->
  In i (cfg_metrics (config (setup t0))) ->
  ~ In i (cfg_metrics (config (setup t))) ->
  exists fs',
    _save_checkpoint t e (losses t) (metrics t) save_best suffix dt fs = Ok fs'
    /\ _load_checkpoint
         t0 (checkpoint_path (checkpoint_dir t) e save_best suffix dt) fs'
       = Raise KeyError.
Proof.
  intros Hwf Hin Hnot.
  destruct (save_checkpoint_ok t e (losses t) (metrics t) save_best suffix dt
                               fs Hwf) as (d & Hd & Hsave).
  eexists. split; [exact Hsave|].
  unfold _load_checkpoint, torch_load. rewrite read_file_head.
  cbn [of_option mbind result_bind].
  rewrite load_loop_key_error; [reflexivity|].
  exists i. split; [exact Hin|]. cbn [ck_best_metrics].
  unfold best_metrics_dict in Hd.
  rewrite (best_metrics_loop_other t (cfg_metrics (config (setup t)))
             (best_attr i)) with (d0 := ∅) (d := d);
    [apply lookup_empty | | exact Hd].
  intros j Hj E. apply best_attr_inj in E. congruence.
Qed.

(** With [save_period_in_epochs] at 0 no epoch completes: the modulo of
    the periodic step raises [ZeroDivisionError] after the work of the
    epoch, so a run with an epoch to do raises. *)
Theorem zero_period_aborts (t : Trainer) (fs : Files) :
  save_period_in_epochs t = 0 ->
  start_epoch t < num_epochs (setup t) ->
  (forall e, periodic_save e (t, fs) = Raise ZeroDivisionError)
  /\ (forall e, exists err, epoch_body (t, fs) e = Raise err)
  /\ exists err, train t fs = Raise err.
Proof.
  intros Hp Hlt.
  assert (Hbody : forall e, exists err, epoch_body (t, fs) e = Raise err).
  { intros e. destruct (epoch_body (t, fs) e) as [s'|err] eqn:E; [|eauto].
    apply epoch_body_ends_with_periodic_save in E.
    destruct E as ([t3 fs3] & Hper & Hs). cbn [fst] in Hs.
    unfold periodic_save, save_period_in_epochs in Hper. rewrite Hs in Hper.
    unfold save_period_in_epochs in Hp. rewrite Hp in Hper. discriminate Hper. }
  split; [|split; [exact Hbody|]].
  - intros e. unfold periodic_save. now rewrite Hp.
  - unfold train, range.
    destruct (Z.to_nat (num_epochs (setup t) - start_epoch t)) as [|k] eqn:E;
      [lia|].
    cbn [seq map for_each]. destruct (Hbody (start_epoch t + Z.of_nat 0)) as [err ->].
    eauto.
Qed.

Lemma append_train_metric_key_error (items : list (string * F)) (m : string) :
  In m (map fst items) ->
  forall t : Trainer,
    m_train (metrics t) !! m = None ->
    for_each append_train_metric items t = Raise KeyError.
Proof.
  induction items as [|[k v] rest IH]; intros Hin t Hm; [destruct Hin|].
  cbn [for_each].
  destruct (append_train_metric t (k, v)) as [t'|err] eqn:Ehead.
  - unfold append_train_metric in Ehead. cbn [fst snd] in Ehead.
    destruct (m_train (metrics t) !! k) as [h|] eqn:E; [|discriminate Ehead].
    injection Ehead as <-. cbn [mbind result_bind]. apply IH.
    + cbn [map fst In] in Hin. destruct Hin as [->|Hin]; [congruence | exact Hin].
    + cbn. rewrite lookup_insert_ne; [exact Hm | congruence].
  - unfold append_train_metric in Ehead. cbn [fst snd] in Ehead.
    destruct (m_train (metrics t) !! k) as [h|] eqn:E; [discriminate Ehead|].
    now injection Ehead as <-.
Qed.

(** A metric function that answers a value under a name the trainer was
    not configured with makes the epoch raise [KeyError], when the training
    history is appended to. *)
Theorem unknown_metric_name_raises (t t1 : Trainer) (fs : Files) (e : Z)
    (out : EpochOut) (d : list (string * F)) (m : string) :
  _train_epoch t = Ok (t1, out) ->
  eo_metrics out = MDict d ->
  In m (map fst d) ->
  m_train (metrics t) !! m = None ->
  epoch_body (t, fs) e = Raise KeyError.
Proof.
  intros Htr Hd Hin Hm. unfold epoch_body. rewrite Htr.
  cbn [mbind result_bind]. rewrite Hd. cbn [items mbind result_bind].
  rewrite (append_train_metric_key_error d m Hin); [reflexivity|].
  cbn [set_losses metrics]. unfold _train_epoch in Htr.
  apply bind_Ok_inv in Htr. destruct Htr as (st & _ & Htr).
  apply bind_Ok_inv in Htr. destruct Htr as (o & _ & [= <- _]). exact Hm.
Qed.

(** ** What an epoch changes and what it leaves *)

(** The passes of an epoch that completes, one after the other. *)
Lemma epoch_body_steps (t : Trainer) (fs : Files) (e : Z) (s' : Trainer * Files) :
  epoch_body (t, fs) e = Ok s' ->
  exists t1 out_t train_items t2 out_v valid_items s3,
    _train_epoch t = Ok (t1, out_t)
    /\ items (eo_metrics out_t) = Ok train_items
    /\ for_each append_train_metric train_items
         (set_losses t1 (mkLosses (l_train (losses t1) ++ [eo_loss out_t])
                                  (l_valid (losses t1)))) = Ok t2
    /\ _validate_epoch t2 = Ok out_v
    /\ items (eo_metrics out_v) = Ok valid_items
    /\ for_each (track_best e) valid_items
         (set_losses t2 (mkLosses (l_train (losses t2))
                                  (l_valid (losses t2) ++ [eo_loss out_v])), fs)
       = Ok s3
    /\ periodic_save e s3 = Ok s'.
Proof.
  unfold epoch_body. intros H.
  apply bind_Ok_inv in H. destruct H as ([t1 out_t] & Htr & H).
  apply bind_Ok_inv in H. destruct H as (train_items & Hti & H).
  apply bind_Ok_inv in H. destruct H as (t2 & Ht2 & H).
  apply bind_Ok_inv in H. destruct H as (out_v & Hv & H).
  apply bind_Ok_inv in H. destruct H as (valid_items & Hvi & H).
  apply bind_Ok_inv in H. destruct H as (s3 & Hs3 & H).
  exists t1, out_t, train_items, t2, out_v, valid_items, s3. auto 10.
Qed.

(** One history dict extends another: same keys, every list continued. *)
Definition extends (a b : gmap string (list F)) : Prop :=
  forall name,
    match a !! name with
    | Some h => exists ext, b !! name = Some (h ++ ext)
    | None => b !! name = None
    end.

Lemma extends_refl (a : gmap string (list F)) : extends a a.
Proof.
  intros name. destruct (a !! name) as [h|] eqn:E; [|reflexivity].
  exists []. now rewrite app_nil_r.
Qed.

Lemma extends_trans (a b c : gmap string (list F)) :
  extends a b -> extends b c -> extends a c.
Proof.
  intros Hab Hbc name. specialize (Hab name). specialize (Hbc name).
  destruct (a !! name) as [h|].
  - destruct Hab as [x Hx]. rewrite Hx in Hbc. destruct Hbc as [y Hy].
    exists (x ++ y). now rewrite app_assoc.
  - now rewrite Hab in Hbc.
Qed.

Lemma extends_insert (a : gmap string (list F)) (k : string) (h : list F) (v : F) :
  a !! k = Some h -> extends a (<[k := h ++ [v]]> a).
Proof.
  intros Hk name. destruct (decide (k = name)) as [<-|Hne].
  - rewrite Hk, lookup_insert_eq. eauto.
  - rewrite lookup_insert_ne by exact Hne.
    destruct (a !! name) as [h'|]; [|reflexivity].
    exists []. now rewrite app_nil_r.
Qed.

(** What stays the same from one state of the trainer to another. *)
Definition same_but_metrics (a b : Trainer) : Prop :=
  setup b = setup a /\ model b = model a /\ optimizer b = optimizer a
  /\ start_epoch b = start_epoch a /\ losses b = losses a.

Lemma append_train_metric_frame (t : Trainer) (mv : string * F) (t' : Trainer) :
  append_train_metric t mv = Ok t' ->
  same_but_metrics t t' /\ best t' = best t
  /\ extends (m_train (metrics t)) (m_train (metrics t'))
  /\ m_valid (metrics t') = m_valid (metrics t).
Proof.
  unfold append_train_metric. intros H. apply bind_Ok_inv in H.
  destruct H as (h & Hh & [= <-]).
  destruct (m_train (metrics t) !! mv.1) as [h0|] eqn:E; [|discriminate Hh].
  injection Hh as <-. repeat split. now apply extends_insert.
Qed.

Lemma track_best_frame (e : Z) (s : Trainer * Files) (mv : string * F)
    (s' : Trainer * Files) :
  track_best e s mv = Ok s' ->
  same_but_metrics s.1 s'.1
  /\ m_train (metrics s'.1) = m_train (metrics s.1)
  /\ extends (m_valid (metrics s.1)) (m_valid (metrics s'.1))
  /\ exists new,
      s'.2 = new ++ s.2
      /\ (length new <= 1)%nat
      /\ forall p ck, In (p, ck) new ->
           ck_epoch ck = e
           /\ ck_model_state_dict ck = model s.1
           /\ ck_optimizer_state_dict ck = optimizer s.1
           /\ ck_losses ck = losses s.1.
Proof.
  destruct s as [t fs]. unfold track_best. intros H.
  apply bind_Ok_inv in H. destruct H as (t1 & Ht1 & H).
  unfold append_valid_metric in Ht1. apply bind_Ok_inv in Ht1.
  destruct Ht1 as (h & Hh & [= <-]).
  destruct (m_valid (metrics t) !! mv.1) as [h0|] eqn:E; [|discriminate Hh].
  injection Hh as <-.
  apply bind_Ok_inv in H. destruct H as (b & _ & H).
  destruct (fle b mv.2).
  - apply bind_Ok_inv in H. destruct H as (fs1 & Hsave & [= <-]).
    unfold _save_checkpoint in Hsave. apply bind_Ok_inv in Hsave.
    destruct Hsave as (d & _ & [= <-]). cbn [fst snd].
    split; [repeat split|]. split; [reflexivity|].
    split; [now apply extends_insert|].
    eexists [_]. split; [reflexivity|]. split; [cbn; lia|].
    intros p ck [[= <- <-]|[]]. repeat split.
  - injection H as <-. cbn [fst snd].
    split; [repeat split|]. split; [reflexivity|].
    split; [now apply extends_insert|].
    exists []. split; [reflexivity|]. split; [cbn; lia|]. intros p ck [].
Qed.

Lemma train_epoch_frame (t t1 : Trainer) (out : EpochOut) :
  _train_epoch t = Ok (t1, out) ->
  setup t1 = setup t /\ start_epoch t1 = start_epoch t /\ best t1 = best t
  /\ metrics t1 = metrics t /\ losses t1 = losses t.
Proof.
  unfold _train_epoch. intros H. apply bind_Ok_inv in H.
  destruct H as (st & _ & H). apply bind_Ok_inv in H.
  destruct H as (o & _ & [= <- _]). repeat split.
Qed.

Lemma same_but_metrics_trans (a b c : Trainer) :
  same_but_metrics a b -> same_but_metrics b c -> same_but_metrics a c.
Proof.
  unfold same_but_metrics. intros (?&?&?&?&?) (?&?&?&?&?).
  repeat split; congruence.
Qed.

Lemma append_train_loop_frame (its : list (string * F)) (t t' : Trainer) :
  for_each append_train_metric its t = Ok t' ->
  same_but_metrics t t'
  /\ extends (m_train (metrics t)) (m_train (metrics t'))
  /\ m_valid (metrics t') = m_valid (metrics t).
Proof.
  apply (for_each_preserves
           (fun a b => same_but_metrics a b
                       /\ extends (m_train (metrics a)) (m_train (metrics b))
                       /\ m_valid (metrics b) = m_valid (metrics a))).
  - intros a. split; [repeat split|]. split; [apply extends_refl | reflexivity].
  - intros a b c (S1 & E1 & V1) (S2 & E2 & V2).
    split; [eapply same_but_metrics_trans; eassumption|].
    split; [eapply extends_trans; eassumption | congruence].
  - intros a mv b H. apply append_train_metric_frame in H.
    destruct H as (S1 & _ & E1 & V1). auto.
Qed.

(** The files of a loop over the validation metrics: all written in this
    epoch with the model, optimizer and losses the loop started with. *)
Definition files_of_epoch (e : Z) (t : Trainer) (new : Files) : Prop :=
  forall p ck, In (p, ck) new ->
    ck_epoch ck = e
    /\ ck_model_state_dict ck = model t
    /\ ck_optimizer_state_dict ck = optimizer t
    /\ ck_losses ck = losses t.

Lemma track_best_loop_frame (e : Z) (its : list (string * F))
    (s s' : Trainer * Files) :
  for_each (track_best e) its s = Ok s' ->
  same_but_metrics s.1 s'.1
  /\ m_train (metrics s'.1) = m_train (metrics s.1)
  /\ extends (m_valid (metrics s.1)) (m_valid (metrics s'.1))
  /\ exists new, s'.2 = new ++ s.2
                 /\ (length new <= length its)%nat
                 /\ files_of_epoch e s.1 new.
Proof.
  revert s. induction its as [|mv rest IH]; intros s H.
  - injection H as <-. split; [repeat split|]. split; [reflexivity|].
    split; [apply extends_refl|]. exists []. split; [reflexivity|].
    split; [cbn; lia | intros p ck []].
  - cbn [for_each] in H. apply bind_Ok_inv in H. destruct H as (s1 & H1 & H2).
    apply track_best_frame in H1.
    destruct H1 as (S1 & T1 & E1 & new1 & F1 & L1 & C1).
    destruct (IH _ H2) as (S2 & T2 & E2 & new2 & F2 & L2 & C2).
    split; [eapply same_but_metrics_trans; eassumption|].
    split; [congruence|]. split; [eapply extends_trans; eassumption|].
    exists (new2 ++ new1). split; [now rewrite F2, F1, app_assoc|].
    split; [rewrite length_app; cbn [length]; lia|].
    intros p ck Hin. apply in_app_or in Hin. destruct Hin as [Hin|Hin].
    + destruct S1 as (_ & M1 & O1 & _ & Lo1).
      destruct (C2 p ck Hin) as (A & B & C & D).
      repeat split; congruence.
    + exact (C1 p ck Hin).
Qed.

Lemma periodic_save_files (e : Z) (s s' : Trainer * Files) :
  periodic_save e s = Ok s' ->
  s'.1 = s.1
  /\ exists new, s'.2 = new ++ s.2 /\ (length new <= 1)%nat
                 /\ files_of_epoch e s.1 new.
Proof.
  destruct s as [t fs]. unfold periodic_save. intros H.
  destruct (save_period_in_epochs t =? 0); [discriminate|].
  destruct (e mod save_period_in_epochs t =? 0).
  - apply bind_Ok_inv in H. destruct H as (fs1 & Hsave & [= <-]).
    unfold _save_checkpoint in Hsave. apply bind_Ok_inv in Hsave.
    destruct Hsave as (d & _ & [= <-]). split; [reflexivity|].
    eexists [_]. split; [reflexivity|]. split; [cbn; lia|].
    intros p ck [[= <- <-]|[]]. repeat split.
  - injection H as <-. split; [reflexivity|]. exists [].
    split; [reflexivity|]. split; [cbn; lia | intros p ck []].
Qed.

(** Only the training pass changes the model: after an epoch that
    completes, the model and the optimizer are the ones the training pass
    left, the validation pass and the saves having changed neither; the
    setup and [start_epoch] are as before the epoch. *)
Theorem validation_keeps_model (t t1 t' : Trainer) (fs fs' : Files) (e : Z)
    (out : EpochOut) :
  epoch_body (t, fs) e = Ok (t', fs') ->
  _train_epoch t = Ok (t1, out) ->
  model t' = model t1 /\ optimizer t' = optimizer t1
  /\ setup t' = setup t /\ start_epoch t' = start_epoch t.
Proof.
  intros H Htr. apply epoch_body_steps in H.
  destruct H as (t1' & out_t & ti & t2 & out_v & vi & s3
                 & Htr' & _ & Ht2 & _ & _ & Hs3 & Hper).
  rewrite Htr in Htr'. injection Htr' as <- <-.
  apply train_epoch_frame in Htr. destruct Htr as (Hs & Hse & _).
  apply append_train_loop_frame in Ht2. destruct Ht2 as ((A1 & A2 & A3 & A4 & _) & _).
  apply track_best_loop_frame in Hs3.
  destruct Hs3 as ((B1 & B2 & B3 & B4 & _) & _).
  apply periodic_save_trainer in Hper. cbn [fst set_losses setup model optimizer
    start_epoch] in *. rewrite Hper. repeat split; congruence.
Qed.

Lemma validate_epoch_ext (a b : Trainer) :
  setup a = setup b -> model a = model b -> optimizer a = optimizer b ->
  _validate_epoch a = _validate_epoch b.
Proof.
  intros Hs Hm Ho. unfold _validate_epoch, epoch_out. now rewrite Hs, Hm, Ho.
Qed.

(** Every file written during an epoch that completes is a checkpoint of
    that epoch, holding the model and the optimizer as the training pass of
    the epoch left them and the loss histories with the epoch's two losses;
    the files written before are all still there, below the new ones, and an
    epoch writes at most one file per metric of its validation pass and one
    more. *)
Theorem epoch_files (t t' : Trainer) (fs fs' : Files) (e : Z) :
  epoch_body (t, fs) e = Ok (t', fs') ->
  exists new,
    fs' = new ++ fs
    /\ (forall p ck, In (p, ck) new ->
          ck_epoch ck = e
          /\ ck_model_state_dict ck = model t'
          /\ ck_optimizer_state_dict ck = optimizer t'
          /\ ck_losses ck = losses t')
    /\ exists out_v valid_items,
        _validate_epoch t' = Ok out_v
        /\ items (eo_metrics out_v) = Ok valid_items
        /\ (length new <= length valid_items + 1)%nat.
Proof.
  intros H. apply epoch_body_steps in H.
  destruct H as (t1 & out_t & ti & t2 & out_v & vi & s3
                 & _ & _ & _ & Hv & Hvi & Hs3 & Hper).
  apply track_best_loop_frame in Hs3.
  destruct Hs3 as ((B1 & B2 & B3 & B4 & B5) & _ & _ & new1 & F1 & L1 & C1).
  apply periodic_save_files in Hper.
  destruct Hper as (Ht & new2 & F2 & L2 & C2).
  cbn [fst snd] in *. subst t'.
  exists (new2 ++ new1). split; [now rewrite F2, F1, app_assoc|]. split.
  - intros p ck Hin. apply in_app_or in Hin. destruct Hin as [Hin|Hin].
    + exact (C2 p ck Hin).
    + destruct (C1 p ck Hin) as (A & B & C & D).
      cbn [set_losses model optimizer losses] in *. repeat split; congruence.
  - exists out_v, vi. split; [|split; [exact Hvi | rewrite length_app; lia]].
    rewrite <- Hv. apply validate_epoch_ext; assumption.
Qed.

(** ** Histories, resumption and the metric function's input *)

Lemma epoch_body_history (s s' : Trainer * Files) (e : Z) :
  epoch_body s e = Ok s' ->
  (exists x y,
      l_train (losses s'.1) = l_train (losses s.1) ++ [x]
      /\ l_valid (losses s'.1) = l_valid (losses s.1) ++ [y])
  /\ extends (m_train (metrics s.1)) (m_train (metrics s'.1))
  /\ extends (m_valid (metrics s.1)) (m_valid (metrics s'.1)).
Proof.
  destruct s as [t fs]. intros H. apply epoch_body_steps in H.
  destruct H as (t1 & out_t & ti & t2 & out_v & vi & s3
                 & Htr & _ & Ht2 & _ & _ & Hs3 & Hper).
  apply train_epoch_frame in Htr. destruct Htr as (_ & _ & _ & Hm1 & Hl1).
  apply append_train_loop_frame in Ht2.
  destruct Ht2 as ((_ & _ & _ & _ & Hl2) & Et & Ev).
  apply track_best_loop_frame in Hs3.
  destruct Hs3 as ((_ & _ & _ & _ & Hl3) & Tt & Tv & _).
  apply periodic_save_trainer in Hper. rewrite Hper.
  cbn [fst set_losses losses metrics l_train l_valid] in *.
  split.
  - exists (eo_loss out_t), (eo_loss out_v). rewrite Hl3. cbn [l_train l_valid].
    rewrite Hl2. cbn [l_train l_valid]. now rewrite Hl1.
  - rewrite Tt, <- Hm1. split; [exact Et|]. rewrite Ev in Tv. exact Tv.
Qed.

Lemma run_history (epochs : list Z) :
  forall s s' : Trainer * Files,
    for_each epoch_body epochs s = Ok s' ->
    (exists lt lv,
        l_train (losses s'.1) = l_train (losses s.1) ++ lt
        /\ l_valid (losses s'.1) = l_valid (losses s.1) ++ lv
        /\ length lt = length epochs /\ length lv = length epochs)
    /\ extends (m_train (metrics s.1)) (m_train (metrics s'.1))
    /\ extends (m_valid (metrics s.1)) (m_valid (metrics s'.1)).
Proof.
  induction epochs as [|e rest IH]; intros s s' H.
  - injection H as <-. split; [|split; apply extends_refl].
    exists [], []. now rewrite !app_nil_r.
  - cbn [for_each] in H. apply bind_Ok_inv in H. destruct H as (s1 & H1 & H2).
    apply epoch_body_history in H1. destruct H1 as ((x & y & Hx & Hy) & Et & Ev).
    destruct (IH _ _ H2) as ((lt & lv & Hlt & Hlv & Nt & Nv) & Et' & Ev').
    split; [|split; eapply extends_trans; eassumption].
    exists (x :: lt), (y :: lv). rewrite Hlt, Hlv, Hx, Hy, <- !app_assoc.
    cbn [app length]. auto.
Qed.

(** The histories of a run that returns: each of the two loss histories is
    the one before the run followed by one value per epoch of the run, and
    every metric history is continued, under the same names; nothing
    recorded before the run is changed or dropped. *)
Theorem histories_grow (t t' : Trainer) (fs fs' : Files) :
  train t fs = Ok (t', fs') ->
  (exists lt lv,
      l_train (losses t') = l_train (losses t) ++ lt
      /\ l_valid (losses t') = l_valid (losses t) ++ lv
      /\ length lt = Z.to_nat (num_epochs (setup t) - start_epoch t)
      /\ length lv = Z.to_nat (num_epochs (setup t) - start_epoch t))
  /\ extends (m_train (metrics t)) (m_train (metrics t'))
  /\ extends (m_valid (metrics t)) (m_valid (metrics t')).
Proof.
  unfold train. intros H. apply run_history in H. cbn [fst] in H.
  rewrite length_range in H. exact H.
Qed.

Lemma load_checkpoint_fields (t0 : Trainer) (path : string) (fs : Files)
    (t : Trainer) :
  _load_checkpoint t0 path fs = Ok t ->
  exists ck,
    torch_load path fs = Ok ck
    /\ start_epoch t = ck_epoch ck + 1
    /\ model t = ck_model_state_dict ck
    /\ optimizer t = ck_optimizer_state_dict ck
    /\ losses t = ck_losses ck /\ metrics t = ck_metrics ck
    /\ setup t = setup t0.
Proof.
  unfold _load_checkpoint. intros H.
  apply bind_Ok_inv in H. destruct H as (ck & Hck & H).
  apply bind_Ok_inv in H. destruct H as (t1 & Ht1 & [= <-]).
  exists ck. split; [exact Hck|].
  apply (for_each_preserves
           (fun a b : Trainer =>
              start_epoch b = start_epoch a /\ model b = model a
              /\ optimizer b = optimizer a /\ setup b = setup a)) in Ht1.
  - cbn [set_losses set_metrics set_model set_start_epoch start_epoch model
           optimizer losses metrics setup] in *.
    destruct Ht1 as (A & B & C & D). repeat split; assumption.
  - intros a. repeat split.
  - intros a b c (?&?&?&?) (?&?&?&?). repeat split; congruence.
  - intros a name b Hb. apply bind_Ok_inv in Hb.
    destruct Hb as (v & _ & [= <-]). repeat split.
Qed.

(** Resuming: a trainer loaded from a checkpoint starts at the epoch after
    the stored one; when that is the configured number of epochs or more,
    [train] returns at once, leaving the trainer and the files as they are;
    otherwise the first epoch it runs is the one after the stored one. *)
Theorem resume_runs_remaining_epochs (t0 t : Trainer) (path : string)
    (fs : Files) :
  _load_checkpoint t0 path fs = Ok t ->
  exists ck,
    torch_load path fs = Ok ck
    /\ start_epoch t = ck_epoch ck + 1
    /\ (num_epochs (setup t0) <= ck_epoch ck + 1 ->
        forall fs1, train t fs1 = Ok (t, fs1))
    /\ (ck_epoch ck + 1 < num_epochs (setup t0) ->
        exists rest,
          range (start_epoch t) (num_epochs (setup t))
          = (ck_epoch ck + 1) :: rest).
Proof.
  intros H. apply load_checkpoint_fields in H.
  destruct H as (ck & Hck & He & _ & _ & _ & _ & Hs).
  exists ck. split; [exact Hck|]. split; [exact He|]. split.
  - intros Hn fs1. unfold train, range. rewrite Hs, He.
    replace (Z.to_nat (num_epochs (setup t0) - (ck_epoch ck + 1))) with 0%nat
      by lia.
    reflexivity.
  - intros Hn. unfold range. rewrite Hs, He.
    destruct (Z.to_nat (num_epochs (setup t0) - (ck_epoch ck + 1))) as [|k] eqn:E;
      [lia|].
    cbn [seq map]. rewrite Z.add_0_r. eauto.
Qed.

Lemma store_rows_ok (width : nat) (rows : list (list Z)) (stored : list Z) :
  Forall (fun r => length r = width) rows ->
  Forall (fun r => forallb int64 r = true) rows ->
  for_each (store_row width) rows stored = Ok (stored ++ concat rows).
Proof.
  revert stored. induction rows as [|r rows IH]; intros stored Hl Hi.
  - simpl. now rewrite app_nil_r.
  - apply Forall_cons in Hl as [Hr Hl]. apply Forall_cons in Hi as [Hir Hi].
    cbn [for_each].
    assert (E : store_row width stored r = Ok (stored ++ r)).
    { unfold store_row. now rewrite Hr, Nat.eqb_refl, Hir. }
    rewrite E. cbn [mbind result_bind].
    rewrite (IH _ Hl Hi). cbn [concat]. now rewrite app_assoc.
Qed.

Lemma store_rows_ragged (width : nat) (rows : list (list Z)) (stored : list Z) :
  Forall (fun r => forallb int64 r = true) rows ->
  (exists r, In r rows /\ length r <> width) ->
  for_each (store_row width) rows stored = Raise ValueError.
Proof.
  revert stored. induction rows as [|r rows IH]; intros stored Hi (r' & Hin & Hne).
  - destruct Hin.
  - apply Forall_cons in Hi as [Hir Hi]. cbn [for_each].
    destruct (Nat.eqb_spec (length r) width) as [E|E].
    + assert (E' : store_row width stored r = Ok (stored ++ r)).
      { unfold store_row. now rewrite E, Nat.eqb_refl, Hir. }
      rewrite E'. cbn [mbind result_bind]. apply IH; [exact Hi|].
      destruct Hin as [->|Hin]; [contradiction|]. eauto.
    + assert (E' : store_row width stored r = Raise ValueError).
      { unfold store_row. apply Nat.eqb_neq in E. now rewrite E. }
      now rewrite E'.
Qed.

(** [multiple_f1_score], called with its two arguments, raises [ValueError]
    when the per-batch lists of predictions, the first of them not empty and
    all of them lists of int64 values (as the lists of class indices the
    trainer collects are), do not all have the same length (a last batch
    smaller than the others): [torch.tensor] refuses them before any score
    is computed.  Rectangular lists are flattened in order, and lists whose
    first one is empty give the empty tensor whatever follows. *)
Theorem multiple_f1_score_ragged (r : list Z) (rs : list (list Z))
    (target : pyval) :
  Forall (fun r' => forallb int64 r' = true) (r :: rs) ->
  (r <> [] ->
   (exists r', In r' rs /\ length r' <> length r) ->
   multiple_f1_score [PyLists (r :: rs); target] = Raise ValueError)
  /\ (r <> [] ->
      Forall (fun r' => length r' = length r) rs ->
      flatten_tensor (PyLists (r :: rs)) = Ok (concat (r :: rs)))
  /\ flatten_tensor (PyLists ([] :: rs)) = Ok [].
Proof.
  intros Hi. split; [|split; [|reflexivity]].
  - intros Hne (r' & Hin & Hlen). unfold multiple_f1_score, flatten_tensor.
    destruct r as [|x r]; [congruence|].
    rewrite store_rows_ragged; [reflexivity | exact Hi |].
    exists r'. split; [now right | exact Hlen].
  - intros Hne Hl. unfold flatten_tensor. destruct r as [|x r]; [congruence|].
    rewrite store_rows_ok; [reflexivity | | exact Hi].
    apply Forall_cons. split; [reflexivity | exact Hl].
Qed.

(** ** The files of different saves *)

Lemma str_int_inj (z z' : Z) : str_int z = str_int z' -> z = z'.
Proof.
  unfold str_int. intros H. apply DecimalZ.to_int_inj.
  assert (Hnn : forall x, Z.to_int x <> Decimal.Pos Decimal.Nil
                          /\ Z.to_int x <> Decimal.Neg Decimal.Nil).
  { intros [|p|p]; split; try discriminate; intros [= E];
      now apply DecimalPos.Unsigned.to_uint_nonnil in E. }
  assert (E : Some (Z.to_int z) = Some (Z.to_int z')).
  { rewrite <- (NilZero.isi (Z.to_int z)) by apply Hnn.
    rewrite <- (NilZero.isi (Z.to_int z')) by apply Hnn. now rewrite H. }
  now injection E.
Qed.

(** The character [_]. *)
Definition underscore : Ascii.ascii :=
  Ascii.Ascii true true true true true false true false.

(** No character of the string is an underscore. *)
Fixpoint no_underscore (s : string) : bool :=
  match s with
  | EmptyString => true
  | String a s' => negb (Ascii.eqb a underscore) && no_underscore s'
  end.

Lemma string_of_uint_no_underscore (d : Decimal.uint) :
  no_underscore (NilEmpty.string_of_uint d) = true.
Proof. induction d; cbn; auto. Qed.

Lemma str_int_no_underscore (z : Z) : no_underscore (str_int z) = true.
Proof.
  unfold str_int, NilZero.string_of_int, NilZero.string_of_uint.
  destruct (Z.to_int z) as [d|d]; destruct d;
    try reflexivity; cbn [no_underscore];
    try (rewrite string_of_uint_no_underscore; reflexivity).
Qed.

Lemma underscore_splits (s s' x x' : string) :
  no_underscore s = true -> no_underscore s' = true ->
  (s +:+ String underscore x = s' +:+ String underscore x')%string -> s = s'.
Proof.
  revert s'. induction s as [|a s IH]; intros [|b s'] Hs Hs' H.
  - reflexivity.
  - rewrite append_cons in H. injection H as <- _.
    cbn in Hs'. discriminate Hs'.
  - rewrite append_cons in H. injection H as -> _.
    cbn in Hs. discriminate Hs.
  - rewrite !append_cons in H. injection H as -> H.
    cbn [no_underscore] in Hs, Hs'. apply andb_prop in Hs, Hs'.
    destruct Hs as [_ Hs], Hs' as [_ Hs']. f_equal. now apply IH.
Qed.

(** Saves that differ go to different files, under any one directory
    string: a periodic checkpoint never takes the file of a best checkpoint,
    the periodic checkpoints of two epochs never share a file, whatever the
    clock says, and the best checkpoints of two metrics never share one. *)
Theorem checkpoint_files_distinct (dir : string) (e e' : Z) (dt dt' : datetime)
    (m m' : string) :
  (forall suffix suffix',
      checkpoint_path dir e false suffix dt
      <> checkpoint_path dir e' true suffix' dt')
  /\ (forall suffix suffix',
         e <> e' ->
         checkpoint_path dir e false suffix dt
         <> checkpoint_path dir e' false suffix' dt')
  /\ (m <> m' ->
      checkpoint_path dir e true (Some m) dt
      <> checkpoint_path dir e' true (Some m') dt').
Proof.
  unfold checkpoint_path. split; [|split].
  - intros suffix suffix' H. apply (inj (String.app dir)) in H.
    rewrite !append_cons in H. discriminate H.
  - intros suffix suffix' Hne H. apply (inj (String.app dir)) in H.
    apply (inj (String.app "model_epoch_")) in H.
    apply Hne, str_int_inj.
    apply (underscore_splits _ _ _ _ (str_int_no_underscore e)
                             (str_int_no_underscore e') H).
  - intros Hne H. apply Hne. apply (best_file_inj dir). exact H.
Qed.

(** ** What a best checkpoint holds, and resuming through the constructor *)

Lemma bind_Ok {A B : Type} (a : A) (k : A -> result B) : Ok a ≫= k = k a.
Proof. reflexivity. Qed.

Lemma track_best_saved (epoch : Z) (t : Trainer) (fs : Files) (metric : string)
    (v b : F) (hist : list F) :
  has_best_attrs t ->
  m_valid (metrics t) !! metric = Some hist ->
  best t !! best_attr metric = Some b ->
  fle b v = true ->
  let t1 :=
    set_metrics t
      (mkMetrics (m_train (metrics t))
                 (<[metric := hist ++ [v]]> (m_valid (metrics t)))) in
  exists d,
    (forall i, In i (cfg_metrics (config (setup t))) ->
               d !! best_attr i = <[best_attr metric := v]> (best t) !! best_attr i)
    /\ has_best_attrs (setattr t1 (best_attr metric) v)
    /\ track_best epoch (t, fs) (metric, v)
       = Ok (setattr t1 (best_attr metric) v,
             (best_file (checkpoint_dir t) metric,
              mkCheckpoint epoch (model t) (optimizer t) (losses t)
                           (metrics t1) d) :: fs).
Proof.
  intros Hwf Hhist Hb Hle t1.
  assert (Hwf2 : has_best_attrs (setattr t1 (best_attr metric) v)).
  { intros i Hi. cbn [setattr set_best t1 set_metrics best setup] in *.
    destruct (decide (best_attr metric = best_attr i)) as [->|Hne].
    - rewrite lookup_insert_eq; eauto.
    - rewrite lookup_insert_ne by exact Hne. now apply Hwf. }
  destruct (best_metrics_dict_ok _ Hwf2) as (d & Hd & Hdin).
  exists d. split; [exact Hdin|]. split; [exact Hwf2|].
  unfold track_best.
  rewrite (append_valid_metric_ok t metric v hist Hhist).
  cbn [mbind result_bind fst snd]. fold t1.
  assert (Hg : getattr t1 (best_attr metric) = Ok b)
    by (unfold getattr; cbn [t1 set_metrics best]; now rewrite Hb).
  rewrite Hg. cbn [mbind result_bind]. rewrite Hle.
  unfold _save_checkpoint. rewrite Hd. reflexivity.
Qed.

(** A best checkpoint is written in the middle of the loop over the
    validation metrics.  For two metrics visited in this order, the first
    reaching a new best: its checkpoint holds the first metric's history
    with the value of this epoch and its new best, but the second metric's
    history without the value of this epoch and its best as it was before,
    while the trainer, once the loop is over, has recorded the second value
    and, when it is not below the stored one, taken it as best. *)
Theorem best_checkpoint_is_mid_loop (e : Z) (t : Trainer) (fs : Files)
    (m1 m2 : string) (v1 v2 b1 b2 : F) (h1 h2 : list F) :
  has_best_attrs t ->
  m1 <> m2 ->
  m_valid (metrics t) !! m1 = Some h1 ->
  m_valid (metrics t) !! m2 = Some h2 ->
  best t !! best_attr m1 = Some b1 ->
  best t !! best_attr m2 = Some b2 ->
  fle b1 v1 = true ->
  exists t' later ck,
    for_each (track_best e) [(m1, v1); (m2, v2)] (t, fs)
    = Ok (t', later ++ (best_file (checkpoint_dir t) m1, ck) :: fs)
    /\ (length later <= 1)%nat
    /\ m_valid (ck_metrics ck) !! m1 = Some (h1 ++ [v1])
    /\ m_valid (ck_metrics ck) !! m2 = Some h2
    /\ m_valid (metrics t') !! m2 = Some (h2 ++ [v2])
    /\ (In m1 (cfg_metrics (config (setup t))) ->
        ck_best_metrics ck !! best_attr m1 = Some v1)
    /\ (In m2 (cfg_metrics (config (setup t))) ->
        ck_best_metrics ck !! best_attr m2 = Some b2)
    /\ best t' !! best_attr m2 = Some (if fle b2 v2 then v2 else b2).
Proof.
  intros Hwf Hne H1 H2 Hb1 Hb2 Hle.
  destruct (track_best_saved e t fs m1 v1 b1 h1 Hwf H1 Hb1 Hle)
    as (d & Hd & Hwf1 & Hstep1).
  cbn zeta in Hstep1, Hwf1.
  match type of Hstep1 with
  | _ = Ok (?a, (_, ?c) :: _) => set (t1 := a) in *; set (ck := c) in *
  end.
  assert (Hattr : best_attr m1 <> best_attr m2)
    by (intros E; now apply best_attr_inj in E).
  assert (H2' : m_valid (metrics t1) !! m2 = Some h2)
    by (cbn; now rewrite lookup_insert_ne).
  assert (Hb2' : best t1 !! best_attr m2 = Some b2)
    by (cbn; now rewrite lookup_insert_ne).
  destruct (track_best_eq e t1 ((best_file (checkpoint_dir t) m1, ck) :: fs)
                          m2 v2 b2 h2 Hwf1 H2' Hb2') as (d2 & _ & Hstep2).
  cbn zeta in Hstep2.
  match type of Hstep2 with
  | ?second = _ =>
      assert (Hrun : for_each (track_best e) [(m1, v1); (m2, v2)] (t, fs)
                     = second)
  end.
  { cbn [for_each]. rewrite Hstep1, bind_Ok. cbv beta.
    now destruct (track_best e _ (m2, v2)). }
  rewrite Hrun, Hstep2. clear Hrun Hstep2.
  destruct (fle b2 v2).
  - eexists _, [_], ck. split; [reflexivity|].
    split; [cbn; lia|].
    split; [cbn; now rewrite lookup_insert_eq|].
    split; [cbn; now rewrite lookup_insert_ne|].
    split; [cbn; now rewrite lookup_insert_eq|].
    split; [intros Hin; cbn [ck ck_best_metrics]; rewrite (Hd m1 Hin);
            now rewrite lookup_insert_eq|].
    split; [intros Hin; cbn [ck ck_best_metrics]; rewrite (Hd m2 Hin);
            now rewrite lookup_insert_ne|].
    cbn. now rewrite lookup_insert_eq.
  - eexists _, [], ck. split; [reflexivity|].
    split; [cbn; lia|].
    split; [cbn; now rewrite lookup_insert_eq|].
    split; [cbn; now rewrite lookup_insert_ne|].
    split; [cbn; now rewrite lookup_insert_eq|].
    split; [intros Hin; cbn [ck ck_best_metrics]; rewrite (Hd m1 Hin);
            now rewrite lookup_insert_eq|].
    split; [intros Hin; cbn [ck ck_best_metrics]; rewrite (Hd m2 Hin);
            now rewrite lookup_insert_ne|].
    cbn. now rewrite lookup_insert_ne.
Qed.

Lemma read_file_app (path : string) (l1 l2 : Files) :
  read_file path (l1 ++ l2)
  = match read_file path l1 with
    | Some ck => Some ck
    | None => read_file path l2
    end.
Proof.
  induction l1 as [|[p ck] l1 IH]; [reflexivity|].
  cbn [app read_file]. destruct (String.eqb p path); [reflexivity | exact IH].
Qed.

(** Resuming through the constructor: with a logger, [start_from_checkpoint]
    set, the directory string of the saving trainer and the file name of one
    of its periodic checkpoints as [checkpoint_name], the constructor
    returns a trainer with the saved model, optimizer, histories and best
    values, set to start at the epoch after the saved one; the model and
    optimizer given to the constructor are replaced.  This holds whatever
    was written after that checkpoint ([later]), as long as no write went to
    its path.  Without a logger the constructor raises [AttributeError]. *)
Theorem init_resumes (t : Trainer) (e : Z) (dt : datetime) (fs later : Files)
    (s : Setup) (m : Params) (o : OptState) (lg : Logger) :
  has_best_attrs t ->
  cfg_start_from_checkpoint (config s) = true ->
  cfg_checkpoint_dir (config s) = checkpoint_dir t ->
  cfg_metrics (config s) = cfg_metrics (config (setup t)) ->
  cfg_checkpoint_name (config s)
  = ("model_epoch_" +:+ str_int e +:+ "_datetime-" +:+ strftime dt +:+ ".pt")%string ->
  read_file (checkpoint_dir t +:+ cfg_checkpoint_name (config s))%string later
  = None ->
  exists fs' t',
    _save_checkpoint t e (losses t) (metrics t) false None dt fs = Ok fs'
    /\ init s m o (Some lg) (later ++ fs') = Ok t'
    /\ start_epoch t' = e + 1
    /\ model t' = model t /\ optimizer t' = optimizer t
    /\ losses t' = losses t /\ metrics t' = metrics t
    /\ (forall i, In i (cfg_metrics (config s)) ->
                  best t' !! best_attr i = best t !! best_attr i)
    /\ setup t' = s
    /\ init s m o None (later ++ fs') = Raise AttributeError.
Proof.
  intros Hwf Hstart Hdir Hcfg Hname Hlater.
  destruct (best_metrics_dict_ok t Hwf) as (d & Hd & Hdin).
  destruct (save_checkpoint_ok t e (losses t) (metrics t) false None dt fs Hwf)
    as (d' & Hd' & Hsave).
  rewrite Hd in Hd'. injection Hd' as <-.
  set (ck := mkCheckpoint e (model t) (optimizer t) (losses t) (metrics t) d) in *.
  rewrite Hname in Hlater.
  eexists. unfold init. rewrite Hstart, Hdir, Hname, Hcfg.
  set (t0 := mkTrainer s m o 0 _ _ _).
  destruct (load_best_loop ck (cfg_metrics (config (setup t0))))
    with (t0 := set_model (set_start_epoch t0 (ck_epoch ck + 1))
                          (ck_model_state_dict ck) (ck_optimizer_state_dict ck))
    as (t1 & Ht1 & Hs & Hm & Ho & He & _ & _ & Hin & _).
  { intros i Hi. cbn [t0 setup] in Hi. rewrite Hcfg in Hi.
    cbn [ck ck_best_metrics]. rewrite (Hdin i Hi). now apply Hwf. }
  exists (set_losses (set_metrics t1 (ck_metrics ck)) (ck_losses ck)).
  split; [exact Hsave|]. split.
  { unfold _load_checkpoint, torch_load. rewrite read_file_app, Hlater.
    change (checkpoint_dir t +:+ "model_epoch_" +:+ str_int e +:+ "_datetime-"
            +:+ strftime dt +:+ ".pt")%string
      with (checkpoint_path (checkpoint_dir t) e false None dt).
    rewrite read_file_head. cbn [of_option mbind result_bind].
    cbn [set_model set_start_epoch setup] in Ht1 |- *. now rewrite Ht1. }
  cbn [set_losses set_metrics model optimizer losses metrics best start_epoch setup].
  split; [now rewrite He|]. split; [now rewrite Hm|]. split; [now rewrite Ho|].
  split; [reflexivity|]. split; [reflexivity|]. split.
  { intros i Hi. assert (Hi' := Hi). rewrite <- Hcfg in Hi'.
    cbn [t0 setup] in Hin. rewrite (Hin i Hi').
    cbn [ck ck_best_metrics]. apply Hdin. exact Hi. }
  split; [now rewrite Hs | reflexivity].
Qed.

(** ** The fresh trainer, and what the metric function is given *)

Lemma foldl_insert_const {V : Type} (f : string -> string) (c : V)
    (names : list string) (d : gmap string V) (k : string) :
  foldl (fun d name => <[f name := c]> d) d names !! k
  = if decide (k ∈ map f names) then Some c else d !! k.
Proof.
  revert d. induction names as [|n ns IH]; intros d; cbn [foldl map].
  - destruct (decide (k ∈ [])) as [H|_]; [|reflexivity].
    now apply not_elem_of_nil in H.
  - rewrite IH. destruct (decide (k ∈ map f ns)) as [Hin|Hnin].
    + rewrite decide_True; [reflexivity | now right].
    + destruct (decide (f n = k)) as [<-|Hne].
      * rewrite lookup_insert_eq. rewrite decide_True; [reflexivity | now left].
      * rewrite lookup_insert_ne by exact Hne.
        rewrite decide_False; [reflexivity|].
        intros H. apply elem_of_cons in H. destruct H as [->|H]; contradiction.
Qed.

(** Given a logger and without [start_from_checkpoint], the constructor
    returns: a trainer at epoch 0 with the model and optimizer it was given,
    empty loss histories, and for the configured metrics, and for no other
    name, the best value 0.0 and empty histories.  Without a logger (the
    default of the parameter) it raises [AttributeError], whatever the
    configuration. *)
Theorem init_fresh (s : Setup) (m : Params) (o : OptState) (fs : Files) :
  init s m o None fs = Raise AttributeError
  /\ (cfg_start_from_checkpoint (config s) = false ->
      forall lg : Logger,
      exists t,
        init s m o (Some lg) fs = Ok t
        /\ setup t = s /\ start_epoch t = 0 /\ model t = m /\ optimizer t = o
        /\ losses t = mkLosses [] []
        /\ (forall i, In i (cfg_metrics (config s)) ->
              best t !! best_attr i = Some fzero
              /\ m_train (metrics t) !! i = Some []
              /\ m_valid (metrics t) !! i = Some [])
        /\ (forall i, ~ In i (cfg_metrics (config s)) ->
              best t !! best_attr i = None
              /\ m_train (metrics t) !! i = None
              /\ m_valid (metrics t) !! i = None)).
Proof.
  split; [reflexivity|].
  intros Hstart lg. unfold init. rewrite Hstart. eexists. split; [reflexivity|].
  cbn [setup start_epoch model optimizer losses best metrics m_train m_valid].
  repeat (split; [reflexivity|]).
  assert (Hid : forall (d : gmap string (list F)) k,
             foldl (fun d name => <[name := []]> d) d (cfg_metrics (config s)) !! k
             = if decide (k ∈ cfg_metrics (config s)) then Some [] else d !! k).
  { intros d k. rewrite (foldl_insert_const (fun x => x) []).
    now rewrite map_id. }
  split; intros i Hi.
  - rewrite (foldl_insert_const best_attr fzero), !Hid.
    rewrite !decide_True; [auto | now apply list_elem_of_In | ].
    apply list_elem_of_In, in_map, Hi.
  - rewrite (foldl_insert_const best_attr fzero), !Hid.
    rewrite !decide_False; [auto | now rewrite list_elem_of_In | ].
    rewrite list_elem_of_In, in_map_iff. intros (j & E & Hj).
    apply best_attr_inj in E. congruence.
Qed.




(** ** The best values of an epoch *)

Lemma read_file_None (path : string) (l : Files) :
  (forall ck, ~ In (path, ck) l) -> read_file path l = None.
Proof.
  induction l as [|[p ck] l IH]; intros H; [reflexivity|].
  cbn [read_file]. destruct (String.eqb p path) eqn:E.
  - apply String.eqb_eq in E. subst p. exfalso. apply (H ck). now left.
  - apply IH. intros ck' Hin. apply (H ck'). now right.
Qed.

(** A periodic checkpoint never takes the file of a best checkpoint. *)
Lemma periodic_file_not_best (dir : string) (e : Z) (dt : datetime)
    (m : string) :
  checkpoint_path dir e false None dt <> best_file dir m.
Proof.
  unfold checkpoint_path, best_file. intros H.
  apply (inj (String.app dir)) in H. rewrite !append_cons in H. discriminate H.
Qed.

(** The loop over the validation metrics of an epoch, whose names are
    distinct (they are the keys of a dict): it returns; for every metric
    whose value is not below the best stored when the epoch's loop starts,
    the best becomes that value and the file of that metric is among the
    files written by the loop, where it holds the checkpoint with the new
    best value; for every other metric the best stays and none of the files
    written is the file of that metric. *)
Lemma track_best_loop (epoch : Z) (items : list (string * F)) :
  NoDup (map fst items) ->
  forall (t : Trainer) (fs : Files),
    has_best_attrs t ->
    (forall m v, In (m, v) items ->
                 is_Some (m_valid (metrics t) !! m)
                 /\ is_Some (best t !! best_attr m)) ->
    exists t' new,
      for_each (track_best epoch) items (t, fs) = Ok (t', new ++ fs)
      /\ has_best_attrs t'
      /\ (forall name, (forall m v, In (m, v) items -> name <> best_attr m) ->
                       best t' !! name = best t !! name)
      /\ (forall p ck, In (p, ck) new ->
                       ck_epoch ck = epoch
                       /\ ck_model_state_dict ck = model t
                       /\ exists m v, In (m, v) items
                                      /\ p = best_file (checkpoint_dir t) m)
      /\ (forall m v b,
             In (m, v) items -> best t !! best_attr m = Some b ->
             (fle b v = true ->
              best t' !! best_attr m = Some v
              /\ exists ck,
                  In (best_file (checkpoint_dir t) m, ck) new
                  /\ read_file (best_file (checkpoint_dir t) m) (new ++ fs)
                     = Some ck
                  /\ (In m (cfg_metrics (config (setup t))) ->
                      ck_best_metrics ck !! best_attr m = Some v))
             /\ (fle b v = false ->
                 best t' !! best_attr m = Some b
                 /\ forall ck, ~ In (best_file (checkpoint_dir t) m, ck) new)).
Proof.
  induction items as [|[m v] rest IH]; intros Hnd t fs Hwf Hkeys.
  - exists t, []. split; [reflexivity|]. split; [exact Hwf|].
    split; [reflexivity|]. split; [intros p ck []|]. intros m v b [].
  - apply NoDup_cons in Hnd. destruct Hnd as [Hm Hnd].
    destruct (Hkeys m v (or_introl eq_refl)) as [[hist Hhist] [b Hb]].
    destruct (track_best_eq epoch t fs m v b hist Hwf Hhist Hb)
      as (d & Hd & Hstep).
    set (t1 := set_metrics t
                 (mkMetrics (m_train (metrics t))
                            (<[m := hist ++ [v]]> (m_valid (metrics t))))) in *.
    set (ck0 := mkCheckpoint epoch (model t) (optimizer t) (losses t)
                             (metrics t1) d) in *.
    set (s1 := if fle b v
               then (setattr t1 (best_attr m) v,
                     (best_file (checkpoint_dir t) m, ck0) :: fs)
               else (t1, fs)) in *.
    set (head := if fle b v
                 then [(best_file (checkpoint_dir t) m, ck0)] else []).
    assert (Hfs1 : s1.2 = head ++ fs)
      by (unfold s1, head; now destruct (fle b v)).
    assert (Hother : forall name, name <> best_attr m ->
                                  best s1.1 !! name = best t !! name).
    { intros name Hne. unfold s1. destruct (fle b v); [|reflexivity].
      cbn. now rewrite lookup_insert_ne by congruence. }
    assert (Hsetup : setup s1.1 = setup t)
      by (unfold s1; destruct (fle b v); reflexivity).
    assert (Hmodel : model s1.1 = model t)
      by (unfold s1; destruct (fle b v); reflexivity).
    assert (Hdir : checkpoint_dir s1.1 = checkpoint_dir t)
      by (unfold checkpoint_dir; now rewrite Hsetup).
    assert (Hwf1 : has_best_attrs s1.1).
    { intros i Hi. rewrite Hsetup in Hi.
      destruct (decide (best_attr i = best_attr m)) as [E|Hne].
      - rewrite E. unfold s1. destruct (fle b v); cbn.
        + rewrite lookup_insert_eq; eauto.
        + rewrite Hb; eauto.
      - rewrite (Hother _ Hne). now apply Hwf. }
    assert (Hrest_ne : forall m' v', In (m', v') rest -> m' <> m).
    { intros m' v' Hin E. subst m'. apply Hm. apply list_elem_of_In.
      apply in_map_iff. exists (m, v'). auto. }
    assert (Hkeys1 : forall m' v', In (m', v') rest ->
                       is_Some (m_valid (metrics s1.1) !! m')
                       /\ is_Some (best s1.1 !! best_attr m')).
    { intros m' v' Hin. destruct (Hkeys m' v' (or_intror Hin)) as [Hv Hbm].
      split.
      - assert (E : m_valid (metrics s1.1)
                    = <[m := hist ++ [v]]> (m_valid (metrics t)))
          by (unfold s1; destruct (fle b v); reflexivity).
        rewrite E, lookup_insert_ne; [exact Hv|].
        intros E'. symmetry in E'. now apply (Hrest_ne m' v').
      - rewrite Hother; [exact Hbm|].
        intros E. apply best_attr_inj in E. now apply (Hrest_ne m' v'). }
    destruct (IH Hnd s1.1 s1.2 Hwf1 Hkeys1)
      as (t' & new & Hrun & Hwf' & Hframe & Hnew & Hitems).
    rewrite Hfs1 in Hrun, Hitems. rewrite Hdir, Hsetup in Hitems.
    exists t', (new ++ head).
    split.
    { cbn [for_each]. rewrite Hstep. cbn [mbind result_bind].
      rewrite <- Hfs1 in Hrun. rewrite <- surjective_pairing in Hrun.
      rewrite Hrun. f_equal. f_equal. rewrite Hfs1. apply app_assoc. }
    split; [exact Hwf'|]. split.
    { intros name Hname. rewrite Hframe.
      - apply Hother. apply (Hname m v). now left.
      - intros m' v' Hin. apply (Hname m' v'). now right. }
    assert (Hfresh : forall ck, ~ In (best_file (checkpoint_dir t) m, ck) new).
    { intros ck Hin. destruct (Hnew _ _ Hin) as (_ & _ & m' & v' & Hin' & E).
      rewrite Hdir in E. apply best_file_inj in E. subst m'.
      now apply (Hrest_ne m v'). }
    split.
    { intros p ck Hin. apply in_app_or in Hin. destruct Hin as [Hin|Hin].
      - destruct (Hnew p ck Hin) as (He & Hmo & m' & v' & Hin' & ->).
        split; [exact He|]. split; [now rewrite Hmo|].
        exists m', v'. rewrite Hdir. split; [now right | reflexivity].
      - unfold head in Hin. destruct (fle b v); [|destruct Hin].
        destruct Hin as [[= <- <-]|[]]. split; [reflexivity|].
        split; [reflexivity|]. exists m, v. split; [now left | reflexivity]. }
    intros m' v' b' Hin Hb'. destruct Hin as [[= <- <-]|Hin].
    + rewrite Hb in Hb'. injection Hb' as <-.
      assert (Hkeep : best t' !! best_attr m = best s1.1 !! best_attr m).
      { apply Hframe. intros m' v' Hin' E. apply best_attr_inj in E.
        now apply (Hrest_ne m' v'). }
      split; intros Hle; rewrite Hkeep; unfold s1, head; rewrite Hle; cbn [fst].
      * split; [cbn; now rewrite lookup_insert_eq|].
        exists ck0. split; [apply in_or_app; right; now left|]. split.
        -- rewrite <- app_assoc, read_file_app, (read_file_None _ _ Hfresh).
           apply read_file_head.
        -- intros Hin. cbn [ck0 ck_best_metrics]. rewrite (Hd m Hin).
           now rewrite lookup_insert_eq.
      * split; [exact Hb|]. intros ck Hin. apply in_app_or in Hin.
        destruct Hin as [Hin|[]]. now apply (Hfresh ck).
    + assert (Hne : m' <> m) by now apply (Hrest_ne m' v').
      assert (Hb1 : best s1.1 !! best_attr m' = Some b').
      { rewrite Hother; [exact Hb'|]. intros E. now apply best_attr_inj in E. }
      destruct (Hitems m' v' b' Hin Hb1) as [Htrue Hfalse].
      split; intros Hle.
      * destruct (Htrue Hle) as (Hbest & ck & Hck & Hread & Hval).
        split; [exact Hbest|]. exists ck.
        split; [apply in_or_app; now left|].
        split; [now rewrite <- app_assoc | exact Hval].
      * destruct (Hfalse Hle) as (Hbest & Hno). split; [exact Hbest|].
        intros ck Hck. apply in_app_or in Hck. destruct Hck as [Hck|Hck].
        -- now apply (Hno ck).
        -- unfold head in Hck. destruct (fle b v); [|destruct Hck].
           destruct Hck as [[= E _]|[]]. apply best_file_inj in E. congruence.
Qed.

Lemma append_train_loop_ok (its : list (string * F)) (t : Trainer) :
  (forall m v, In (m, v) its -> is_Some (m_train (metrics t) !! m)) ->
  exists t', for_each append_train_metric its t = Ok t'.
Proof.
  revert t. induction its as [|[m v] rest IH]; intros t Hkeys.
  - exists t. reflexivity.
  - destruct (Hkeys m v (or_introl eq_refl)) as [h Hh].
    assert (E : append_train_metric t (m, v)
                = Ok (set_metrics t
                        (mkMetrics (<[m := h ++ [v]]> (m_train (metrics t)))
                                   (m_valid (metrics t))))).
    { unfold append_train_metric. cbn [fst snd]. now rewrite Hh. }
    cbn [for_each]. rewrite E. cbn [mbind result_bind]. apply IH.
    intros m' v' Hin. cbn [set_metrics metrics m_train].
    destruct (decide (m = m')) as [<-|Hne].
    + rewrite lookup_insert_eq. eauto.
    + rewrite lookup_insert_ne by exact Hne. apply (Hkeys m' v'). now right.
Qed.

(** The passes of an epoch, put together. *)
Lemma epoch_body_of_steps (t : Trainer) (fs : Files) (e : Z) (t1 t2 : Trainer)
    (out_t out_v : EpochOut) (train_items valid_items : list (string * F))
    (s3 s' : Trainer * Files) :
  _train_epoch t = Ok (t1, out_t) ->
  items (eo_metrics out_t) = Ok train_items ->
  for_each append_train_metric train_items
    (set_losses t1 (mkLosses (l_train (losses t1) ++ [eo_loss out_t])
                             (l_valid (losses t1)))) = Ok t2 ->
  _validate_epoch t2 = Ok out_v ->
  items (eo_metrics out_v) = Ok valid_items ->
  for_each (track_best e) valid_items
    (set_losses t2 (mkLosses (l_train (losses t2))
                             (l_valid (losses t2) ++ [eo_loss out_v])), fs)
  = Ok s3 ->
  periodic_save e s3 = Ok s' ->
  epoch_body (t, fs) e = Ok s'.
Proof.
  intros H1 H2 H3 H4 H5 H6 H7. unfold epoch_body.
  rewrite H1. cbn [mbind result_bind]. rewrite H2. cbn [mbind result_bind].
  rewrite H3. cbn [mbind result_bind]. rewrite H4. cbn [mbind result_bind].
  rewrite H5. cbn [mbind result_bind]. rewrite H6. cbn [mbind result_bind].
  exact H7.
Qed.

(** C3. An epoch whose two passes return, the metric function answering
    dicts whose names have their histories and, for the validation pass, a
    stored best value, completes (the period of the saves not being zero).
    Every validation value [v] of the epoch, for its metric [m], was
    compared with the best value [b] stored for [m] when the epoch started:
    when [b <= v] the stored best is [v] at the end of the epoch, and among
    the files the epoch wrote is the best checkpoint of [m], which is what
    its path now holds: a checkpoint of this epoch, with the model the
    training pass left and the new best value; so a value equal to the
    stored best, for which [<=] holds, is stored and saved again; when
    [b <= v] fails the stored best is still [b] and the epoch wrote no file
    at the path of the best checkpoint of [m]. *)
Theorem track_best_updates (e : Z) (t t1 : Trainer) (fs : Files)
    (out_t out_v : EpochOut) (train_values valid_values : list (string * F)) :
  has_best_attrs t ->
  save_period_in_epochs t <> 0 ->
  _train_epoch t = Ok (t1, out_t) ->
  eo_metrics out_t = MDict train_values ->
  (forall m v, In (m, v) train_values -> is_Some (m_train (metrics t) !! m)) ->
  _validate_epoch t1 = Ok out_v ->
  eo_metrics out_v = MDict valid_values ->
  NoDup (map fst valid_values) ->
  (forall m v, In (m, v) valid_values ->
               is_Some (m_valid (metrics t) !! m)
               /\ is_Some (best t !! best_attr m)) ->
  exists t' new,
    epoch_body (t, fs) e = Ok (t', new ++ fs)
    /\ forall m v b,
         In (m, v) valid_values -> best t !! best_attr m = Some b ->
         (fle b v = true ->
          best t' !! best_attr m = Some v
          /\ exists ck,
              In (best_file (checkpoint_dir t) m, ck) new
              /\ torch_load (best_file (checkpoint_dir t) m) (new ++ fs) = Ok ck
              /\ ck_epoch ck = e
              /\ ck_model_state_dict ck = model t1
              /\ (In m (cfg_metrics (config (setup t))) ->
                  ck_best_metrics ck !! best_attr m = Some v))
         /\ (v = b -> fle b b = true ->
             best t' !! best_attr m = Some b
             /\ exists ck, In (best_file (checkpoint_dir t) m, ck) new
                           /\ ck_epoch ck = e)
         /\ (fle b v = false ->
             best t' !! best_attr m = Some b
             /\ forall ck, ~ In (best_file (checkpoint_dir t) m, ck) new).
Proof.
  intros Hwf Hp Htrain Hdt Hkt Hvalid Hdv Hnd Hkv.
  destruct (train_epoch_frame t t1 out_t Htrain) as (Hs1 & _ & Hb1 & Hm1 & _).
  set (t1' := set_losses t1 (mkLosses (l_train (losses t1) ++ [eo_loss out_t])
                                      (l_valid (losses t1)))).
  destruct (append_train_loop_ok train_values t1') as [t2 Ht2].
  { intros m v Hin. cbn [t1' set_losses metrics]. rewrite Hm1. now apply (Hkt m v). }
  pose proof (append_train_loop_frame _ _ _ Ht2) as (Hsame & _ & Hmv2).
  destruct Hsame as (Hs2 & Hmo2 & Ho2 & _ & _).
  assert (Hb2 : best t1' = best t2).
  { apply (for_each_preserves (fun a b => best a = best b)) with
      (body := append_train_metric) (l := train_values);
      [congruence | congruence | intros a b c; apply append_train_metric_best
       | exact Ht2]. }
  cbn [t1' set_losses setup model optimizer best metrics] in Hs2, Hmo2, Ho2, Hb2, Hmv2.
  assert (Hvalid2 : _validate_epoch t2 = Ok out_v).
  { rewrite <- Hvalid. apply validate_epoch_ext; assumption. }
  set (t3 := set_losses t2 (mkLosses (l_train (losses t2))
                                     (l_valid (losses t2) ++ [eo_loss out_v]))).
  assert (Hs3 : setup t3 = setup t) by (cbn [t3 set_losses setup]; congruence).
  assert (Hb3 : best t3 = best t) by (cbn [t3 set_losses best]; congruence).
  assert (Hd3 : checkpoint_dir t3 = checkpoint_dir t)
    by (unfold checkpoint_dir; now rewrite Hs3).
  assert (Hwf3 : has_best_attrs t3).
  { intros i Hi. rewrite Hs3 in Hi. rewrite Hb3. now apply Hwf. }
  destruct (track_best_loop e valid_values Hnd t3 fs Hwf3)
    as (t' & new & Hloop & Hwf' & _ & Hnew & Hitems).
  { intros m v Hin. destruct (Hkv m v Hin) as [Hh Hb].
    rewrite Hb3. split; [|exact Hb].
    cbn [t3 set_losses metrics]. rewrite Hmv2, Hm1. exact Hh. }
  rewrite Hd3, Hs3, Hb3 in Hitems. rewrite Hd3 in Hnew.
  assert (Hs' : setup t' = setup t).
  { rewrite <- Hs3.
    apply (for_each_preserves (fun a b => setup b.1 = setup a.1)) with
      (body := track_best e) (l := valid_values) (s := (t3, fs))
      (s' := (t', new ++ fs));
      [congruence | congruence | intros a b c; apply track_best_setup
       | exact Hloop]. }
  assert (Hp' : save_period_in_epochs t' <> 0)
    by (unfold save_period_in_epochs in *; now rewrite Hs').
  assert (Hd' : checkpoint_dir t' = checkpoint_dir t)
    by (unfold checkpoint_dir; now rewrite Hs').
  destruct (periodic_save_step e t' (new ++ fs) Hwf' Hp')
    as (fs' & Hper & Hmul & Hnot & _).
  assert (Hfs' : exists pnew,
             fs' = pnew ++ new ++ fs
             /\ forall m, read_file (best_file (checkpoint_dir t) m) pnew = None
                          /\ forall ck, ~ In (best_file (checkpoint_dir t) m, ck) pnew).
  { destruct (Z.eqb_spec (e mod save_period_in_epochs t') 0) as [Hz|Hz].
    - destruct Hmul as (ck & -> & _); [now apply Z.mod_divide|].
      eexists [_]. split; [reflexivity|]. intros m.
      assert (Hne : (checkpoint_dir t' +:+ "model_epoch_" +:+ str_int e
                     +:+ "_datetime-" +:+ strftime (now e) +:+ ".pt")%string
                    <> best_file (checkpoint_dir t) m).
      { rewrite Hd'. apply (periodic_file_not_best (checkpoint_dir t) e (now e) m). }
      split.
      + cbn [read_file]. destruct (String.eqb _ _) eqn:E; [|reflexivity].
        apply String.eqb_eq in E. contradiction.
      + intros ck' [[= E _]|[]]. contradiction.
    - rewrite Hnot; [|intros Hdiv; apply Hz; now apply Z.mod_divide].
      exists []. split; [reflexivity|]. intros m. split; [reflexivity|].
      intros ck []. }
  destruct Hfs' as (pnew & -> & Hpnew).
  exists t', (pnew ++ new). split.
  { rewrite <- app_assoc.
    apply (epoch_body_of_steps t fs e t1 t2 out_t out_v train_values
                               valid_values (t', new ++ fs)).
    - exact Htrain.
    - now rewrite Hdt.
    - exact Ht2.
    - exact Hvalid2.
    - now rewrite Hdv.
    - exact Hloop.
    - exact Hper. }
  assert (Hupd : forall m v b,
             In (m, v) valid_values -> best t !! best_attr m = Some b ->
             fle b v = true ->
             best t' !! best_attr m = Some v
             /\ exists ck,
                 In (best_file (checkpoint_dir t) m, ck) (pnew ++ new)
                 /\ torch_load (best_file (checkpoint_dir t) m)
                               ((pnew ++ new) ++ fs) = Ok ck
                 /\ ck_epoch ck = e
                 /\ ck_model_state_dict ck = model t1
                 /\ (In m (cfg_metrics (config (setup t))) ->
                     ck_best_metrics ck !! best_attr m = Some v)).
  { intros m v b Hin Hb Hle.
    destruct (Hitems m v b Hin Hb) as [Htrue _].
    destruct (Htrue Hle) as (Hbest & ck & Hck & Hread & Hval).
    split; [exact Hbest|]. exists ck.
    split; [apply in_or_app; now right|].
    destruct (Hnew _ _ Hck) as (He & Hmo & _).
    split.
    { unfold torch_load. rewrite <- app_assoc, read_file_app.
      rewrite (proj1 (Hpnew m)), Hread. reflexivity. }
    split; [exact He|]. split; [|exact Hval].
    rewrite Hmo. cbn [t3 set_losses model]. exact Hmo2. }
  intros m v b Hin Hb. split; [apply (Hupd m v b Hin Hb)|]. split.
  - intros -> Hle. destruct (Hupd m b b Hin Hb Hle)
      as (Hbest & ck & Hck & _ & He & _).
    split; [exact Hbest|]. exists ck. split; [exact Hck | exact He].
  - intros Hle. destruct (Hitems m v b Hin Hb) as [_ Hfalse].
    destruct (Hfalse Hle) as (Hbest & Hno). split; [exact Hbest|].
    intros ck Hck. apply in_app_or in Hck. destruct Hck as [Hck|Hck].
    + now apply (proj2 (Hpnew m) ck).
    + now apply (Hno ck).
Qed.

(** ** The periodic checkpoints of a run *)

(** The file of the periodic checkpoint of epoch [e]. *)
Definition periodic_file (dir : string) (e : Z) : string :=
  checkpoint_path dir e false None (now e).

Lemma periodic_file_epoch (dir : string) (e e' : Z) (dt dt' : datetime) :
  checkpoint_path dir e false None dt = checkpoint_path dir e' false None dt' ->
  e = e'.
Proof.
  unfold checkpoint_path. intros H. apply (inj (String.app dir)) in H.
  apply (inj (String.app "model_epoch_")) in H. apply str_int_inj.
  apply (underscore_splits _ _ _ _ (str_int_no_underscore e)
                           (str_int_no_underscore e') H).
Qed.

Lemma in_range (a b e : Z) : In e (range a b) <-> a <= e < b.
Proof.
  unfold range. rewrite in_map_iff. split.
  - intros (i & <- & Hi). apply in_seq in Hi. lia.
  - intros He. exists (Z.to_nat (e - a)). split; [lia|]. apply in_seq. lia.
Qed.

Lemma periodic_save_inv (e : Z) (t : Trainer) (fs : Files)
    (s' : Trainer * Files) :
  periodic_save e (t, fs) = Ok s' ->
  save_period_in_epochs t <> 0
  /\ s'.1 = t
  /\ ((save_period_in_epochs t | e) ->
      exists ck, s'.2 = (periodic_file (checkpoint_dir t) e, ck) :: fs
                 /\ ck_epoch ck = e)
  /\ (~ (save_period_in_epochs t | e) -> s'.2 = fs).
Proof.
  unfold periodic_save. intros H.
  destruct (Z.eqb_spec (save_period_in_epochs t) 0) as [|Hp]; [discriminate|].
  split; [exact Hp|].
  assert (Hdiv : (save_period_in_epochs t | e)
                 <-> e mod save_period_in_epochs t = 0)
    by (symmetry; now apply Z.mod_divide).
  destruct (Z.eqb_spec (e mod save_period_in_epochs t) 0) as [Hz|Hz].
  - apply bind_Ok_inv in H. destruct H as (fs1 & Hsave & [= <-]).
    unfold _save_checkpoint in Hsave. apply bind_Ok_inv in Hsave.
    destruct Hsave as (d & _ & [= <-]). cbn [fst snd].
    split; [reflexivity|]. split.
    + intros _. eexists. split; reflexivity.
    + intros Hn. apply Hdiv in Hz. contradiction.
  - injection H as <-. cbn [fst snd]. split; [reflexivity|]. split.
    + intros Hd. apply Hdiv in Hd. contradiction.
    + reflexivity.
Qed.

Lemma track_best_paths (e : Z) (s s' : Trainer * Files) (mv : string * F) :
  track_best e s mv = Ok s' ->
  exists new,
    s'.2 = new ++ s.2
    /\ forall p ck, In (p, ck) new ->
                    exists m, p = best_file (checkpoint_dir s.1) m.
Proof.
  destruct s as [t fs]. unfold track_best. intros H.
  apply bind_Ok_inv in H. destruct H as (t1 & Ht1 & H).
  unfold append_valid_metric in Ht1. apply bind_Ok_inv in Ht1.
  destruct Ht1 as (h & _ & [= <-]).
  apply bind_Ok_inv in H. destruct H as (b & _ & H).
  destruct (fle b mv.2).
  - apply bind_Ok_inv in H. destruct H as (fs1 & Hsave & [= <-]).
    unfold _save_checkpoint in Hsave. apply bind_Ok_inv in Hsave.
    destruct Hsave as (d & _ & [= <-]). cbn [fst snd].
    eexists [_]. split; [reflexivity|].
    intros p ck [[= <- _]|[]]. exists mv.1. reflexivity.
  - injection H as <-. exists []. split; [reflexivity|]. intros p ck [].
Qed.

Lemma track_best_loop_paths (e : Z) (its : list (string * F))
    (s s' : Trainer * Files) :
  for_each (track_best e) its s = Ok s' ->
  setup s'.1 = setup s.1
  /\ exists new,
      s'.2 = new ++ s.2
      /\ forall p ck, In (p, ck) new ->
                      exists m, p = best_file (checkpoint_dir s.1) m.
Proof.
  revert s. induction its as [|mv rest IH]; intros s H.
  - injection H as <-. split; [reflexivity|]. exists [].
    split; [reflexivity | intros p ck []].
  - cbn [for_each] in H. apply bind_Ok_inv in H. destruct H as (s1 & H1 & H2).
    pose proof (track_best_setup e s s1 mv H1) as Hs1.
    apply track_best_paths in H1. destruct H1 as (new1 & F1 & P1).
    destruct (IH _ H2) as (Hs2 & new2 & F2 & P2).
    split; [congruence|].
    exists (new2 ++ new1). split; [now rewrite F2, F1, app_assoc|].
    intros p ck Hin. apply in_app_or in Hin. destruct Hin as [Hin|Hin].
    + destruct (P2 p ck Hin) as [m ->]. exists m.
      unfold checkpoint_dir. now rewrite Hs1.
    + exact (P1 p ck Hin).
Qed.

(** The files an epoch that completes has written: the best checkpoints of
    its loop over the validation metrics, then, exactly when the period
    divides the epoch, its periodic checkpoint. *)
Lemma epoch_body_files (s s' : Trainer * Files) (e : Z) :
  epoch_body s e = Ok s' ->
  setup s'.1 = setup s.1
  /\ save_period_in_epochs s.1 <> 0
  /\ exists pnew bnew,
      s'.2 = pnew ++ bnew ++ s.2
      /\ (forall p ck, In (p, ck) bnew ->
                       exists m, p = best_file (checkpoint_dir s.1) m)
      /\ ((save_period_in_epochs s.1 | e) ->
          exists ck, pnew = [(periodic_file (checkpoint_dir s.1) e, ck)]
                     /\ ck_epoch ck = e)
      /\ (~ (save_period_in_epochs s.1 | e) -> pnew = []).
Proof.
  destruct s as [t fs]. intros H. apply epoch_body_steps in H.
  destruct H as (t1 & out_t & train_items & t2 & out_v & valid_items & s3
                 & Htr & _ & Ht2 & _ & _ & Hloop & Hper).
  apply train_epoch_frame in Htr. destruct Htr as (Hs1 & _).
  apply append_train_loop_frame in Ht2. destruct Ht2 as ((Hs2 & _) & _).
  apply track_best_loop_paths in Hloop.
  destruct Hloop as (Hs3 & bnew & Hfs3 & Hb).
  cbn [fst snd set_losses setup] in Hs2, Hs3, Hfs3.
  assert (Hsetup : setup s3.1 = setup t) by congruence.
  assert (Hdir : checkpoint_dir
                   (set_losses t2
                      (mkLosses (l_train (losses t2))
                                (l_valid (losses t2) ++ [eo_loss out_v])))
                 = checkpoint_dir t).
  { unfold checkpoint_dir. cbn [set_losses setup]. congruence. }
  cbn [fst] in Hb. rewrite Hdir in Hb.
  destruct s3 as [t3 fs3]. cbn [fst snd] in *.
  apply periodic_save_inv in Hper.
  destruct Hper as (Hp & Ht' & Hmul & Hnot).
  assert (Hp3 : save_period_in_epochs t3 = save_period_in_epochs t)
    by (unfold save_period_in_epochs; now rewrite Hsetup).
  assert (Hd3 : checkpoint_dir t3 = checkpoint_dir t)
    by (unfold checkpoint_dir; now rewrite Hsetup).
  rewrite Hp3 in Hp, Hmul, Hnot. rewrite Hd3 in Hmul.
  split; [now rewrite Ht'|]. split; [exact Hp|].
  destruct (Z.eqb_spec (e mod save_period_in_epochs t) 0) as [Hz|Hz].
  - assert (Hdiv : (save_period_in_epochs t | e)) by now apply Z.mod_divide.
    destruct (Hmul Hdiv) as (ck & Hfs' & He).
    exists [(periodic_file (checkpoint_dir t) e, ck)], bnew.
    split; [rewrite Hfs', Hfs3; reflexivity|]. split; [exact Hb|].
    split; [intros _; exists ck; split; [reflexivity | exact He]|].
    intros Hn. contradiction.
  - assert (Hdiv : ~ (save_period_in_epochs t | e)).
    { intros Hd. apply Hz. now apply Z.mod_divide. }
    exists [], bnew. split; [rewrite (Hnot Hdiv), Hfs3; reflexivity|].
    split; [exact Hb|]. split; [intros Hd; contradiction | reflexivity].
Qed.

(** The files a sequence of epochs has written, all of them completed. *)
Lemma run_files (epochs : list Z) (s s' : Trainer * Files) :
  for_each epoch_body epochs s = Ok s' ->
  setup s'.1 = setup s.1
  /\ exists new,
      s'.2 = new ++ s.2
      /\ (forall p ck, In (p, ck) new ->
            (exists m, p = best_file (checkpoint_dir s.1) m)
            \/ (exists e, In e epochs /\ (save_period_in_epochs s.1 | e)
                          /\ p = periodic_file (checkpoint_dir s.1) e
                          /\ ck_epoch ck = e))
      /\ (forall e, In e epochs ->
            save_period_in_epochs s.1 <> 0
            /\ ((save_period_in_epochs s.1 | e) ->
                exists ck, In (periodic_file (checkpoint_dir s.1) e, ck) new
                           /\ ck_epoch ck = e)).
Proof.
  revert s. induction epochs as [|e0 rest IH]; intros s H.
  - injection H as <-. split; [reflexivity|]. exists [].
    split; [reflexivity|]. split; [intros p ck [] | intros e []].
  - cbn [for_each] in H. apply bind_Ok_inv in H. destruct H as (s1 & H1 & H2).
    apply epoch_body_files in H1.
    destruct H1 as (Hs1 & Hp & pnew & bnew & F1 & B1 & Hmul & Hnot).
    destruct (IH _ H2) as (Hs2 & new2 & F2 & P2 & E2).
    assert (Hp1 : save_period_in_epochs s1.1 = save_period_in_epochs s.1)
      by (unfold save_period_in_epochs; now rewrite Hs1).
    assert (Hd1 : checkpoint_dir s1.1 = checkpoint_dir s.1)
      by (unfold checkpoint_dir; now rewrite Hs1).
    rewrite Hp1, Hd1 in P2, E2.
    split; [congruence|].
    exists (new2 ++ pnew ++ bnew). split.
    { rewrite F2, F1. now rewrite <- !app_assoc. }
    split.
    + intros p ck Hin. apply in_app_or in Hin. destruct Hin as [Hin|Hin].
      * destruct (P2 p ck Hin) as [Hb|(e & He & Hd & Hpe & Hck)];
          [now left|].
        right. exists e. split; [now right|]. auto.
      * apply in_app_or in Hin. destruct Hin as [Hin|Hin]; [|left; eauto].
        right. exists e0. split; [now left|].
        destruct (Z.eqb_spec (e0 mod save_period_in_epochs s.1) 0) as [Hz|Hz].
        -- assert (Hdiv : (save_period_in_epochs s.1 | e0))
             by now apply Z.mod_divide.
           destruct (Hmul Hdiv) as (ck0 & -> & He0).
           destruct Hin as [[= <- <-]|[]]. auto.
        -- rewrite Hnot in Hin; [destruct Hin|].
           intros Hd. apply Hz. now apply Z.mod_divide.
    + intros e [<-|He].
      * split; [exact Hp|]. intros Hdiv.
        destruct (Hmul Hdiv) as (ck0 & -> & He0). exists ck0.
        split; [|exact He0]. apply in_or_app. right. now left.
      * destruct (E2 e He) as [Hp' Hsaved]. split; [exact Hp'|].
        intros Hdiv. destruct (Hsaved Hdiv) as (ck & Hin & Hck).
        exists ck. split; [apply in_or_app; now left | exact Hck].
Qed.

(** C5. A run that returns has written, below the files that were there,
    the files of its epochs.  For every epoch [e] of its range the period
    is not zero; when the period divides [e] the periodic checkpoint of
    epoch [e], a checkpoint of that epoch, is among the files written,
    whatever the values of the metrics were; when it does not, none of the
    files written is a periodic checkpoint of epoch [e], whatever the
    timestamp.  So a run starting at epoch 0, over at least one epoch and
    with a positive period, has written the periodic checkpoint of
    epoch 0. *)
Theorem periodic_save_multiples (t : Trainer) (fs : Files) (t' : Trainer)
    (fs' : Files) :
  train t fs = Ok (t', fs') ->
  exists new,
    fs' = new ++ fs
    /\ (forall e, start_epoch t <= e < num_epochs (setup t) ->
          save_period_in_epochs t <> 0
          /\ ((save_period_in_epochs t | e) ->
              exists ck, In (periodic_file (checkpoint_dir t) e, ck) new
                         /\ ck_epoch ck = e)
          /\ (~ (save_period_in_epochs t | e) ->
              forall dt ck,
                ~ In (checkpoint_path (checkpoint_dir t) e false None dt, ck)
                     new))
    /\ (start_epoch t = 0 -> 0 < num_epochs (setup t) ->
        0 < save_period_in_epochs t ->
        exists ck, In (periodic_file (checkpoint_dir t) 0, ck) new
                   /\ ck_epoch ck = 0).
Proof.
  unfold train. intros H. apply run_files in H.
  destruct H as (_ & new & Hfs & Hpaths & Hsaved). cbn [fst snd] in *.
  exists new. split; [exact Hfs|]. split.
  - intros e He. apply in_range in He. destruct (Hsaved e He) as [Hp Hmul].
    split; [exact Hp|]. split; [exact Hmul|].
    intros Hn dt ck Hin.
    destruct (Hpaths _ _ Hin) as [[m Hm]|(e' & _ & Hdiv & Hpe & _)].
    + now apply (periodic_file_not_best (checkpoint_dir t) e dt m).
    + apply periodic_file_epoch in Hpe. subst e'. contradiction.
  - intros H0 Hn Hp. destruct (Hsaved 0) as [_ Hmul].
    + apply in_range. lia.
    + apply Hmul. apply Z.divide_0_r.
Qed.

End Training.

(** * Float32 values

    The binary32 format of IEEE 754, in the Standard Library's specification
    of floating point numbers: 24 bits of precision, exponents below 128. *)

Module Float32.

Definition prec : Z := 24.
Definition emax : Z := 128.

Definition zero : spec_float := S754_zero false.

(** The float32 an int64 is converted to: the nearest one, ties to even. *)
Definition of_int (z : Z) : spec_float := binary_normalize prec emax z 0 false.

(** The number a float holds; infinities and NaN hold none. *)
Definition value (x : spec_float) : option Q :=
  match x with
  | S754_zero _ => Some 0%Q
  | S754_finite s m e =>
      Some (Qred (inject_Z (cond_Zopp s (Zpos m)) * Qpower 2 e))
  | S754_infinity _ => None
  | S754_nan => None
  end.

End Float32.

(** * A concrete run

    Floating point values are read as rationals; the model answers fixed
    logits, the loss of a batch is its number of labels, and the metric
    function answers a dict, as the trainer expects. *)

Module Demo.

Definition fzero : Q := 0%Q.
Definition fadd : Q -> Q -> Q := Qplus.
Definition fdiv (x : Q) (n : Z) : Q := Qred (x / inject_Z n)%Q.
Definition fle : Q -> Q -> bool := Qle_bool.

(** The model computes in float32: the conversion leaves its outputs. *)
Definition to_float32 (x : Q) : Q := x.

Definition forward (m : Z) (mode : bool) (data : Tensor2 Z)
  : result (Tensor3 Q) :=
  Ok (mkT3 (dim0 data) (dim1 data) 2
           (fun j k c => inject_Z (Z.of_nat (j + k + c)))).

Definition loss_fn (cls : Tensor2 Q) (labels : list Z) : result Q :=
  Ok (inject_Z (Z.of_nat (length labels))).

Definition optimizer_step (m o : Z) (data : Tensor2 Z) (labels : list Z)
  : Z * Z := (m + 1, o + 1).

Definition argmax1 (cls : Tensor2 Q) : list Z := replicate (dim0 cls) 1.

Definition f1 (output target : list Z) (num_classes : Z) (a : average)
  : result Q :=
  Ok (match a with micro => 1 # 2 | macro => 1 # 3 | weighted => 1 # 4 end)%Q.

Definition now (epoch : Z) : datetime := mkDatetime 2024 3 7 9 5 42.

(** A metric function of the shape the trainer calls: three arguments, a
    dict of named values. *)
Definition metric_fn (args : list pyval) : result (@metric_out Q) :=
  match args with
  | [PyLists output; PyLists target; PyInt n] =>
      Ok (MDict [("f1_micro"%string, (1 # 2)%Q); ("f1_macro"%string, (1 # 3)%Q);
                 ("f1_weighted"%string, (1 # 4)%Q)])
  | _ => Raise TypeError
  end.

Definition names : list string :=
  ["f1_micro"; "f1_macro"; "f1_weighted"]%string.

Definition cfg (dir : string) : Config := mkConfig names dir 2 false "".

Definition one_row (tokens : list Z) : Tensor2 Z :=
  mkT2 1 (length tokens) (fun _ k => nth k tokens 0).

Definition batches : list batch :=
  [mkBatch (one_row [101; 7; 8]) [3];
   mkBatch (one_row [101; 7; 101; 9]) [3; 5];
   mkBatch (one_row [101; 4]) [2]].

Definition the_setup (dir : string) : @Setup Q :=
  mkSetup metric_fn 339 2 2 (cfg dir) 101 batches batches.

Definition history : gmap string (list Q) :=
  <["f1_micro"%string := []]>
    (<["f1_macro"%string := []]> (<["f1_weighted"%string := []]> ∅)).

Definition best0 : gmap string Q :=
  <["best_f1_micro"%string := 0%Q]>
    (<["best_f1_macro"%string := 0%Q]> (<["best_f1_weighted"%string := 0%Q]> ∅)).

(** The trainer the constructor builds for this setup. *)
Definition trainer (dir : string) : @Trainer Q Z Z :=
  mkTrainer (the_setup dir) 0 0 0 best0 (mkMetrics history history)
            (mkLosses [] []).

(** The same trainer with the repository's metric function. *)
Definition repo_trainer : @Trainer Q Z Z :=
  mkTrainer (main_setup f1 339 2 2 (cfg "checkpoints/") 101 batches batches)
            0 0 0 best0 (mkMetrics history history) (mkLosses [] []).

Definition data : Tensor2 Z :=
  mkT2 2 3 (fun j k => nth k (nth j [[0; 5; 0]; [7; 0; 0]] []) 9).

Definition logits : Tensor3 Z :=
  mkT3 2 3 2 (fun j k c => Z.of_nat (100 * j + 10 * k + c)).

End Demo.

Lemma demo_init :
  init Demo.fzero (Demo.the_setup "checkpoints/") 0 0 (Some tt) []
  = Ok (Demo.trainer "checkpoints/").
Proof. vm_compute. reflexivity. Qed.

Lemma demo_has_best_attrs (dir : string) : has_best_attrs (Demo.trainer dir).
Proof.
  intros i [<-|[<-|[<-|[]]]]; vm_compute; eauto.
Defined.

(** [prepare_device] asked for five GPUs on a machine with two. *)
Lemma prepare_device_clamps_witness :
  0 <= 2 /\
  (let '((dev, ids), out) := prepare_device 2 5 in
   Z.of_nat (length ids) <= 2
   /\ ids = range 0 (clamped_count 2 5)
   /\ (0 < 5 -> 2 = 0 -> dev = cpu /\ ids = [] /\ out = [warn_no_gpu])
   /\ (dev = cuda0 <-> 0 < clamped_count 2 5)).
Proof. split; [lia | apply (prepare_device_clamps 2 5); lia]. Defined.

(** [collate] on two samples of lengths 2 and 3, with one and two labels. *)
Lemma collate_pads_and_concatenates_witness :
  exists b,
    collate [mkSample [101; 7] [3]; mkSample [101; 7; 8] [4; 5]] = Ok b
    /\ dim0 (b_data b) = 2%nat
    /\ b_labels b = [3; 4; 5].
Proof.
  destruct (collate_pads_and_concatenates
              [mkSample [101; 7] [3]; mkSample [101; 7; 8] [4; 5]])
    as (b & Hc & Hd & _ & _ & _ & Hl & _); [discriminate|].
  exists b. split; [exact Hc|]. split; [exact Hd | exact Hl].
Defined.

(** C7, as stated, fails: one sample holding a table of two columns has two
    labels, and the batch of this single example has two labels. *)
Lemma collate_label_count_counterexample :
  exists b,
    collate [mkSample [101; 7; 101; 9] [3; 5]] = Ok b
    /\ tolist2 (b_data b) = [[101; 7; 101; 9]]
    /\ b_labels b = [3; 5]
    /\ length (b_labels b) <> length [mkSample [101; 7; 101; 9] [3; 5]].
Proof.
  eexists. split; [reflexivity|]. split; [reflexivity|].
  split; [reflexivity | discriminate].
Qed.

(** [get_token_logits] on a batch of two examples with four matches and
    int64 logits: the rows hold their float32 conversions. *)
Lemma get_token_logits_rows_witness :
  exists r,
    get_token_logits Float32.zero Float32.of_int Demo.data Demo.logits 0 = Ok r
    /\ dim0 r = 4%nat
    /\ nonzero_eq Demo.data 0 = [(0, 0); (0, 2); (1, 1); (1, 2)]%nat
    /\ at2 r 2 1 = Float32.of_int 111
    /\ Float32.value (at2 r 2 1) = Some (111 # 1)%Q.
Proof.
  destruct (get_token_logits_rows Float32.zero Float32.of_int Demo.data
              Demo.logits 0)
    as (r & Hr & Hd & _ & _ & _ & _ & Hrows); [simpl; lia | simpl; lia |].
  exists r. split; [exact Hr|]. split; [exact Hd|]. split; [reflexivity|].
  pose proof (Hrows 2%nat 1%nat 1%nat eq_refl 1%nat) as H.
  split; [exact H|]. rewrite H. reflexivity.
Defined.

(** C6, as stated, fails: an int64 logit of 2^24 + 1 is stored as the
    float32 2^24, so the row is not the logits vector. *)
Lemma get_token_logits_rounds_counterexample :
  let data := mkT2 1 1 (fun _ _ => 101) in
  let logits := mkT3 1 1 1 (fun _ _ _ => 16777217) in
  exists r,
    get_token_logits Float32.zero Float32.of_int data logits 101 = Ok r
    /\ nonzero_eq data 101 = [(0, 0)]%nat
    /\ at3 logits 0 0 0 = 16777217
    /\ Float32.value (at2 r 0 0) = Some (16777216 # 1)%Q
    /\ ~ (16777216 # 1 == inject_Z (at3 logits 0 0 0))%Q.
Proof.
  eexists. split; [reflexivity|]. split; [reflexivity|].
  split; [reflexivity|]. split; [vm_compute; reflexivity|].
  vm_compute. discriminate.
Qed.

(** Saving the best checkpoint of epoch 3 and loading it back. *)
Lemma checkpoint_round_trip_witness :
  exists fs' t',
    _save_checkpoint (Demo.trainer "checkpoints/") 3
                     (losses (Demo.trainer "checkpoints/"))
                     (metrics (Demo.trainer "checkpoints/"))
                     true (Some "f1_micro"%string) (Demo.now 3) [] = Ok fs'
    /\ _load_checkpoint (Demo.trainer "checkpoints/")
                        "checkpoints/model_best_f1_micro.pt" fs' = Ok t'
    /\ start_epoch t' = 4
    /\ model t' = 0.
Proof.
  destruct (checkpoint_round_trip
              (Demo.trainer "checkpoints/") (Demo.trainer "checkpoints/") 3
              true (Some "f1_micro"%string) (Demo.now 3) [])
    as (fs' & t' & Hs & Hl & Hm & _ & _ & _ & _ & He & _);
    [apply demo_has_best_attrs | reflexivity |].
  exists fs', t'. split; [exact Hs|]. split; [exact Hl|].
  split; [exact He | exact Hm].
Defined.

(** The two kinds of save with the directory [checkpoints/]. *)
Lemma checkpoint_files_paths_witness :
  (exists ck,
      _save_checkpoint (Demo.trainer "checkpoints/") 3 (mkLosses [] [])
                       (mkMetrics Demo.history Demo.history)
                       true (Some "f1_micro"%string) (Demo.now 3) []
      = Ok [("checkpoints/model_best_f1_micro.pt"%string, ck)])
  /\ (exists ck,
         _save_checkpoint (Demo.trainer "checkpoints/") 3 (mkLosses [] [])
                          (mkMetrics Demo.history Demo.history)
                          false None (Demo.now 3) []
         = Ok [("checkpoints/model_epoch_3_datetime-07-03-24_09-05-42.pt"%string,
                ck)]).
Proof.
  destruct (checkpoint_files_paths
              (Demo.trainer "checkpoints/") 3 (mkLosses [] [])
              (mkMetrics Demo.history Demo.history) (Demo.now 3) []
              "f1_micro"%string (demo_has_best_attrs "checkpoints/"))
    as ((ck1 & H1) & (ck2 & H2) & _).
  split; [exists ck1; exact H1 | exists ck2; exact H2].
Defined.

(** C9, as stated, fails: with the directory [checkpoints] the best
    checkpoint goes to [checkpointsmodel_best_f1_micro.pt], not to
    [checkpoints/model_best_f1_micro.pt], and likewise for the periodic
    one. *)
Lemma checkpoint_path_counterexample :
  (exists ck,
      _save_checkpoint (Demo.trainer "checkpoints") 3 (mkLosses [] [])
                       (mkMetrics Demo.history Demo.history)
                       true (Some "f1_micro"%string) (Demo.now 3) []
      = Ok [("checkpointsmodel_best_f1_micro.pt"%string, ck)])
  /\ "checkpointsmodel_best_f1_micro.pt"%string
     <> spec_best_path "checkpoints" "f1_micro"
  /\ (exists ck,
         _save_checkpoint (Demo.trainer "checkpoints") 3 (mkLosses [] [])
                          (mkMetrics Demo.history Demo.history)
                          false None (Demo.now 3) []
         = Ok [("checkpointsmodel_epoch_3_datetime-07-03-24_09-05-42.pt"%string,
                ck)])
  /\ "checkpointsmodel_epoch_3_datetime-07-03-24_09-05-42.pt"%string
     <> spec_periodic_path "checkpoints" 3 (strftime (Demo.now 3)).
Proof.
  split; [eexists; vm_compute; reflexivity|].
  split; [vm_compute; discriminate|].
  split; [eexists; vm_compute; reflexivity|].
  vm_compute; discriminate.
Qed.

(** What the metric function of the run answers. *)
Definition demo_values : list (string * Q) :=
  [("f1_micro"%string, (1 # 2)%Q); ("f1_macro"%string, (1 # 3)%Q);
   ("f1_weighted"%string, (1 # 4)%Q)].

(** Epoch 0 of the run: the validation value 1/2 of [f1_micro] against the
    stored best 0. *)
Lemma track_best_updates_witness :
  exists t' new ck,
    epoch_body Demo.fzero Demo.fadd Demo.fdiv Demo.fle Demo.to_float32
               Demo.forward Demo.loss_fn Demo.optimizer_step None Demo.argmax1
               Demo.now (Demo.trainer "checkpoints/", []) 0
    = Ok (t', new ++ [])
    /\ best t' !! "best_f1_micro"%string = Some (1 # 2)%Q
    /\ In ("checkpoints/model_best_f1_micro.pt"%string, ck) new
    /\ ck_epoch ck = 0
    /\ ck_best_metrics ck !! "best_f1_micro"%string = Some (1 # 2)%Q.
Proof.
  destruct (_train_epoch Demo.fzero Demo.fadd Demo.fdiv Demo.to_float32
              Demo.forward Demo.loss_fn Demo.optimizer_step None Demo.argmax1
              (Demo.trainer "checkpoints/")) as [[t1 out_t]|] eqn:Et;
    [|vm_compute in Et; discriminate Et].
  destruct (_validate_epoch Demo.fzero Demo.fadd Demo.fdiv Demo.to_float32
              Demo.forward Demo.loss_fn Demo.argmax1 t1) as [out_v|] eqn:Ev;
    [|vm_compute in Et; injection Et as <- <-; vm_compute in Ev;
      discriminate Ev].
  assert (Hdt : eo_metrics out_t = MDict demo_values)
    by (vm_compute in Et; injection Et as <- <-; reflexivity).
  assert (Hdv : eo_metrics out_v = MDict demo_values)
    by (vm_compute in Et; injection Et as <- <-; vm_compute in Ev;
        injection Ev as <-; reflexivity).
  destruct (track_best_updates Demo.fzero Demo.fadd Demo.fdiv Demo.fle
              Demo.to_float32 Demo.forward Demo.loss_fn Demo.optimizer_step
              None Demo.argmax1 Demo.now 0 (Demo.trainer "checkpoints/") t1 []
              out_t out_v demo_values demo_values
              (demo_has_best_attrs "checkpoints/"))
    as (t' & new & Hrun & Hall);
    [ vm_compute; discriminate
    | exact Et
    | exact Hdt
    | intros m v [[= <- <-]|[[= <- <-]|[[= <- <-]|[]]]]; vm_compute; eauto
    | exact Ev
    | exact Hdv
    | unfold demo_values; cbn [map fst];
      repeat (apply NoDup_cons_2;
              [rewrite ?elem_of_cons, ?elem_of_nil; intuition discriminate|]);
      apply NoDup_nil_2
    | intros m v [[= <- <-]|[[= <- <-]|[[= <- <-]|[]]]]; split; vm_compute; eauto
    | ].
  destruct (Hall "f1_micro"%string (1 # 2)%Q 0%Q) as [Hup _];
    [now left | reflexivity |].
  destruct (Hup eq_refl) as (Hb & ck & Hin & _ & He & _ & Hval).
  exists t', new, ck. split; [exact Hrun|]. split; [exact Hb|].
  split; [exact Hin|]. split; [exact He|]. apply Hval. now left.
Defined.

(** The run of two epochs with period 2: the periodic checkpoint of epoch 0
    is written, none of epoch 1. *)
Lemma periodic_save_multiples_witness :
  exists t' fs' ck,
    train Demo.fzero Demo.fadd Demo.fdiv Demo.fle Demo.to_float32 Demo.forward
          Demo.loss_fn Demo.optimizer_step None Demo.argmax1 Demo.now
          (Demo.trainer "checkpoints/") [] = Ok (t', fs')
    /\ In ("checkpoints/model_epoch_0_datetime-07-03-24_09-05-42.pt"%string, ck)
          fs'
    /\ ck_epoch ck = 0
    /\ forall ck',
         ~ In ("checkpoints/model_epoch_1_datetime-07-03-24_09-05-42.pt"%string,
               ck') fs'.
Proof.
  destruct (train Demo.fzero Demo.fadd Demo.fdiv Demo.fle Demo.to_float32
              Demo.forward Demo.loss_fn Demo.optimizer_step None Demo.argmax1
              Demo.now (Demo.trainer "checkpoints/") []) as [[t' fs']|] eqn:E;
    [|vm_compute in E; discriminate E].
  destruct (periodic_save_multiples Demo.fzero Demo.fadd Demo.fdiv Demo.fle
              Demo.to_float32 Demo.forward Demo.loss_fn Demo.optimizer_step
              None Demo.argmax1 Demo.now (Demo.trainer "checkpoints/") [] t' fs'
              E) as (new & Hfs & Hall & _).
  rewrite app_nil_r in Hfs. subst new.
  destruct (Hall 0) as (_ & Hmul & _); [cbn; lia|].
  destruct Hmul as (ck & Hin & He); [exists 0; reflexivity|].
  exists t', fs', ck. split; [reflexivity|]. split; [exact Hin|].
  split; [exact He|].
  destruct (Hall 1) as (_ & _ & Hnot); [cbn; lia|].
  intros ck'. apply (Hnot (fun H => match H with
                                    | ex_intro _ k Hk => ltac:(cbn in Hk; lia)
                                    end) (Demo.now 1) ck').
Defined.

Lemma Qle_bool_refl (x : Q) : Qle_bool x x = true.
Proof. apply Qle_bool_iff. apply Qle_refl. Qed.

Lemma Qle_bool_trans (x y z : Q) :
  Qle_bool x y = true -> Qle_bool y z = true -> Qle_bool x z = true.
Proof.
  rewrite !Qle_bool_iff. intros H1 H2. eapply Qle_trans; eassumption.
Qed.

(** The states of a run of two epochs. *)
Definition demo_states : list (@Trainer Q Z Z * @Files Q Z Z) :=
  (Demo.trainer "checkpoints/", [])
    :: epoch_states Demo.fzero Demo.fadd Demo.fdiv Demo.fle Demo.to_float32 Demo.forward
         Demo.loss_fn Demo.optimizer_step None Demo.argmax1 Demo.now
         [0; 1] (Demo.trainer "checkpoints/", []).

(** From the start of the run to the end of epoch 0. *)
Lemma best_values_monotone_witness :
  exists s2 b2,
    demo_states !! 1%nat = Some s2
    /\ best s2.1 !! "best_f1_micro"%string = Some b2
    /\ raised Demo.fle 0%Q b2
    /\ Demo.fle 0%Q b2 = true.
Proof.
  destruct (demo_states !! 1%nat) as [s2|] eqn:E;
    [|vm_compute in E; discriminate E].
  destruct (best_values_monotone Demo.fzero Demo.fadd Demo.fdiv Demo.fle
              Demo.to_float32 Demo.forward Demo.loss_fn Demo.optimizer_step
              None Demo.argmax1 Demo.now [0; 1]
              (Demo.trainer "checkpoints/", []) "best_f1_micro"%string 0%nat
              (Demo.trainer "checkpoints/", []) s2 0%Q eq_refl E eq_refl)
    as (b2 & H1 & H2 & H3).
  exists s2, b2. split; [reflexivity|]. split; [exact H1|].
  split; [exact H2|].
  destruct (H3 Qle_bool_trans) as [_ H4].
  apply H4.
  - intros x y _. apply Qle_bool_refl.
  - intros name b _. apply Qle_bool_refl.
Defined.

(** The comparison of floating point numbers with a NaN, [None] here, that
    compares false with everything, itself included: it is not reflexive,
    and has the two properties the monotonicity of the best values rests
    on. *)
Definition fle_nan (x y : option Q) : bool :=
  match x, y with
  | Some a, Some b => Qle_bool a b
  | _, _ => false
  end.

Lemma fle_nan_not_refl : fle_nan None None = false.
Proof. reflexivity. Qed.

Lemma fle_nan_trans (x y z : option Q) :
  fle_nan x y = true -> fle_nan y z = true -> fle_nan x z = true.
Proof.
  destruct x as [a|], y as [b|], z as [c|]; simpl; try discriminate.
  apply Qle_bool_trans.
Qed.

Lemma fle_nan_right (x y : option Q) :
  fle_nan x y = true -> fle_nan y y = true.
Proof.
  destruct x as [a|], y as [b|]; simpl; try discriminate.
  intros _. apply Qle_bool_refl.
Qed.

(** The run of two epochs returns, with the best values of the metric
    function and seven writes, newest first: three best and one periodic at
    epoch 0, the three best written again on the tie of epoch 1. *)
Example demo_train_returns :
  exists s,
    train Demo.fzero Demo.fadd Demo.fdiv Demo.fle Demo.to_float32 Demo.forward Demo.loss_fn
          Demo.optimizer_step None Demo.argmax1 Demo.now
          (Demo.trainer "checkpoints/") [] = Ok s
    /\ best s.1 !! "best_f1_micro"%string = Some (1 # 2)%Q
    /\ map fst s.2
       = ["checkpoints/model_best_f1_weighted.pt";
          "checkpoints/model_best_f1_macro.pt";
          "checkpoints/model_best_f1_micro.pt";
          "checkpoints/model_epoch_0_datetime-07-03-24_09-05-42.pt";
          "checkpoints/model_best_f1_weighted.pt";
          "checkpoints/model_best_f1_macro.pt";
          "checkpoints/model_best_f1_micro.pt"]%string.
Proof. eexists. split; [vm_compute; reflexivity|]. split; reflexivity. Qed.

(** Three batches whose losses are 1, 2 and 1, with batch size 2. *)
Lemma epoch_loss_over_batch_size_witness :
  exists t' out_t out_v,
    _train_epoch Demo.fzero Demo.fadd Demo.fdiv Demo.to_float32 Demo.forward Demo.loss_fn
                 Demo.optimizer_step None Demo.argmax1
                 (Demo.trainer "checkpoints/") = Ok (t', out_t)
    /\ _validate_epoch Demo.fzero Demo.fadd Demo.fdiv Demo.to_float32 Demo.forward
                       Demo.loss_fn Demo.argmax1
                       (Demo.trainer "checkpoints/") = Ok out_v
    /\ (exists ls,
           eo_loss out_t = Demo.fdiv (foldl Demo.fadd Demo.fzero ls) 2)
    /\ (exists ls,
           eo_loss out_v = Demo.fdiv (foldl Demo.fadd Demo.fzero ls) 2).
Proof.
  destruct (_train_epoch Demo.fzero Demo.fadd Demo.fdiv Demo.to_float32 Demo.forward
              Demo.loss_fn Demo.optimizer_step None Demo.argmax1
              (Demo.trainer "checkpoints/")) as [[t' out_t]|] eqn:Et;
    [|vm_compute in Et; discriminate Et].
  destruct (_validate_epoch Demo.fzero Demo.fadd Demo.fdiv Demo.to_float32 Demo.forward
              Demo.loss_fn Demo.argmax1 (Demo.trainer "checkpoints/"))
    as [out_v|] eqn:Ev; [|vm_compute in Ev; discriminate Ev].
  destruct (epoch_loss_over_batch_size Demo.fzero Demo.fadd Demo.fdiv
              Demo.to_float32 Demo.forward Demo.loss_fn Demo.optimizer_step None Demo.argmax1
              (Demo.trainer "checkpoints/") t' (Demo.trainer "checkpoints/")
              out_t out_v Et Ev)
    as ((ls1 & _ & H1 & _) & (ls2 & _ & H2 & _)).
  exists t', out_t, out_v. split; [reflexivity|]. split; [reflexivity|].
  split; [exists ls1; exact H1 | exists ls2; exact H2].
Defined.

(** The loss reported for the three batches is 4 / 2, not 4 / 3. *)
Example demo_epoch_loss :
  exists t' out,
    _train_epoch Demo.fzero Demo.fadd Demo.fdiv Demo.to_float32 Demo.forward Demo.loss_fn
                 Demo.optimizer_step None Demo.argmax1
                 (Demo.trainer "checkpoints/") = Ok (t', out)
    /\ eo_loss out = (2 # 1)%Q
    /\ length (train_dataloader (setup (Demo.trainer "checkpoints/"))) = 3%nat
    /\ batch_size (setup (Demo.trainer "checkpoints/")) = 2.
Proof. eexists _, _. split; [vm_compute; reflexivity|]. repeat split. Qed.

(** With the repository's metric function the first training pass raises
    [TypeError], and so does the run. *)
Example repo_train_epoch_raises :
  _train_epoch Demo.fzero Demo.fadd Demo.fdiv Demo.to_float32 Demo.forward Demo.loss_fn
               Demo.optimizer_step None Demo.argmax1 Demo.repo_trainer
  = Raise TypeError
  /\ train Demo.fzero Demo.fadd Demo.fdiv Demo.fle Demo.to_float32 Demo.forward Demo.loss_fn
           Demo.optimizer_step None Demo.argmax1 Demo.now Demo.repo_trainer []
     = Raise TypeError.
Proof. split; vm_compute; reflexivity. Qed.

(** Called with the two arguments it declares, the repository's metric
    function answers an unnamed triple, which has no keys to record under. *)
Example repo_metric_two_arguments :
  multiple_f1_score Demo.f1 [PyLists [[1; 0]; [2; 2]]; PyLists [[1; 1]; [2; 0]]]
  = Ok (MTuple [(1 # 2)%Q; (1 # 3)%Q; (1 # 4)%Q])
  /\ items (MTuple [(1 # 2)%Q; (1 # 3)%Q; (1 # 4)%Q]) = Raise AttributeError.
Proof. split; reflexivity. Qed.

(** * Concrete runs of the further properties *)

(** Trainers like the one above, with other metric names, another period
    or a checkpoint to start from. *)
Definition demo_trainer_with (metrics_cfg : list string) (period : Z)
    (best_now : gmap string Q) (hist : gmap string (list Q))
  : @Trainer Q Z Z :=
  mkTrainer
    (mkSetup Demo.metric_fn 339 2 2
             (mkConfig metrics_cfg "checkpoints/" period false "") 101
             Demo.batches Demo.batches)
    0 0 0 best_now (mkMetrics hist hist) (mkLosses [] []).

Definition demo_resume_setup : @Setup Q :=
  mkSetup Demo.metric_fn 339 2 2
          (mkConfig Demo.names "checkpoints/" 2 true
                    "model_epoch_1_datetime-07-03-24_09-05-42.pt")
          101 Demo.batches Demo.batches.

Definition demo_checkpoint : @Checkpoint Q Z Z :=
  mkCheckpoint 1 5 5 (mkLosses [(2 # 1)%Q] [(2 # 1)%Q])
               (mkMetrics Demo.history Demo.history) Demo.best0.

(** Two samples with three occurrences of token id 101 between them. *)
Lemma collate_keeps_token_count_witness :
  exists b,
    collate [mkSample [101; 7] [3]; mkSample [101; 7; 101] [4; 5]] = Ok b
    /\ count_token (b_data b) 101 = 3%nat.
Proof.
  destruct (collate_keeps_token_count
              [mkSample [101; 7] [3]; mkSample [101; 7; 101] [4; 5]] 101)
    as (b & Hc & Hn); [discriminate | discriminate |].
  exists b. split; [exact Hc | exact Hn].
Defined.

(** Five GPUs asked for on a machine with two. *)
Lemma prepare_device_warnings_witness :
  0 <= 2 /\
  (let '((dev, ids), out) := prepare_device 2 5 in
   (length out <= 1)%nat
   /\ (out = [] <-> 5 <= 2)
   /\ (5 <= 2 -> ids = range 0 5 /\ dev = (if 0 <? 5 then cuda0 else cpu))
   /\ (0 < 2 < 5 ->
       ids = range 0 2 /\ dev = cuda0 /\ out = [warn_too_many 5 2])).
Proof. split; [lia | apply (prepare_device_warnings 2 5); lia]. Defined.

(** A state dict of two entries, wrapped and filtered back. *)
Lemma filter_model_state_dict_unwraps_witness :
  filter_model_state_dict
    (data_parallel_state_dict
       [("bert.embeddings.weight"%string, 1); ("classifier.bias"%string, 2)])
  = [("bert.embeddings.weight"%string, 1); ("classifier.bias"%string, 2)].
Proof.
  assert (H : NoDup (map fst [("bert.embeddings.weight"%string, 1);
                              ("classifier.bias"%string, 2)])).
  { apply (bool_decide_unpack _). vm_compute. exact I. }
  exact (proj1 (filter_model_state_dict_unwraps _ H)).
Defined.

(** A checkpoint of the three F1 metrics loaded by a trainer configured with
    a fourth metric. *)
Lemma load_unknown_metric_raises_witness :
  exists fs',
    _save_checkpoint (Demo.trainer "checkpoints/") 0
                     (losses (Demo.trainer "checkpoints/"))
                     (metrics (Demo.trainer "checkpoints/"))
                     false None (Demo.now 0) [] = Ok fs'
    /\ _load_checkpoint
         (demo_trainer_with (Demo.names ++ ["accuracy"%string]) 2 Demo.best0
                            Demo.history)
         "checkpoints/model_epoch_0_datetime-07-03-24_09-05-42.pt" fs'
       = Raise KeyError.
Proof.
  apply (load_unknown_metric_raises
           (Demo.trainer "checkpoints/")
           (demo_trainer_with (Demo.names ++ ["accuracy"%string]) 2 Demo.best0
                              Demo.history)
           0 false None (Demo.now 0) [] "accuracy"%string
           (demo_has_best_attrs "checkpoints/")).
  - right; right; right; left; reflexivity.
  - intros [H|[H|[H|[]]]]; discriminate H.
Defined.

(** A run with period 0. *)
Lemma zero_period_aborts_witness :
  exists err,
    train Demo.fzero Demo.fadd Demo.fdiv Demo.fle Demo.to_float32 Demo.forward Demo.loss_fn
          Demo.optimizer_step None Demo.argmax1 Demo.now
          (demo_trainer_with Demo.names 0 Demo.best0 Demo.history) []
    = Raise err.
Proof.
  destruct (zero_period_aborts Demo.fzero Demo.fadd Demo.fdiv Demo.fle
              Demo.to_float32 Demo.forward Demo.loss_fn Demo.optimizer_step None Demo.argmax1
              Demo.now (demo_trainer_with Demo.names 0 Demo.best0 Demo.history)
              [])
    as (_ & _ & err & H); [reflexivity | reflexivity |].
  exists err. exact H.
Defined.

(** The period 0 raises [ZeroDivisionError], after the first epoch's work. *)
Example demo_zero_period :
  train Demo.fzero Demo.fadd Demo.fdiv Demo.fle Demo.to_float32 Demo.forward Demo.loss_fn
        Demo.optimizer_step None Demo.argmax1 Demo.now
        (demo_trainer_with Demo.names 0 Demo.best0 Demo.history) []
  = Raise ZeroDivisionError.
Proof. vm_compute. reflexivity. Qed.

(** A trainer configured with [f1_micro] only, whose metric function also
    answers [f1_macro]. *)
Lemma unknown_metric_name_raises_witness :
  epoch_body Demo.fzero Demo.fadd Demo.fdiv Demo.fle Demo.to_float32 Demo.forward Demo.loss_fn
             Demo.optimizer_step None Demo.argmax1 Demo.now
             (demo_trainer_with ["f1_micro"%string] 2
                                (<["best_f1_micro"%string := 0%Q]> ∅)
                                (<["f1_micro"%string := []]> ∅), []) 0
  = Raise KeyError.
Proof.
  destruct (_train_epoch Demo.fzero Demo.fadd Demo.fdiv Demo.to_float32 Demo.forward
              Demo.loss_fn Demo.optimizer_step None Demo.argmax1
              (demo_trainer_with ["f1_micro"%string] 2
                                 (<["best_f1_micro"%string := 0%Q]> ∅)
                                 (<["f1_micro"%string := []]> ∅)))
    as [[t1 out]|] eqn:E; [|vm_compute in E; discriminate E].
  assert (Hm : eo_metrics out
               = MDict [("f1_micro"%string, (1 # 2)%Q);
                        ("f1_macro"%string, (1 # 3)%Q);
                        ("f1_weighted"%string, (1 # 4)%Q)]).
  { pose proof E as E'. vm_compute in E'. injection E' as _ <-. reflexivity. }
  apply (unknown_metric_name_raises Demo.fzero Demo.fadd Demo.fdiv Demo.fle
           Demo.to_float32 Demo.forward Demo.loss_fn Demo.optimizer_step None Demo.argmax1
           Demo.now _ t1 [] 0 out _ "f1_macro"%string E Hm).
  - right; left; reflexivity.
  - reflexivity.
Defined.

(** The run of two epochs: two values more in each loss history. *)
Lemma histories_grow_witness :
  exists t' fs' lt lv,
    train Demo.fzero Demo.fadd Demo.fdiv Demo.fle Demo.to_float32 Demo.forward Demo.loss_fn
          Demo.optimizer_step None Demo.argmax1 Demo.now
          (Demo.trainer "checkpoints/") [] = Ok (t', fs')
    /\ l_train (losses t') = lt /\ l_valid (losses t') = lv
    /\ length lt = 2%nat /\ length lv = 2%nat.
Proof.
  destruct (train Demo.fzero Demo.fadd Demo.fdiv Demo.fle Demo.to_float32 Demo.forward
              Demo.loss_fn Demo.optimizer_step None Demo.argmax1 Demo.now
              (Demo.trainer "checkpoints/") []) as [[t' fs']|] eqn:E;
    [|vm_compute in E; discriminate E].
  destruct (histories_grow Demo.fzero Demo.fadd Demo.fdiv Demo.fle Demo.to_float32 Demo.forward
              Demo.loss_fn Demo.optimizer_step None Demo.argmax1 Demo.now
              (Demo.trainer "checkpoints/") t' [] fs' E)
    as ((lt & lv & Hlt & Hlv & Nt & Nv) & _).
  exists t', fs', lt, lv. split; [reflexivity|].
  split; [exact Hlt|]. split; [exact Hlv|]. split; [exact Nt | exact Nv].
Defined.

(** The first epoch of the run: the model after it is the one its training
    pass left. *)
Lemma validation_keeps_model_witness :
  exists t' fs' t1 out,
    epoch_body Demo.fzero Demo.fadd Demo.fdiv Demo.fle Demo.to_float32 Demo.forward
               Demo.loss_fn Demo.optimizer_step None Demo.argmax1 Demo.now
               (Demo.trainer "checkpoints/", []) 0 = Ok (t', fs')
    /\ _train_epoch Demo.fzero Demo.fadd Demo.fdiv Demo.to_float32 Demo.forward Demo.loss_fn
                    Demo.optimizer_step None Demo.argmax1
                    (Demo.trainer "checkpoints/") = Ok (t1, out)
    /\ model t' = model t1 /\ optimizer t' = optimizer t1.
Proof.
  destruct (epoch_body Demo.fzero Demo.fadd Demo.fdiv Demo.fle Demo.to_float32 Demo.forward
              Demo.loss_fn Demo.optimizer_step None Demo.argmax1 Demo.now
              (Demo.trainer "checkpoints/", []) 0) as [[t' fs']|] eqn:E;
    [|vm_compute in E; discriminate E].
  destruct (_train_epoch Demo.fzero Demo.fadd Demo.fdiv Demo.to_float32 Demo.forward
              Demo.loss_fn Demo.optimizer_step None Demo.argmax1
              (Demo.trainer "checkpoints/")) as [[t1 out]|] eqn:Et;
    [|vm_compute in Et; discriminate Et].
  destruct (validation_keeps_model Demo.fzero Demo.fadd Demo.fdiv Demo.fle
              Demo.to_float32 Demo.forward Demo.loss_fn Demo.optimizer_step None Demo.argmax1
              Demo.now (Demo.trainer "checkpoints/") t1 t' [] fs' 0 out E Et)
    as (Hm & Ho & _).
  exists t', fs', t1, out. split; [reflexivity|]. split; [reflexivity|].
  split; [exact Hm | exact Ho].
Defined.

(** The files of the first epoch of the run. *)
Lemma epoch_files_witness :
  exists t' fs' new,
    epoch_body Demo.fzero Demo.fadd Demo.fdiv Demo.fle Demo.to_float32 Demo.forward
               Demo.loss_fn Demo.optimizer_step None Demo.argmax1 Demo.now
               (Demo.trainer "checkpoints/", []) 0 = Ok (t', fs')
    /\ fs' = new ++ []
    /\ forall p ck, In (p, ck) new ->
                    ck_epoch ck = 0 /\ ck_model_state_dict ck = model t'.
Proof.
  destruct (epoch_body Demo.fzero Demo.fadd Demo.fdiv Demo.fle Demo.to_float32 Demo.forward
              Demo.loss_fn Demo.optimizer_step None Demo.argmax1 Demo.now
              (Demo.trainer "checkpoints/", []) 0) as [[t' fs']|] eqn:E;
    [|vm_compute in E; discriminate E].
  destruct (epoch_files Demo.fzero Demo.fadd Demo.fdiv Demo.fle Demo.to_float32 Demo.forward
              Demo.loss_fn Demo.optimizer_step None Demo.argmax1 Demo.now
              (Demo.trainer "checkpoints/") t' [] fs' 0 E)
    as (new & Hfs & Hnew & _).
  exists t', fs', new. split; [reflexivity|]. split; [exact Hfs|].
  intros p ck Hin. destruct (Hnew p ck Hin) as (He & Hm & _). auto.
Defined.

(** Loading the checkpoint of epoch 1, the last of two epochs. *)
Lemma resume_runs_remaining_epochs_witness :
  exists t,
    _load_checkpoint (Demo.trainer "checkpoints/") "checkpoints/last.pt"
                     [("checkpoints/last.pt"%string, demo_checkpoint)] = Ok t
    /\ start_epoch t = 2
    /\ train Demo.fzero Demo.fadd Demo.fdiv Demo.fle Demo.to_float32 Demo.forward Demo.loss_fn
             Demo.optimizer_step None Demo.argmax1 Demo.now t [] = Ok (t, []).
Proof.
  destruct (_load_checkpoint (Demo.trainer "checkpoints/") "checkpoints/last.pt"
              [("checkpoints/last.pt"%string, demo_checkpoint)])
    as [t|] eqn:E; [|vm_compute in E; discriminate E].
  destruct (resume_runs_remaining_epochs Demo.fzero Demo.fadd Demo.fdiv Demo.fle
              Demo.to_float32 Demo.forward Demo.loss_fn Demo.optimizer_step None Demo.argmax1
              Demo.now (Demo.trainer "checkpoints/") t "checkpoints/last.pt"
              [("checkpoints/last.pt"%string, demo_checkpoint)] E)
    as (ck & Hck & He & Hdone & _).
  injection Hck as <-.
  exists t. split; [reflexivity|]. split; [exact He|].
  apply Hdone. cbn. lia.
Defined.

(** Two batches of predictions of sizes 2 and 1. *)
Lemma multiple_f1_score_ragged_witness :
  multiple_f1_score Demo.f1 [PyLists [[1; 0]; [2]]; PyLists [[1; 1]; [2]]]
  = Raise ValueError.
Proof.
  refine (proj1 (multiple_f1_score_ragged Demo.f1 [1; 0] [[2]] _ _) _ _).
  - repeat constructor.
  - discriminate.
  - exists [2]. split; [now left | discriminate].
Defined.

(** The loop over [f1_micro] then [f1_macro] on the fresh trainer. *)
Lemma best_checkpoint_is_mid_loop_witness :
  exists t' later ck,
    for_each (track_best Demo.fle Demo.now 0)
             [("f1_micro"%string, (1 # 2)%Q); ("f1_macro"%string, (1 # 3)%Q)]
             (Demo.trainer "checkpoints/", [])
    = Ok (t', later ++ [("checkpoints/model_best_f1_micro.pt"%string, ck)])
    /\ m_valid (ck_metrics ck) !! "f1_micro"%string = Some [(1 # 2)%Q]
    /\ m_valid (ck_metrics ck) !! "f1_macro"%string = Some []
    /\ m_valid (metrics t') !! "f1_macro"%string = Some [(1 # 3)%Q].
Proof.
  destruct (best_checkpoint_is_mid_loop Demo.fle Demo.now 0
              (Demo.trainer "checkpoints/") [] "f1_micro"%string
              "f1_macro"%string (1 # 2)%Q (1 # 3)%Q 0%Q 0%Q [] []
              (demo_has_best_attrs "checkpoints/"))
    as (t' & later & ck & Hrun & _ & H1 & H2 & H3 & _);
    [discriminate | reflexivity | reflexivity | reflexivity | reflexivity
     | reflexivity |].
  exists t', later, ck. split; [exact Hrun|].
  split; [exact H1|]. split; [exact H2 | exact H3].
Defined.

(** The constructor told to start from the periodic checkpoint of epoch 1,
    after the best checkpoint of epoch 2 was written. *)
Lemma init_resumes_witness :
  exists fs' t',
    _save_checkpoint (Demo.trainer "checkpoints/") 1
                     (losses (Demo.trainer "checkpoints/"))
                     (metrics (Demo.trainer "checkpoints/"))
                     false None (Demo.now 1) [] = Ok fs'
    /\ init Demo.fzero demo_resume_setup 9 9 (Some tt)
            (("checkpoints/model_best_f1_micro.pt"%string, demo_checkpoint)
               :: fs') = Ok t'
    /\ start_epoch t' = 2
    /\ model t' = 0.
Proof.
  destruct (init_resumes Demo.fzero (Demo.trainer "checkpoints/") 1 (Demo.now 1)
              [] [("checkpoints/model_best_f1_micro.pt"%string, demo_checkpoint)]
              demo_resume_setup 9 9 tt (demo_has_best_attrs "checkpoints/"))
    as (fs' & t' & Hs & Hi & He & Hm & _);
    [reflexivity | reflexivity | reflexivity | reflexivity | reflexivity |].
  exists fs', t'. split; [exact Hs|]. split; [exact Hi|].
  split; [exact He | exact Hm].
Defined.

(** The constructor on the setup of the run. *)
Lemma init_fresh_witness :
  exists t,
    init Demo.fzero (Demo.the_setup "checkpoints/") 7 8 (Some tt) [] = Ok t
    /\ model t = 7 /\ optimizer t = 8
    /\ best t !! "best_f1_macro"%string = Some 0%Q
    /\ m_valid (metrics t) !! "accuracy"%string = None.
Proof.
  destruct (proj2 (init_fresh Demo.fzero (Demo.the_setup "checkpoints/") 7 8 [])
                  eq_refl tt)
    as (t & Hi & _ & _ & Hm & Ho & _ & Hin & Hout).
  exists t. split; [exact Hi|]. split; [exact Hm|]. split; [exact Ho|].
  split.
  - apply (Hin "f1_macro"%string). right; left; reflexivity.
  - apply (Hout "accuracy"%string). intros [H|[H|[H|[]]]]; discriminate H.
Defined.

